(** * Task Notifier: the scheduling predicate, the poll cycle, the delivery
      dispatcher and the notification store of [TaskNotifier.py]

    The development embeds the methods of [NotifierApp] that decide when a
    reminder fires, how it is delivered and how the list is persisted, and
    proves the properties the design document states about them.

    Conventions of the embedding.
    - A Python [str] is a [string]; each character stands for one code point
      (the model covers the code points below 256).
    - A Python [int] is a [Z].
    - A Python [dict] is an association list in insertion order whose keys
      are pairwise distinct; [json.dump] writes the keys in that order.
    - A statement that may raise returns an [outcome]; [try]/[except] is
      [try_except].
    - Each [datetime.now()] of the source is an argument of the function that
      reads it, so that two reads need not give the same instant.
    - A call into the platform may return or raise, as an environment record
      says for each call site: the calls the source guards with [try], and
      also the [print] of the poll cycle, which raises when the stream
      refuses the text, and the calls on the window when it is closed or
      shown ([destroy], [deiconify]), which the source does not guard.  A
      call that answers a question or shows a box ([os.path.exists], the
      dialogs of the store) returns.  What Python computes on values ([int], [str], [strptime],
      [json]) is modelled as Python computes it, exceptions included. *)

From Stdlib Require Import ZArith List String Ascii Bool Lia.
Import ListNotations.

Open Scope string_scope.
Open Scope Z_scope.

(* ===================================================================== *)
(** * Exceptions and outcomes *)
(* ===================================================================== *)

Inductive exn : Type :=
| TypeError
| ValueError
| AttributeError
| OSError
| RuntimeError
| JSONDecodeError
| OtherError (msg : string).

Inductive outcome (A : Type) : Type :=
| Ret (a : A)
| Raise (e : exn).

Arguments Ret {A} a.
Arguments Raise {A} e.

Definition bind {A B : Type} (m : outcome A) (k : A -> outcome B) : outcome B :=
  match m with
  | Ret a => k a
  | Raise e => Raise e
  end.

(** [try: m except Exception as e: h e] *)
Definition try_except {A : Type} (m : outcome A) (h : exn -> outcome A) : outcome A :=
  match m with
  | Ret a => Ret a
  | Raise e => h e
  end.

Definition raises {A : Type} (m : outcome A) : bool :=
  match m with
  | Ret _ => false
  | Raise _ => true
  end.

Notation "x <- m ;; k" := (bind m (fun x => k))
  (at level 61, m at next level, right associativity).

(* ===================================================================== *)
(** * Characters and decimal text *)
(* ===================================================================== *)

Definition code (c : ascii) : Z := Z.of_N (N_of_ascii c).

Definition chr (n : Z) : ascii := ascii_of_N (Z.to_N n).

Definition is_digit (c : ascii) : bool := (48 <=? code c) && (code c <=? 57).

Definition digit_val (c : ascii) : Z := code c - 48.

Definition digit_char (d : Z) : ascii := chr (48 + d).

(** [str.isspace] on the code points below 256; it is also the class [\s] of
    a [str] pattern. *)
Definition is_space (c : ascii) : bool :=
  let n := code c in
  ((9 <=? n) && (n <=? 13)) || ((28 <=? n) && (n <=? 32))
  || (n =? 133) || (n =? 160).

(** The decimal digits of [n >= 0] in front of [acc], most significant
    first; [fuel] bounds the number of digits. *)
Fixpoint digits_of (fuel : nat) (n : Z) (acc : string) : string :=
  match fuel with
  | O => acc
  | S f =>
      if n <? 10 then String (digit_char n) acc
      else digits_of f (n / 10) (String (digit_char (n mod 10)) acc)
  end.

Definition str_nat (n : Z) : string := digits_of (S (Z.to_nat (Z.log2 n))) n "".

(** [str(n)] for an [int]. *)
Definition str_int (n : Z) : string :=
  if n <? 0 then String "-"%char (str_nat (- n)) else str_nat n.

(** Text that does not begin with a digit. *)
Definition no_digit_ahead (s : string) : Prop :=
  match s with String c _ => is_digit c | EmptyString => false end = false.

(** The longest run of digits at the start of [s], read after the value
    [acc], and the text after it. *)
Fixpoint scan_digits (acc : Z) (s : string) : Z * string :=
  match s with
  | String c s' =>
      if is_digit c then scan_digits (10 * acc + digit_val c) s' else (acc, s)
  | EmptyString => (acc, s)
  end.

(** The [w] low-order decimal digits of [n]. *)
Fixpoint fixed_digits (w : nat) (n : Z) : string :=
  match w with
  | O => ""
  | S w' => fixed_digits w' (n / 10) ++ String (digit_char (n mod 10)) ""
  end.

(** [%0wd] of a non-negative [n]: at least [w] digits, padded with zeros. *)
Definition zfill (w : nat) (n : Z) : string :=
  if n <? 10 ^ Z.of_nat w then fixed_digits w n else str_int n.

Fixpoint join (sep : string) (l : list string) : string :=
  match l with
  | [] => ""
  | [x] => x
  | x :: rest => x ++ sep ++ join sep rest
  end.

Fixpoint contains_char (c : ascii) (s : string) : bool :=
  match s with
  | EmptyString => false
  | String a s' => Ascii.eqb a c || contains_char c s'
  end.

Definition dquote : ascii := "034"%char.

Definition backslash : ascii := "092"%char.

Definition hex_digit (d : Z) : ascii :=
  if d <? 10 then chr (48 + d) else chr (87 + d).

(* ===================================================================== *)
(** * Python values *)
(* ===================================================================== *)

(** The values [json.load] builds, floats apart. *)
#[warnings="-register-all"]
Inductive value : Type :=
| VNone
| VBool (b : bool)
| VInt (z : Z)
| VStr (s : string)
| VList (l : list value)
| VDict (d : list (string * value)).

Definition dict : Type := list (string * value).

Fixpoint dict_lookup (k : string) (d : dict) : option value :=
  match d with
  | [] => None
  | (k', v) :: d' => if String.eqb k' k then Some v else dict_lookup k d'
  end.

(** [d.get(k, default)] *)
Definition get (d : dict) (k : string) (default : value) : value :=
  match dict_lookup k d with
  | Some v => v
  | None => default
  end.

(** [d[k] = v]: an existing key keeps its place, a new key goes last. *)
Fixpoint dict_set (k : string) (v : value) (d : dict) : dict :=
  match d with
  | [] => [(k, v)]
  | (k', v') :: d' =>
      if String.eqb k' k then (k', v) :: d' else (k', v') :: dict_set k v d'
  end.

(** [bool(v)] *)
Definition truthy (v : value) : bool :=
  match v with
  | VNone => false
  | VBool b => b
  | VInt z => negb (z =? 0)
  | VStr s => negb (String.eqb s "")
  | VList l => match l with [] => false | _ => true end
  | VDict d => match d with [] => false | _ => true end
  end.

(** [v == s] for a [str] [s]: only an equal [str] is equal to it. *)
Definition eq_str (v : value) (s : string) : bool :=
  match v with
  | VStr t => String.eqb t s
  | _ => false
  end.

(** [repr(s)] of a [str]: single quotes unless the text has a single quote
    and no double quote; the quote and the backslash are escaped, and so is
    every character that is not printable. *)
Definition printable (c : ascii) : bool :=
  let n := code c in
  ((32 <=? n) && (n <? 127)) || ((161 <=? n) && negb (n =? 173)).

Definition repr_char (quote c : ascii) : string :=
  if Ascii.eqb c quote || Ascii.eqb c backslash then String backslash (String c "")
  else if code c =? 9 then "\t"
  else if code c =? 10 then "\n"
  else if code c =? 13 then "\r"
  else if printable c then String c ""
  else "\x" ++ String (hex_digit (code c / 16)) (String (hex_digit (code c mod 16)) "").

Fixpoint repr_chars (quote : ascii) (s : string) : string :=
  match s with
  | EmptyString => ""
  | String c s' => repr_char quote c ++ repr_chars quote s'
  end.

Definition repr_str (s : string) : string :=
  let quote : ascii :=
    if contains_char "'"%char s && negb (contains_char dquote s)
    then dquote else "'"%char in
  String quote (repr_chars quote s) ++ String quote "".

(** [repr(v)] *)
Fixpoint py_repr (v : value) : string :=
  match v with
  | VNone => "None"
  | VBool true => "True"
  | VBool false => "False"
  | VInt z => str_int z
  | VStr s => repr_str s
  | VList l => "[" ++ join ", " (map py_repr l) ++ "]"
  | VDict d =>
      "{" ++ join ", " (map (fun kv : string * value =>
                               let (k, x) := kv in
                               repr_str k ++ ": " ++ py_repr x) d) ++ "}"
  end.

(** [str(v)], which is what an f-string field [{v}] inserts. *)
Definition py_str (v : value) : string :=
  match v with
  | VStr s => s
  | _ => py_repr v
  end.

(** ** [str.strip] and [int(v)] *)

(** The text without the characters of the class [space] at its start. *)
Fixpoint lstrip_of (space : ascii -> bool) (s : string) : string :=
  match s with
  | String c s' => if space c then lstrip_of space s' else s
  | EmptyString => ""
  end.

(** The text without the characters of the class [space] at its end. *)
Fixpoint rstrip_of (space : ascii -> bool) (s : string) : string :=
  match s with
  | EmptyString => ""
  | String c s' =>
      match rstrip_of space s' with
      | EmptyString => if space c then "" else String c ""
      | r => String c r
      end
  end.

(** The white space [int] skips around a number: the white space of ASCII
    and, above it, the characters of [str.isspace]; the separators 28 to 31,
    which [str.isspace] has, are not skipped. *)
Definition is_int_space (c : ascii) : bool :=
  let n := code c in
  ((9 <=? n) && (n <=? 13)) || (n =? 32) || (n =? 133) || (n =? 160).

(** Digits with single underscores between them, read after the value [acc];
    [after_digit] says whether the previous character was a digit. *)
Fixpoint int_digits (acc : Z) (after_digit : bool) (s : string) : option Z :=
  match s with
  | EmptyString => if after_digit then Some acc else None
  | String c s' =>
      if is_digit c then int_digits (10 * acc + digit_val c) true s'
      else if Ascii.eqb c "_"%char && after_digit then int_digits acc false s'
      else None
  end.

(** The number of digits of a text; [int] refuses a text of more than
    [int_max_str_digits] digits. *)
Fixpoint count_digits (s : string) : Z :=
  match s with
  | EmptyString => 0
  | String c s' => (if is_digit c then 1 else 0) + count_digits s'
  end.

Definition int_max_str_digits : Z := 4300.

Definition int_of_str (s : string) : outcome Z :=
  let t := rstrip_of is_int_space (lstrip_of is_int_space s) in
  let (neg, body) :=
    match t with
    | String "-"%char r => (true, r)
    | String "+"%char r => (false, r)
    | _ => (false, t)
    end in
  match int_digits 0 false body with
  | Some n =>
      if count_digits body <=? int_max_str_digits
      then Ret (if neg then - n else n)
      else Raise ValueError
  | None => Raise ValueError
  end.

Definition py_int (v : value) : outcome Z :=
  match v with
  | VNone => Raise TypeError
  | VBool b => Ret (if b then 1 else 0)
  | VInt z => Ret z
  | VStr s => int_of_str s
  | VList _ => Raise TypeError
  | VDict _ => Raise TypeError
  end.

(* ===================================================================== *)
(** * The fragment of [datetime] the scheduler uses *)
(* ===================================================================== *)

Record datetime : Type := mk_datetime {
  year : Z;
  month : Z;
  day : Z;
  hour : Z;
  minute : Z;
  second : Z
}.

Definition _is_leap (y : Z) : bool :=
  (y mod 4 =? 0) && (negb (y mod 100 =? 0) || (y mod 400 =? 0)).

Definition _DAYS_IN_MONTH : list Z :=
  [-1; 31; 28; 31; 30; 31; 30; 31; 31; 30; 31; 30; 31].

Definition _DAYS_BEFORE_MONTH : list Z :=
  [-1; 0; 31; 59; 90; 120; 151; 181; 212; 243; 273; 304; 334].

Definition _days_before_year (y : Z) : Z :=
  let y' := y - 1 in
  y' * 365 + y' / 4 - y' / 100 + y' / 400.

Definition _days_in_month (y m : Z) : Z :=
  if (m =? 2) && _is_leap y then 29
  else nth (Z.to_nat m) _DAYS_IN_MONTH (-1).

Definition _days_before_month (y m : Z) : Z :=
  nth (Z.to_nat m) _DAYS_BEFORE_MONTH (-1)
  + (if (2 <? m) && _is_leap y then 1 else 0).

Definition _ymd2ord (y m d : Z) : Z :=
  _days_before_year y + _days_before_month y m + d.

Definition toordinal (t : datetime) : Z := _ymd2ord (year t) (month t) (day t).

(** [t.weekday()]: Monday is 0, Sunday is 6. *)
Definition weekday (t : datetime) : Z := (toordinal t + 6) mod 7.

Definition _isoweek1monday (y : Z) : Z :=
  let firstday := _ymd2ord y 1 1 in
  let firstweekday := (firstday + 6) mod 7 in
  let week1monday := firstday - firstweekday in
  if 3 <? firstweekday then week1monday + 7 else week1monday.

(** [t.isocalendar()]: ISO year, ISO week, ISO day. *)
Definition isocalendar (t : datetime) : Z * Z * Z :=
  let y := year t in
  let week1monday := _isoweek1monday y in
  let today := _ymd2ord (year t) (month t) (day t) in
  let week := (today - week1monday) / 7 in
  let d := (today - week1monday) mod 7 in
  if week <? 0 then
    let y1 := y - 1 in
    let w1m := _isoweek1monday y1 in
    (y1, (today - w1m) / 7 + 1, (today - w1m) mod 7 + 1)
  else if 52 <=? week then
    if _isoweek1monday (y + 1) <=? today then (y + 1, 0 + 1, d + 1)
    else (y, week + 1, d + 1)
  else (y, week + 1, d + 1).

(** The values a [datetime] object can hold. *)
Definition valid_datetime (t : datetime) : bool :=
  (1 <=? year t) && (year t <=? 9999)
  && (1 <=? month t) && (month t <=? 12)
  && (1 <=? day t) && (day t <=? _days_in_month (year t) (month t))
  && (0 <=? hour t) && (hour t <=? 23)
  && (0 <=? minute t) && (minute t <=? 59)
  && (0 <=? second t) && (second t <=? 59).

(** ** [strftime]

    [%Y] is written with four digits and the other fields with two, padded
    with zeros. *)

(** [t.strftime("%Y-%m-%d")] *)
Definition strftime_date (t : datetime) : string :=
  zfill 4 (year t) ++ "-" ++ zfill 2 (month t) ++ "-" ++ zfill 2 (day t).

(** [t.strftime("%H:%M")] *)
Definition strftime_hm (t : datetime) : string :=
  zfill 2 (hour t) ++ ":" ++ zfill 2 (minute t).

(** [t.strftime("%Y-%m-%d %H:%M")] *)
Definition strftime_minute (t : datetime) : string :=
  strftime_date t ++ " " ++ strftime_hm t.

(** ** [strptime(text, "%Y-%m-%d %H:%M")]

    [_strptime] turns the format into the pattern
    [(?P<Y>\d\d\d\d)-(?P<m>1[0-2]|0[1-9]|[1-9])-(?P<d>3[0-1]|[1-2]\d|0[1-9]|[1-9]| [1-9])]
    [\s+(?P<H>2[0-3]|[0-1]\d|\d):(?P<M>[0-5]\d|\d)],
    takes the first match at the start of the text in the order a
    backtracking matcher finds them, and raises [ValueError] when there is
    none, when text is left after it, or when the date does not exist.
    A [matcher] lists the ways its pattern matches a prefix, first choice
    first, each with the text left. *)

Definition matcher (A : Type) : Type := string -> list (A * string).

Definition m_ret {A : Type} (a : A) : matcher A := fun s => [(a, s)].

Definition m_bind {A B : Type} (m : matcher A) (k : A -> matcher B) : matcher B :=
  fun s => flat_map (fun r : A * string => k (fst r) (snd r)) (m s).

Definition m_alt {A : Type} (m1 m2 : matcher A) : matcher A :=
  fun s => (m1 s ++ m2 s)%list.

(** One character of the class [p]. *)
Definition m_char (p : ascii -> bool) : matcher ascii :=
  fun s =>
    match s with
    | String c s' => if p c then [(c, s')] else []
    | EmptyString => []
    end.

Definition m_lit (c : ascii) : matcher ascii := m_char (Ascii.eqb c).

(** A digit whose value lies between [lo] and [hi]. *)
Definition m_digit (lo hi : Z) : matcher Z :=
  m_bind (m_char (fun c => is_digit c && (lo <=? digit_val c) && (digit_val c <=? hi)))
         (fun c => m_ret (digit_val c)).

(** Two digits, read as a number. *)
Definition m_two (lo1 hi1 lo2 hi2 : Z) : matcher Z :=
  m_bind (m_digit lo1 hi1) (fun a =>
  m_bind (m_digit lo2 hi2) (fun b => m_ret (10 * a + b))).

(** [\s+], greedy: the longest run first. *)
Fixpoint m_spaces (s : string) : list (unit * string) :=
  match s with
  | String c s' => if is_space c then (m_spaces s' ++ [(tt, s')])%list else []
  | EmptyString => []
  end.

Definition re_Y : matcher Z :=
  m_bind (m_digit 0 9) (fun a =>
  m_bind (m_digit 0 9) (fun b =>
  m_bind (m_digit 0 9) (fun c =>
  m_bind (m_digit 0 9) (fun d => m_ret (1000 * a + 100 * b + 10 * c + d))))).

Definition re_m : matcher Z :=
  m_alt (m_two 1 1 0 2) (m_alt (m_two 0 0 1 9) (m_digit 1 9)).

Definition re_d : matcher Z :=
  m_alt (m_two 3 3 0 1)
  (m_alt (m_two 1 2 0 9)
  (m_alt (m_two 0 0 1 9)
  (m_alt (m_digit 1 9)
         (m_bind (m_lit " "%char) (fun _ => m_digit 1 9))))).

Definition re_H : matcher Z :=
  m_alt (m_two 2 2 0 3) (m_alt (m_two 0 1 0 9) (m_digit 0 9)).

Definition re_M : matcher Z :=
  m_alt (m_two 0 5 0 9) (m_digit 0 9).

Definition re_minute_format : matcher datetime :=
  m_bind re_Y (fun Y =>
  m_bind (m_lit "-"%char) (fun _ =>
  m_bind re_m (fun m =>
  m_bind (m_lit "-"%char) (fun _ =>
  m_bind re_d (fun d =>
  m_bind m_spaces (fun _ =>
  m_bind re_H (fun H =>
  m_bind (m_lit ":"%char) (fun _ =>
  m_bind re_M (fun M => m_ret (mk_datetime Y m d H M 0)))))))))).

Definition strptime_minute (text : string) : outcome datetime :=
  match re_minute_format text with
  | [] => Raise ValueError
  | (t, rest) :: _ =>
      match rest with
      | EmptyString =>
          if (1 <=? year t) && (day t <=? _days_in_month (year t) (month t))
          then Ret t
          else Raise ValueError
      | String _ _ => Raise ValueError
      end
  end.

(* ===================================================================== *)
(** * Scheduling: [_time_matches_now], [_should_fire], [_mark_fired] *)
(* ===================================================================== *)

(** [tnow] is the [datetime.now()] this method reads. *)
Definition _time_matches_now (tnow : datetime) (time_str : value) : outcome bool :=
  try_except (Ret (eq_str time_str (strftime_hm tnow))) (fun _ => Ret false).

(** [f"{year}-W{weeknum}"] of [now.isocalendar()] *)
Definition current_week (now : datetime) : string :=
  let '(y, weeknum, _) := isocalendar now in
  str_int y ++ "-W" ++ str_int weeknum.

(** [now] is the [datetime.now()] read on entry, [tnow] the one read by
    [_time_matches_now]. *)
Definition _should_fire (now tnow : datetime) (notif : dict) : outcome bool :=
  let repeat := get notif "repeat" (VStr "Once") in
  let time_str := get notif "time" (VStr "00:00") in
  let date_str := get notif "date" VNone in
  if eq_str repeat "Once" then
    if truthy (get notif "delivered" VNone) then Ret false
    else if negb (truthy date_str) then Ret false
    else
      match strptime_minute (py_str date_str ++ " " ++ py_str time_str) with
      | Raise _ => Ret false
      | Ret due_dt =>
          Ret (String.eqb (strftime_minute now) (strftime_minute due_dt))
      end
  else if eq_str repeat "Daily" then
    m <- _time_matches_now tnow time_str ;;
    if negb m then Ret false
    else
      let last := get notif "last_fired_date" VNone in
      Ret (negb (eq_str last (strftime_date now)))
  else if eq_str repeat "Weekly" then
    cw <- py_int (get notif "created_weekday" (VInt (weekday now))) ;;
    if negb (weekday now =? cw) then Ret false
    else
      m <- _time_matches_now tnow time_str ;;
      if negb m then Ret false
      else
        let last_week := get notif "last_fired_week" VNone in
        Ret (negb (eq_str last_week (current_week now)))
  else Ret false.

(** The record after [_mark_fired]; [now] is the [datetime.now()] it reads. *)
Definition _mark_fired (now : datetime) (notif : dict) : dict :=
  let repeat := get notif "repeat" (VStr "Once") in
  if eq_str repeat "Once" then dict_set "delivered" (VBool true) notif
  else if eq_str repeat "Daily" then
    dict_set "last_fired_date" (VStr (strftime_date now)) notif
  else if eq_str repeat "Weekly" then
    dict_set "last_fired_week" (VStr (current_week now)) notif
  else notif.

(** The fire-memory field [_mark_fired] writes for a repeat mode. *)
Definition fire_memory_field (repeat : value) : option string :=
  if eq_str repeat "Once" then Some "delivered"
  else if eq_str repeat "Daily" then Some "last_fired_date"
  else if eq_str repeat "Weekly" then Some "last_fired_week"
  else None.

(** The text [_should_fire] hands to [strptime]: [f"{date_str} {time_str}"]. *)
Definition due_text (notif : dict) : string :=
  py_str (get notif "date" VNone) ++ " " ++ py_str (get notif "time" (VStr "00:00")).

(** The instant at the start of the calendar minute of [t]. *)
Definition start_of_minute (t : datetime) : datetime :=
  mk_datetime (year t) (month t) (day t) (hour t) (minute t) 0.

(** The first choice of a matcher on a text. *)
Definition first_match {A : Type} (m : matcher A) (s : string) (x : A * string) : Prop :=
  exists l, m s = x :: l.

(** The calendar minute and the calendar day of an instant. *)
Definition minute_of (t : datetime) : Z * Z * Z * Z * Z :=
  (year t, month t, day t, hour t, minute t).

Definition date_of (t : datetime) : Z * Z * Z := (year t, month t, day t).

Definition iso_week_of (t : datetime) : Z * Z :=
  let '(y, w, _) := isocalendar t in (y, w).

(* ===================================================================== *)
(** * Effects: calls into the platform and their traces *)
(* ===================================================================== *)

(** A computation that calls into the platform yields the calls it made, in
    order, and its outcome.  The calls made before an exception stay in the
    trace. *)
Definition traced (E A : Type) : Type := list E * outcome A.

Definition t_ret {E A : Type} (a : A) : traced E A := ([], Ret a).

Definition t_bind {E A B : Type} (m : traced E A) (k : A -> traced E B) : traced E B :=
  match m with
  | (tr, Ret a) => let (tr', r) := k a in ((tr ++ tr')%list, r)
  | (tr, Raise e) => (tr, Raise e)
  end.

Definition t_try {E A : Type} (m : traced E A) (h : exn -> traced E A) : traced E A :=
  match m with
  | (tr, Ret a) => (tr, Ret a)
  | (tr, Raise e) => let (tr', r) := h e in ((tr ++ tr')%list, r)
  end.

(** One call, recorded as [ev], whose result the platform decides. *)
Definition t_call {E A : Type} (ev : E) (result : outcome A) : traced E A :=
  ([ev], result).

Notation "x <~ m ;; k" := (t_bind m (fun x => k))
  (at level 61, m at next level, right associativity).

(* ===================================================================== *)
(** * Delivery: [_play_sound], [_deliver_notification] *)
(* ===================================================================== *)

Inductive winsound_call : Type :=
| PlaySound
| MessageBeep.

(** The five mechanisms of the dispatcher, in the order of the source. *)
Inductive mechanism : Type :=
| Sound
| PrimaryToast
| SecondaryToast
| GenericLibrary
| ModalDialog.

(** An invocation of a mechanism and whether it returned normally. *)
Record attempt : Type := mk_attempt {
  mech : mechanism;
  succeeded : bool
}.

(** What the platform answers to each call site of one delivery.  Every call
    site runs at most once in a delivery, so one answer per site covers all
    the platform can do. *)
Record delivery_env : Type := mk_delivery_env {
  is_windows : bool;                  (* platform.system() == "Windows" *)
  default_sound_exists : bool;        (* self.default_sound and os.path.exists(...) *)
  PlaySound_result : outcome unit;    (* winsound.PlaySound(...) *)
  MessageBeep_result : outcome unit;  (* winsound.MessageBeep() of the else branch *)
  MessageBeep_retry_result : outcome unit; (* winsound.MessageBeep() of the handler *)
  toaster_present : bool;             (* self.toaster is not None *)
  show_toast_result : outcome unit;   (* self.toaster.show_toast(...) *)
  winotify_available : bool;          (* os.name == 'nt' and WINDOWS_NOTIFICATIONS_AVAILABLE
                                         and Notification is not None *)
  winotify_result : outcome unit;     (* Notification(...) and toast.show() *)
  plyer_available : bool;             (* PLYER_AVAILABLE and plyer_notification is not None *)
  plyer_result : outcome unit;        (* plyer_notification.notify(...) *)
  showinfo_result : outcome unit      (* messagebox.showinfo(title, message) *)
}.

Definition _play_sound (env : delivery_env) : traced winsound_call unit :=
  if negb (is_windows env) then t_ret tt
  else
    t_try
      (if default_sound_exists env
       then t_call PlaySound (PlaySound_result env)
       else t_call MessageBeep (MessageBeep_result env))
      (fun _ =>
         t_try (t_call MessageBeep (MessageBeep_retry_result env))
               (fun _ => t_ret tt)).

(** A guarded block [try: call; return / except Exception: pass]: the
    mechanism is invoked once, and the result says whether the method
    returned there. *)
Definition try_mechanism (m : mechanism) (result : outcome unit) : traced attempt bool :=
  t_try (_ <~ t_call (mk_attempt m (negb (raises result))) result ;; t_ret true)
        (fun _ => t_ret false).

Definition _deliver_notification (env : delivery_env)
    (title message : value) (image_path : option string) : traced attempt unit :=
  _ <~ (let (_, r) := _play_sound env in
        t_call (mk_attempt Sound (negb (raises r))) r) ;;
  returned <~ (if toaster_present env
               then try_mechanism PrimaryToast (show_toast_result env)
               else t_ret false) ;;
  if returned then t_ret tt else
  returned <~ (if winotify_available env
               then try_mechanism SecondaryToast (winotify_result env)
               else t_ret false) ;;
  if returned then t_ret tt else
  returned <~ (if plyer_available env
               then try_mechanism GenericLibrary (plyer_result env)
               else t_ret false) ;;
  if returned then t_ret tt else
  _ <~ try_mechanism ModalDialog (showinfo_result env) ;;
  t_ret tt.

(** ** The dispatch rule in the words of the design *)

(** The toast and dialog mechanisms in their fixed order, each with whether
    it is available and what invoking it gives. *)
Definition candidates (env : delivery_env) : list (mechanism * bool * outcome unit) :=
  [ (PrimaryToast, toaster_present env, show_toast_result env);
    (SecondaryToast, winotify_available env, winotify_result env);
    (GenericLibrary, plyer_available env, plyer_result env);
    (ModalDialog, true, showinfo_result env) ].

(** Try the available candidates in order and stop after the first one that
    succeeds. *)
Fixpoint first_success_wins (cs : list (mechanism * bool * outcome unit)) : list attempt :=
  match cs with
  | [] => []
  | (m, available, result) :: rest =>
      if available then
        if raises result then mk_attempt m false :: first_success_wins rest
        else [mk_attempt m true]
      else first_success_wins rest
  end.

Definition rank (m : mechanism) : nat :=
  match m with
  | Sound => 0
  | PrimaryToast => 1
  | SecondaryToast => 2
  | GenericLibrary => 3
  | ModalDialog => 4
  end.

(** The ranks of a trace rise strictly: the mechanisms come in the fixed
    order and none comes twice. *)
Fixpoint strictly_ordered (l : list nat) : Prop :=
  match l with
  | [] => True
  | a :: rest =>
      match rest with
      | [] => True
      | b :: _ => (a < b)%nat /\ strictly_ordered rest
      end
  end.

(* ===================================================================== *)
(** * The [json] module on the values of the model *)
(* ===================================================================== *)

(** ** [json.dumps(v, ensure_ascii=False, indent=2)] *)

Definition newline : ascii := "010"%char.

Fixpoint spaces (n : nat) : string :=
  match n with
  | O => ""
  | S n' => String " "%char (spaces n')
  end.

(** A line break followed by the indentation of nesting level [level]. *)
Definition newline_indent (level : nat) : string :=
  String newline (spaces (2 * level)).

(** The escape of one character: the quote, the backslash and the control
    characters are escaped, everything else is written as it is. *)
Definition escape_char (c : ascii) : string :=
  let n := code c in
  if n =? 34 then String backslash (String dquote "")
  else if n =? 92 then String backslash (String backslash "")
  else if n =? 8 then String backslash "b"
  else if n =? 12 then String backslash "f"
  else if n =? 10 then String backslash "n"
  else if n =? 13 then String backslash "r"
  else if n =? 9 then String backslash "t"
  else if n <? 32 then
    String backslash ("u00" ++ String (hex_digit (n / 16)) (String (hex_digit (n mod 16)) ""))
  else String c "".

Fixpoint escape (s : string) : string :=
  match s with
  | EmptyString => ""
  | String c s' => escape_char c ++ escape s'
  end.

Definition encode_basestring (s : string) : string :=
  String dquote (escape s ++ String dquote "").

Fixpoint encode (level : nat) (v : value) : string :=
  match v with
  | VNone => "null"
  | VBool true => "true"
  | VBool false => "false"
  | VInt z => str_int z
  | VStr s => encode_basestring s
  | VList [] => "[]"
  | VList l =>
      "[" ++ newline_indent (S level)
      ++ join ("," ++ newline_indent (S level)) (map (encode (S level)) l)
      ++ newline_indent level ++ "]"
  | VDict [] => "{}"
  | VDict d =>
      "{" ++ newline_indent (S level)
      ++ join ("," ++ newline_indent (S level))
           (map (fun kv : string * value =>
                   let (k, x) := kv in
                   encode_basestring k ++ ": " ++ encode (S level) x) d)
      ++ newline_indent level ++ "}"
  end.

Definition json_dumps (v : value) : outcome string := Ret (encode 0 v).

(** ** [json.loads(text)]

    The decoder of the [json] module.  Two things lie outside the model and
    give [OtherError]: a number with a fraction or an exponent (and [NaN],
    [Infinity]), which is a [float], and an escape [\uXXXX] above 255. *)

Definition outside_model : exn := OtherError "outside the model".

Definition is_json_ws (c : ascii) : bool :=
  let n := code c in (n =? 32) || (n =? 9) || (n =? 10) || (n =? 13).

Fixpoint skip_ws (s : string) : string :=
  match s with
  | String c s' => if is_json_ws c then skip_ws s' else s
  | EmptyString => ""
  end.

(** The character an escape [\c] stands for. *)
Definition unescape (c : ascii) : option ascii :=
  let n := code c in
  if n =? 34 then Some dquote
  else if n =? 92 then Some backslash
  else if n =? 47 then Some "/"%char
  else if n =? 98 then Some (chr 8)
  else if n =? 102 then Some (chr 12)
  else if n =? 110 then Some (chr 10)
  else if n =? 114 then Some (chr 13)
  else if n =? 116 then Some (chr 9)
  else None.

Definition hex_val (c : ascii) : option Z :=
  let n := code c in
  if (48 <=? n) && (n <=? 57) then Some (n - 48)
  else if (97 <=? n) && (n <=? 102) then Some (n - 87)
  else if (65 <=? n) && (n <=? 70) then Some (n - 55)
  else None.

Definition hex4 (a b c d : ascii) : option Z :=
  match hex_val a, hex_val b, hex_val c, hex_val d with
  | Some x, Some y, Some z, Some w => Some (4096 * x + 256 * y + 16 * z + w)
  | _, _, _, _ => None
  end.

(** The text of a string literal, read after its opening quote, and the text
    after its closing quote. *)
Fixpoint scanstring (s : string) : outcome (string * string) :=
  match s with
  | EmptyString => Raise JSONDecodeError
  | String c s' =>
      if Ascii.eqb c dquote then Ret ("", s')
      else if Ascii.eqb c backslash then
        match s' with
        | EmptyString => Raise JSONDecodeError
        | String e s'' =>
            if Ascii.eqb e "u"%char then
              match s'' with
              | String h1 (String h2 (String h3 (String h4 rest))) =>
                  match hex4 h1 h2 h3 h4 with
                  | Some n =>
                      if n <? 256 then
                        r <- scanstring rest ;;
                        Ret (String (chr n) (fst r), snd r)
                      else Raise outside_model
                  | None => Raise JSONDecodeError
                  end
              | _ => Raise JSONDecodeError
              end
            else
              match unescape e with
              | Some ch => r <- scanstring s'' ;; Ret (String ch (fst r), snd r)
              | None => Raise JSONDecodeError
              end
        end
      else if code c <? 32 then Raise JSONDecodeError
      else r <- scanstring s' ;; Ret (String c (fst r), snd r)
  end.

(** Whether a fraction [\.[0-9]+] or an exponent [[eE][-+]?[0-9]+] starts
    here, which makes the number a float. *)
Definition float_tail (s : string) : bool :=
  match s with
  | String c (String d rest) =>
      if Ascii.eqb c "."%char then is_digit d
      else if Ascii.eqb c "e"%char || Ascii.eqb c "E"%char then
        is_digit d
        || ((Ascii.eqb d "+"%char || Ascii.eqb d "-"%char)
            && match rest with String x _ => is_digit x | EmptyString => false end)
      else false
  | _ => false
  end.

(** The integer part [0|[1-9][0-9]*] of a number. *)
Definition scan_integer (s : string) : option (Z * string) :=
  match s with
  | String c s' =>
      if Ascii.eqb c "0"%char then Some (0, s')
      else if is_digit c then Some (scan_digits 0 s)
      else None
  | EmptyString => None
  end.

(** A number at the start of [s]: an optional minus sign and the integer
    part. *)
Definition scan_number (s : string) : outcome (value * string) :=
  let (neg, body) :=
    match s with
    | String c s' => if Ascii.eqb c "-"%char then (true, s') else (false, s)
    | EmptyString => (false, s)
    end in
  match scan_integer body with
  | Some (n, rest) =>
      if float_tail rest then Raise outside_model
      else Ret (VInt (if neg then - n else n), rest)
  | None =>
      match s with
      | String "N"%char (String "a"%char (String "N"%char _)) => Raise outside_model
      | String "I"%char (String "n"%char (String "f"%char (String "i"%char
          (String "n"%char (String "i"%char (String "t"%char (String "y"%char _))))))) =>
          Raise outside_model
      | String "-"%char (String "I"%char (String "n"%char (String "f"%char (String "i"%char
          (String "n"%char (String "i"%char (String "t"%char (String "y"%char _)))))))) =>
          Raise outside_model
      | _ => Raise JSONDecodeError
      end
  end.

(** [dict(pairs)]: a later pair with the same key replaces the value. *)
Definition dict_of_pairs (pairs : list (string * value)) : dict :=
  fold_left (fun d kv => dict_set (fst kv) (snd kv) d) pairs [].

(** [scan_once] reads one value; [array_items] reads the items of an array
    up to its closing bracket; [object_items] reads the pairs of an object,
    from just after the opening quote of a key up to the closing brace.
    [fuel] bounds the depth of the calls. *)
Fixpoint scan_once (fuel : nat) (s : string) : outcome (value * string) :=
  match fuel with
  | O => Raise outside_model
  | S f =>
      match s with
      | EmptyString => Raise JSONDecodeError
      | String c s' =>
          if Ascii.eqb c dquote then
            r <- scanstring s' ;; Ret (VStr (fst r), snd r)
          else if Ascii.eqb c "{"%char then
            match skip_ws s' with
            | String c1 s1 =>
                if Ascii.eqb c1 "}"%char then Ret (VDict [], s1)
                else if Ascii.eqb c1 dquote then
                  r <- object_items f s1 ;; Ret (VDict (dict_of_pairs (fst r)), snd r)
                else Raise JSONDecodeError
            | EmptyString => Raise JSONDecodeError
            end
          else if Ascii.eqb c "["%char then
            match skip_ws s' with
            | String c1 s1 =>
                if Ascii.eqb c1 "]"%char then Ret (VList [], s1)
                else r <- array_items f (String c1 s1) ;; Ret (VList (fst r), snd r)
            | EmptyString => Raise JSONDecodeError
            end
          else
            match s with
            | String "n"%char (String "u"%char (String "l"%char (String "l"%char rest))) =>
                Ret (VNone, rest)
            | String "t"%char (String "r"%char (String "u"%char (String "e"%char rest))) =>
                Ret (VBool true, rest)
            | String "f"%char (String "a"%char (String "l"%char (String "s"%char
                (String "e"%char rest)))) =>
                Ret (VBool false, rest)
            | _ => scan_number s
            end
      end
  end

with array_items (fuel : nat) (s : string) : outcome (list value * string) :=
  match fuel with
  | O => Raise outside_model
  | S f =>
      r <- scan_once f s ;;
      match skip_ws (snd r) with
      | String c s1 =>
          if Ascii.eqb c "]"%char then Ret ([fst r], s1)
          else if Ascii.eqb c ","%char then
            r' <- array_items f (skip_ws s1) ;; Ret (fst r :: fst r', snd r')
          else Raise JSONDecodeError
      | EmptyString => Raise JSONDecodeError
      end
  end

with object_items (fuel : nat) (s : string) : outcome (list (string * value) * string) :=
  match fuel with
  | O => Raise outside_model
  | S f =>
      k <- scanstring s ;;
      match skip_ws (snd k) with
      | String c s1 =>
          if Ascii.eqb c ":"%char then
            r <- scan_once f (skip_ws s1) ;;
            match skip_ws (snd r) with
            | String c2 s2 =>
                if Ascii.eqb c2 "}"%char then Ret ([(fst k, fst r)], s2)
                else if Ascii.eqb c2 ","%char then
                  match skip_ws s2 with
                  | String c3 s3 =>
                      if Ascii.eqb c3 dquote then
                        r' <- object_items f s3 ;;
                        Ret ((fst k, fst r) :: fst r', snd r')
                      else Raise JSONDecodeError
                  | EmptyString => Raise JSONDecodeError
                  end
                else Raise JSONDecodeError
            | EmptyString => Raise JSONDecodeError
            end
          else Raise JSONDecodeError
      | EmptyString => Raise JSONDecodeError
      end
  end.

Definition json_loads (text : string) : outcome value :=
  r <- scan_once (S (String.length text)) (skip_ws text) ;;
  match skip_ws (snd r) with
  | EmptyString => Ret (fst r)
  | String _ _ => Raise JSONDecodeError
  end.

(** The text of one pair of an object. *)
Definition encode_pair (level : nat) (kv : string * value) : string :=
  let (k, x) := kv in encode_basestring k ++ ": " ++ encode level x.

(** The text of a pair after its opening quote, followed by [tail]. *)
Definition pair_body (level : nat) (kv : string * value) (tail : string) : string :=
  let (k, x) := kv in
  escape k ++ String dquote (String ":"%char (String " "%char (encode level x ++ tail))).

(** ** Values that are Python objects

    A [dict] of Python has pairwise distinct keys. *)

Fixpoint distinct (keys : list string) : bool :=
  match keys with
  | [] => true
  | k :: rest => negb (existsb (String.eqb k) rest) && distinct rest
  end.

Fixpoint wf_value (v : value) : bool :=
  match v with
  | VList l => forallb wf_value l
  | VDict d =>
      distinct (map fst d)
      && forallb (fun kv : string * value => let (_, x) := kv in wf_value x) d
  | _ => true
  end.

(** The depth of calls the decoder needs for the text of [v]. *)
Fixpoint weight (v : value) : nat :=
  match v with
  | VList l => S (list_sum (map (fun x => S (weight x)) l))
  | VDict d =>
      S (list_sum (map (fun kv : string * value => let (_, x) := kv in S (weight x)) d))
  | _ => 1%nat
  end.

(** Text that can follow a number without changing how it reads. *)
Definition delimited (s : string) : Prop :=
  no_digit_ahead s /\ float_tail s = false.

(** A character that starts a value: neither white space nor a closing
    bracket. *)
Definition value_start (c : ascii) : bool :=
  negb (is_json_ws c) && negb (Ascii.eqb c "]"%char).

(** The decoder's reading of the text of [v], whatever follows it. *)
Definition reads_back (v : value) : Prop :=
  wf_value v = true ->
  forall (level fuel : nat) (rest : string),
    (weight v <= fuel)%nat -> delimited rest ->
    scan_once fuel (encode level v ++ rest) = Ret (v, rest).

(* ===================================================================== *)
(** * The store: [load_notifications], [save_notifications] *)
(* ===================================================================== *)

(** What [os.path.exists] and [open] find at a path: no file, a file that
    cannot be opened or read (the exception says why), or its text. *)
Inductive file_state : Type :=
| NoFile
| Unreadable (e : exn)
| Readable (text : string).

Definition filesystem : Type := string -> file_state.

Definition write_file (fs : filesystem) (path : string) (st : file_state) : filesystem :=
  fun p => if String.eqb p path then st else fs p.

(** The dialogs of [messagebox]; the text of a store dialog ends with the
    exception it reports. *)
Inductive dialog : Type :=
| showwarning (title : string) (e : exn)
| showerror (title : string) (e : exn).

(** [os.path.join(self.base_dir, "notifications.json")] *)
Definition notifications_path (base_dir : string) : string :=
  base_dir ++ String backslash "notifications.json".

(** What the platform answers to [save_notifications]: whether [open]
    succeeds, whether the writes succeed, and how much of the text has
    reached the file when they do not. *)
Record save_env : Type := mk_save_env {
  open_w_result : outcome unit;
  write_result : outcome unit;
  written : nat
}.

Section Store.

(** The encoder and the decoder of the [json] module. *)
Variable dumps : value -> outcome string.
Variable loads : string -> outcome value.

Definition load_notifications (base_dir : string) (fs : filesystem)
    : traced dialog value :=
  let path := notifications_path base_dir in
  let warn_and_return_empty (e : exn) : traced dialog value :=
    _ <~ t_call (showwarning "Load" e) (Ret tt) ;; t_ret (VList []) in
  match fs path with
  | NoFile => t_ret (VList [])
  | Unreadable e => t_try ([], Raise e) warn_and_return_empty
  | Readable text => t_try ([], loads text) warn_and_return_empty
  end.

(** The file system after [save_notifications], and the dialogs it showed.
    [open(path, "w")] empties the file before anything is written. *)
Definition save_notifications (env : save_env) (base_dir : string)
    (notifications : value) (fs : filesystem) : filesystem * traced dialog unit :=
  let path := notifications_path base_dir in
  match open_w_result env with
  | Raise e => (fs, t_call (showerror "Save" e) (Ret tt))
  | Ret _ =>
      match (text <- dumps notifications ;; _ <- write_result env ;; Ret text) with
      | Ret text => (write_file fs path (Readable text), t_ret tt)
      | Raise e =>
          let partial :=
            match dumps notifications with
            | Ret text => substring 0 (written env) text
            | Raise _ => ""
            end in
          (write_file fs path (Readable partial), t_call (showerror "Save" e) (Ret tt))
      end
  end.

(** The save went through: no dialog reported a failure. *)
Definition save_succeeded (r : filesystem * traced dialog unit) : Prop :=
  snd r = ([], Ret tt).

End Store.

(* ===================================================================== *)
(** * The poller: one cycle of [check_notifications] *)
(* ===================================================================== *)

(** What the platform answers while one record is processed.  Every call site
    of the loop body runs at most once for a record, so one answer per site
    covers all the platform can do. *)
Record fire_env : Type := mk_fire_env {
  now_should_fire : datetime;        (* datetime.now() of _should_fire *)
  now_time_matches : datetime;       (* datetime.now() of _time_matches_now *)
  now_mark : datetime;               (* datetime.now() of _mark_fired *)
  b64decode_result : outcome unit;   (* base64.b64decode(notif["image"]) *)
  makedirs_result : outcome unit;    (* os.makedirs(temp_dir, exist_ok=True) *)
  temp_path : string;                (* os.path.join(temp_dir, f"img_{int(time.time())}.png") *)
  open_wb_result : outcome unit;     (* open(temp_path, "wb") *)
  write_raw_result : outcome unit;   (* f.write(raw) *)
  after_result : outcome unit;       (* self.root.after(0, ...) *)
  delivery : delivery_env;           (* the mechanisms, when delivery is called directly *)
  print_result : outcome unit;       (* print(f"[Notifier] Fired: ...") *)
  image_path_exists : bool;          (* os.path.exists(image_path) *)
  unlink_result : outcome unit       (* os.unlink(image_path) *)
}.

Inductive poll_event : Type :=
| Evaluated (notif : dict)
| Queued (title message : value) (image_path : option string)
| Delivered (title message : value) (image_path : option string) (attempts : list attempt)
| Marked (notif : dict)
| Printed (title : value)
| Unlinked (path : string).

(** The block that writes the embedded image to a file: any failure in it
    leaves [image_path] at [None]. *)
Definition materialize_image (env : fire_env) (notif : dict) : option string :=
  if truthy (get notif "image" VNone) then
    match
      (_ <- b64decode_result env ;;
       _ <- makedirs_result env ;;
       _ <- open_wb_result env ;;
       _ <- write_raw_result env ;;
       Ret (temp_path env))
    with
    | Ret p => Some p
    | Raise _ => None
    end
  else None.

(** [send_notification]: the delivery is queued on the UI thread; when
    [self.root.after] raises instead, it is called directly. *)
Definition send_notification (env : fire_env)
    (title message : value) (image_path : option string) : traced poll_event unit :=
  match after_result env with
  | Ret _ => t_call (Queued title message image_path) (Ret tt)
  | Raise _ =>
      let (attempts, r) :=
        _deliver_notification (delivery env) title message image_path in
      t_call (Delivered title message image_path attempts) r
  end.

(** The removal of the transient image file. *)
Definition cleanup_image (env : fire_env) (image_path : option string)
    : traced poll_event unit :=
  match image_path with
  | Some p =>
      if negb (String.eqb p "") && image_path_exists env then
        t_try (t_call (Unlinked p) (unlink_result env)) (fun _ => t_ret tt)
      else t_ret tt
  | None => t_ret tt
  end.

(** The body of the [for] loop on one record: the record as the body leaves
    it, and whether it fired.  The record is marked in place, so it stays
    marked when the [print] after the marking raises; nothing in the body
    catches that exception, and the cleanup is not reached. *)
Definition process_record (env : fire_env) (notif : dict) : dict * traced poll_event bool :=
  match _should_fire (now_should_fire env) (now_time_matches env) notif with
  | Raise e => (notif, ([Evaluated notif], Raise e))
  | Ret false => (notif, ([Evaluated notif], Ret false))
  | Ret true =>
      let image_path := materialize_image env notif in
      match send_notification env (get notif "title" (VStr "")) (get notif "message" (VStr ""))
              image_path with
      | (tr, Raise e) => (notif, ((Evaluated notif :: tr)%list, Raise e))
      | (tr, Ret _) =>
          let notif' := _mark_fired (now_mark env) notif in
          (notif',
           _ <~ (Evaluated notif :: tr, Ret tt)%list ;;
           _ <~ t_call (Marked notif') (Ret tt) ;;
           _ <~ t_call (Printed (get notif' "title" (VStr ""))) (print_result env) ;;
           _ <~ cleanup_image env image_path ;;
           t_ret true)
      end
  end.

(** The [for] loop over the snapshot, from the record of index [i] on, with
    the value [fired_any] has there; [env i] is what the platform answers
    while the record of index [i] is processed.  An exception ends the loop;
    the records marked before it stay marked. *)
Fixpoint for_each_record (env : nat -> fire_env) (i : nat) (records : list dict)
    (fired_any : bool) : list dict * traced poll_event bool :=
  match records with
  | [] => ([], t_ret fired_any)
  | notif :: rest =>
      match process_record (env i) notif with
      | (notif', (tr, Raise e)) => (notif' :: rest, (tr, Raise e))
      | (notif', (tr, Ret fired)) =>
          let '(rest', (tr', r)) :=
            for_each_record env (S i) rest (fired_any || fired) in
          (notif' :: rest', ((tr ++ tr')%list, r))
      end
  end.

(** Whether the record is due at the instants [env] gives, and whether its
    evaluation raises. *)
Definition due (env : fire_env) (notif : dict) : bool :=
  match _should_fire (now_should_fire env) (now_time_matches env) notif with
  | Ret true => true
  | _ => false
  end.







(** The state one cycle leaves: the records, the file system, the calls made
    and the dialogs shown; [aborted] says that an exception reached the
    handler of the cycle. *)
Record cycle_result : Type := mk_cycle_result {
  records_after : list dict;
  fs_after : filesystem;
  events : list poll_event;
  dialogs : list dialog;
  aborted : bool
}.

(** One iteration of the [while True] loop, without its [time.sleep(5)]. *)
Definition poll_cycle (env : nat -> fire_env) (senv : save_env) (base_dir : string)
    (records : list dict) (fs : filesystem) : cycle_result :=
  match for_each_record env 0 records false with
  | (records', (tr, Raise _)) => mk_cycle_result records' fs tr [] true
  | (records', (tr, Ret false)) => mk_cycle_result records' fs tr [] false
  | (records', (tr, Ret true)) =>
      let '(fs', (ds, r)) :=
        save_notifications json_dumps senv base_dir (VList (map VDict records')) fs in
      mk_cycle_result records' fs' tr ds (raises r)
  end.

(** [check_notifications], for as many iterations as there are environments. *)
Fixpoint check_notifications (envs : list ((nat -> fire_env) * save_env))
    (base_dir : string) (records : list dict) (fs : filesystem)
    : list dict * filesystem * list poll_event :=
  match envs with
  | [] => (records, fs, [])
  | (env, senv) :: envs' =>
      let c := poll_cycle env senv base_dir records fs in
      let '(records', fs', tr) :=
        check_notifications envs' base_dir (records_after c) (fs_after c) in
      (records', fs', (events c ++ tr)%list)
  end.

(* ===================================================================== *)
(** * Sample records, instants and platforms *)
(* ===================================================================== *)

(** Friday 5 January 2024, 09:00:30, in ISO week 1 of 2024. *)
Definition friday_0900 : datetime := mk_datetime 2024 1 5 9 0 30.

Definition friday_0859 : datetime := mk_datetime 2024 1 5 8 59 55.

Definition friday_0900_later : datetime := mk_datetime 2024 1 5 9 0 45.

Definition saturday_0900 : datetime := mk_datetime 2024 1 6 9 0 0.

(** Friday 12 January 2024, in ISO week 2 of 2024. *)
Definition next_friday_0900 : datetime := mk_datetime 2024 1 12 9 0 10.

Definition new_record (title date time repeat : string) (image : value)
    (created_weekday : Z) : dict :=
  [ ("title", VStr title); ("message", VStr "Daily sync"); ("date", VStr date);
    ("time", VStr time); ("repeat", VStr repeat); ("priority", VStr "Normal");
    ("image", image); ("delivered", VBool false); ("last_fired_date", VNone);
    ("last_fired_week", VNone); ("created_weekday", VInt created_weekday) ].

Definition once_record : dict :=
  new_record "Dentist" "2024-01-05" "09:00" "Once" (VStr "iVBORw0KGgo=") 4.

Definition daily_record : dict := new_record "Standup" "" "09:00" "Daily" VNone 4.

Definition weekly_record : dict := new_record "Review" "" "09:00" "Weekly" VNone 4.

(** A Weekly record whose [created_weekday] was set to [null] in the file. *)
Definition broken_weekly_record : dict :=
  [ ("title", VStr "Standup"); ("time", VStr "09:00"); ("repeat", VStr "Weekly");
    ("created_weekday", VNone) ].

(** A platform on which the sound and both toasts fail and the generic
    library works. *)
Definition toasts_fail : delivery_env :=
  mk_delivery_env true true (Raise OSError) (Ret tt) (Raise RuntimeError)
    true (Raise RuntimeError) true (Raise OSError) true (Ret tt) (Ret tt).

(** A platform on which every mechanism fails. *)
Definition all_fail : delivery_env :=
  mk_delivery_env true false (Raise OSError) (Raise RuntimeError) (Raise RuntimeError)
    true (Raise RuntimeError) true (Raise OSError) true (Raise OSError)
    (Raise RuntimeError).

(** While a record is processed at Friday 09:00, the image cannot be
    written, the UI thread refuses the callback, every mechanism fails and
    the transient file cannot be removed. *)
Definition hostile : fire_env :=
  mk_fire_env friday_0900 friday_0900 friday_0900_later
    (Ret tt) (Ret tt) "temp\img_1704445230.png" (Raise OSError) (Ret tt)
    (Raise RuntimeError) all_fail (Ret tt) true (Raise OSError).



Definition friendly_save : save_env := mk_save_env (Ret tt) (Ret tt) 0.

Definition empty_disk : filesystem := fun _ => NoFile.

Definition locked_disk : filesystem :=
  fun p => if String.eqb p (notifications_path "C:\app") then Unreadable OSError
           else NoFile.

(* ===================================================================== *)
(** * The form: [_validate_inputs] *)
(* ===================================================================== *)

(** [s.strip()] *)
Definition strip (s : string) : string := rstrip_of is_space (lstrip_of is_space s).

(** [s.split(":")] *)
Fixpoint split_colon (s : string) : list string :=
  match s with
  | EmptyString => [""]
  | String c s' =>
      if Ascii.eqb c ":"%char then "" :: split_colon s'
      else
        match split_colon s' with
        | p :: ps => String c p :: ps
        | [] => [String c ""]
        end
  end.

(** [a, b = parts]: the unpacking raises unless there are two parts. *)
Definition unpack2 (parts : list string) : outcome (string * string) :=
  match parts with
  | [a; b] => Ret (a, b)
  | _ => Raise ValueError
  end.

(** [f"{n:02d}"]: at least two characters, the sign counted. *)
Definition format_02d (n : Z) : string :=
  if n <? 0 then String "-"%char (zfill 1 (- n)) else zfill 2 n.

(** [strptime(text, "%H:%M")], whose pattern is
    [(?P<H>2[0-3]|[0-1]\d|\d):(?P<M>[0-5]\d|\d)]; the date of the result is
    1 January 1900. *)
Definition re_hm_format : matcher datetime :=
  m_bind re_H (fun H =>
  m_bind (m_lit ":"%char) (fun _ =>
  m_bind re_M (fun M => m_ret (mk_datetime 1900 1 1 H M 0)))).

Definition strptime_hm (text : string) : outcome datetime :=
  match re_hm_format text with
  | [] => Raise ValueError
  | (t, rest) :: _ =>
      match rest with
      | EmptyString => Ret t
      | String _ _ => Raise ValueError
      end
  end.

(** [strptime(text, "%Y-%m-%d")], whose pattern is the date part of the
    pattern of [strptime_minute]. *)
Definition re_date_format : matcher datetime :=
  m_bind re_Y (fun Y =>
  m_bind (m_lit "-"%char) (fun _ =>
  m_bind re_m (fun m =>
  m_bind (m_lit "-"%char) (fun _ =>
  m_bind re_d (fun d => m_ret (mk_datetime Y m d 0 0 0)))))).

Definition strptime_date (text : string) : outcome datetime :=
  match re_date_format text with
  | [] => Raise ValueError
  | (t, rest) :: _ =>
      match rest with
      | EmptyString =>
          if (1 <=? year t) && (day t <=? _days_in_month (year t) (month t))
          then Ret t
          else Raise ValueError
      | String _ _ => Raise ValueError
      end
  end.

(** [try: m except ValueError: h] *)
Definition except_ValueError {A : Type} (m : outcome A) (h : outcome A) : outcome A :=
  match m with
  | Raise ValueError => h
  | other => other
  end.

(** The variables of the form and what its image label shows. *)
Record form_vars : Type := mk_form_vars {
  title_var : string;
  message_var : string;
  date_var : string;
  time_var : string;
  ampm_var : string;
  repeat_var : string;
  priority_var : string;
  image_path_var : option string;
  image_label : string
}.

(** The boxes of [messagebox] the form shows, and the dialogs of the
    store. *)
Inductive message_box : Type :=
| box_error (title message : string)
| box_warning (title message : string)
| box_askyesno (title message : string)
| box_store (d : dialog).

(** The hour of the 24-hour clock for an hour entered with AM or PM. *)
Definition hour_24 (amp : string) (hour : Z) : Z :=
  if String.eqb amp "AM" then (if hour =? 12 then 0 else hour)
  else (if hour =? 12 then 12 else hour + 12).

Definition nonempty (s : string) : bool := negb (String.eqb s "").

(** The check of one date text: [None] when it is accepted, the box to show
    when [strptime] rejects it. *)
Definition check_date (date_str : string) : outcome (option message_box) :=
  except_ValueError
    (_ <- strptime_date date_str ;; Ret None)
    (Ret (Some (box_error "Validation" "Date must be YYYY-MM-DD."))).

(** [_validate_inputs]: the data of the form, or [None] after an error
    box. *)
Definition _validate_inputs (f : form_vars) (for_update : bool)
    : traced message_box (option dict) :=
  let title := strip (title_var f) in
  let message := strip (message_var f) in
  let date_str := strip (date_var f) in
  let time_str := strip (time_var f) in
  let repeat := repeat_var f in
  let priority := priority_var f in
  if negb (forallb nonempty [title; message; time_str; repeat; priority]) then
    _ <~ t_call (box_error "Validation"
                   "Title, Message, Time, Repeat and Priority are required.") (Ret tt) ;;
    t_ret None
  else
    match except_ValueError (_ <- strptime_hm time_str ;; Ret true) (Ret false) with
    | Raise e => ([], Raise e)
    | Ret false =>
        _ <~ t_call (box_error "Validation" "Time must be HH:MM.") (Ret tt) ;;
        t_ret None
    | Ret true =>
        match
          (parts <- unpack2 (split_colon time_str) ;;
           hour <- int_of_str (fst parts) ;;
           minute <- int_of_str (snd parts) ;;
           Ret (format_02d (hour_24 (ampm_var f) hour) ++ ":" ++ format_02d minute))
        with
        | Raise e => ([], Raise e)
        | Ret time_24 =>
            let data : dict :=
              [ ("title", VStr title); ("message", VStr message);
                ("date", VStr date_str); ("time", VStr time_24);
                ("repeat", VStr repeat); ("priority", VStr priority) ] in
            let date_check : outcome (option message_box) :=
              if String.eqb repeat "Once" then
                if negb (nonempty date_str) then
                  Ret (Some (box_error "Validation"
                               "Date is required for one-time reminders."))
                else check_date date_str
              else if nonempty date_str then check_date date_str
              else Ret None in
            match date_check with
            | Raise e => ([], Raise e)
            | Ret (Some box) => _ <~ t_call box (Ret tt) ;; t_ret None
            | Ret None => t_ret (Some data)
            end
        end
    end.

(** The data [_validate_inputs] returns for a form, when the time and the
    date are accepted: the hour and minute are those [strptime] reads. *)
Definition form_data (f : form_vars) (t : datetime) : dict :=
  [ ("title", VStr (strip (title_var f))); ("message", VStr (strip (message_var f)));
    ("date", VStr (strip (date_var f)));
    ("time", VStr (format_02d (hour_24 (ampm_var f) (hour t)) ++ ":"
                   ++ format_02d (minute t)));
    ("repeat", VStr (repeat_var f)); ("priority", VStr (priority_var f)) ].

(** What [_validate_inputs] decides, without the exceptions its steps could
    raise: the box it shows and [None], or the data. *)
Definition validation (f : form_vars) : list message_box * option dict :=
  let date_str := strip (date_var f) in
  let reject (message : string) : list message_box * option dict :=
    ([box_error "Validation" message], None) in
  if negb (forallb nonempty [ strip (title_var f); strip (message_var f);
                              strip (time_var f); repeat_var f; priority_var f ])
  then reject "Title, Message, Time, Repeat and Priority are required."
  else
    match strptime_hm (strip (time_var f)) with
    | Raise _ => reject "Time must be HH:MM."
    | Ret t =>
        if String.eqb (repeat_var f) "Once" && negb (nonempty date_str)
        then reject "Date is required for one-time reminders."
        else if nonempty date_str && raises (strptime_date date_str)
        then reject "Date must be YYYY-MM-DD."
        else ([], Some (form_data f t))
    end.

(* ===================================================================== *)
(** * The list of notifications: create, update, delete, select *)
(* ===================================================================== *)

Definition KeyError : exn := OtherError "KeyError".

Definition IndexError : exn := OtherError "IndexError".

(** [d[k]] *)
Definition getitem (d : dict) (k : string) : outcome value :=
  match dict_lookup k d with
  | Some v => Ret v
  | None => Raise KeyError
  end.

(** [l[i]] for an index that is not negative. *)
Definition list_getitem {A : Type} (l : list A) (i : nat) : outcome A :=
  match nth_error l i with
  | Some x => Ret x
  | None => Raise IndexError
  end.

(** [d.update(pairs)], for the pairs of a dict display in their order. *)
Definition dict_update (d : dict) (pairs : list (string * value)) : dict :=
  fold_left (fun acc kv => dict_set (fst kv) (snd kv) acc) pairs d.

(** A line of the tree: the six values shown and the tag that colours it. *)
Record row : Type := mk_row {
  row_values : list value;
  row_tag : value
}.

Definition row_of (notif : dict) : row :=
  mk_row [ get notif "title" (VStr ""); get notif "message" (VStr "");
           get notif "date" (VStr ""); get notif "time" (VStr "");
           get notif "repeat" (VStr "Once"); get notif "priority" (VStr "Normal") ]
         (get notif "priority" (VStr "Normal")).

(** The lines of the tree after [refresh_list]. *)
Definition refresh_list (notifications : list dict) : list row :=
  map row_of notifications.

(** The form after [clear_form]; the AM/PM choice stays. *)
Definition clear_form (f : form_vars) : form_vars :=
  mk_form_vars "" "" "" "" (ampm_var f) "Once" "Normal" None "No image selected".

(** What the application holds: the list, the form, the lines of the tree and
    the files. *)
Record app_state : Type := mk_app_state {
  app_notifications : list dict;
  app_form : form_vars;
  app_tree : list row;
  app_disk : filesystem
}.

(** What the platform answers to one action on the form. *)
Record form_env : Type := mk_form_env {
  image_file_exists : bool;            (* os.path.exists(self.image_path) *)
  read_image_result : outcome string;  (* base64.b64encode(f.read()).decode("utf-8") *)
  now_form : datetime;                 (* datetime.now() *)
  askyesno_result : bool;              (* messagebox.askyesno(...) *)
  temp_image_result : outcome string;  (* the name of the temporary file written *)
  form_save : save_env
}.

(** [self.image_path and os.path.exists(self.image_path)] *)
Definition image_chosen (env : form_env) (f : form_vars) : bool :=
  match image_path_var f with
  | Some p => nonempty p && image_file_exists env
  | None => false
  end.

(** [datetime.strptime(data["date"], "%Y-%m-%d").weekday() if data["date"]
    else datetime.now().weekday()] *)
Definition weekday_anchor (env : form_env) (data : dict) : outcome Z :=
  date <- getitem data "date" ;;
  if truthy date then
    t <- strptime_date (py_str date) ;; Ret (weekday t)
  else Ret (weekday (now_form env)).

(** [save_notifications], [refresh_list] and [clear_form], with which every
    change of the list ends. *)
Definition commit (env : form_env) (base_dir : string) (st : app_state)
    (notifications : list dict) : app_state * traced message_box unit :=
  let '(disk, (ds, r)) :=
    save_notifications json_dumps (form_save env) base_dir
      (VList (map VDict notifications)) (app_disk st) in
  (mk_app_state notifications (clear_form (app_form st)) (refresh_list notifications) disk,
   (map box_store ds, r)).

(** [image_b64] after the [if] that reads the chosen file; [kept] is its
    value before, which stays when no file is chosen or the read raises. *)
Definition read_image (env : form_env) (f : form_vars) (kept : value) : value :=
  if image_chosen env f then
    match read_image_result env with
    | Ret text => VStr text
    | Raise _ => kept
    end
  else kept.

(** The record [create_notification] builds from the data of the form. *)
Definition new_notification (env : form_env) (f : form_vars) (data : dict)
    : outcome dict :=
  let image_b64 := read_image env f VNone in
  created_weekday <- weekday_anchor env data ;;
  Ret (dict_of_pairs
         (data ++ [ ("image", image_b64); ("delivered", VBool false);
                    ("last_fired_date", VNone); ("last_fired_week", VNone);
                    ("created_weekday", VInt created_weekday) ])%list).

Definition create_notification (env : form_env) (base_dir : string) (st : app_state)
    : app_state * traced message_box unit :=
  match _validate_inputs (app_form st) false with
  | (tr, Raise e) => (st, (tr, Raise e))
  | (tr, Ret None) => (st, (tr, Ret tt))
  | (tr, Ret (Some data)) =>
      match new_notification env (app_form st) data with
      | Raise e => (st, (tr, Raise e))
      | Ret notif =>
          let '(st', (tr', r)) :=
            commit env base_dir st (app_notifications st ++ [notif])%list in
          (st', ((tr ++ tr')%list, r))
      end
  end.

(** The record [update_notification] leaves at the selected place: [old]
    after [old.update({...})]. *)
Definition updated_notification (env : form_env) (f : form_vars) (data : dict)
    (old : dict) : outcome dict :=
  let image_b64 := read_image env f (get old "image" VNone) in
  repeat <- getitem data "repeat" ;;
  let delivered : value :=
    if eq_str repeat "Once" then VBool false
    else get old "delivered" (VBool false) in
  created_weekday <- weekday_anchor env data ;;
  Ret (dict_update old
         (data ++ [ ("image", image_b64); ("delivered", delivered);
                    ("last_fired_date", VNone); ("last_fired_week", VNone);
                    ("created_weekday", VInt created_weekday) ])%list).

(** [l[i] = x], for an index within the list. *)
Definition list_setitem {A : Type} (l : list A) (i : nat) (x : A) : list A :=
  (firstn i l ++ x :: skipn (S i) l)%list.

(** [l.pop(i)], the list left, for an index within the list. *)
Definition list_pop {A : Type} (l : list A) (i : nat) : list A :=
  (firstn i l ++ skipn (S i) l)%list.

(** [selection] is the index of the selected line, if a line is selected.
    The record is changed in place: the list keeps its other records. *)
Definition update_notification (env : form_env) (base_dir : string)
    (selection : option nat) (st : app_state) : app_state * traced message_box unit :=
  match selection with
  | None =>
      (st, t_call (box_warning "Update" "Select a notification to update.") (Ret tt))
  | Some index =>
      match _validate_inputs (app_form st) true with
      | (tr, Raise e) => (st, (tr, Raise e))
      | (tr, Ret None) => (st, (tr, Ret tt))
      | (tr, Ret (Some data)) =>
          match
            (old <- list_getitem (app_notifications st) index ;;
             updated_notification env (app_form st) data old)
          with
          | Raise e => (st, (tr, Raise e))
          | Ret notif =>
              let '(st', (tr', r)) :=
                commit env base_dir st
                  (list_setitem (app_notifications st) index notif) in
              (st', ((tr ++ tr')%list, r))
          end
      end
  end.

Definition delete_notification (env : form_env) (base_dir : string)
    (selection : option nat) (st : app_state) : app_state * traced message_box unit :=
  match selection with
  | None =>
      (st, t_call (box_warning "Delete" "Select a notification to delete.") (Ret tt))
  | Some index =>
      let asked := box_askyesno "Confirm" "Delete selected notification?" in
      if negb (askyesno_result env) then (st, t_call asked (Ret tt))
      else
        match list_getitem (app_notifications st) index with
        | Raise e => (st, ([asked], Raise e))
        | Ret _ =>
            let '(st', (tr', r)) :=
              commit env base_dir st (list_pop (app_notifications st) index) in
            (st', ((asked :: tr')%list, r))
        end
  end.

(** ** The buttons of the form and a session of the user

    [_build_form] binds the buttons Create, Update, Delete and Clear to the
    four methods. *)
Inductive button : Type := Create | Update | Delete | Clear.

Definition press (b : button) (env : form_env) (base_dir : string)
    (selection : option nat) (st : app_state) : app_state * traced message_box unit :=
  match b with
  | Create => create_notification env base_dir st
  | Update => update_notification env base_dir selection st
  | Delete => delete_notification env base_dir selection st
  | Clear =>
      (mk_app_state (app_notifications st) (clear_form (app_form st)) (app_tree st)
         (app_disk st), t_ret tt)
  end.

(** [self.tree.selection()] after a click at line [line]: that line, if the
    tree has it. *)
Definition pick (line : nat) (tree : list row) : option nat :=
  if (line <? List.length tree)%nat then Some line else None.

(** What the user does: type into the form, or press a button with the
    line clicked last; [env] is what the platform answers then. *)
Inductive action : Type :=
| Type_in (f : form_vars)
| Press (b : button) (env : form_env) (line : nat).

(** The state after a session, and the boxes shown; the session ends at the
    first exception. *)
Fixpoint session (base_dir : string) (actions : list action) (st : app_state)
    : app_state * traced message_box unit :=
  match actions with
  | [] => (st, t_ret tt)
  | Type_in f :: rest =>
      session base_dir rest
        (mk_app_state (app_notifications st) f (app_tree st) (app_disk st))
  | Press b env line :: rest =>
      match press b env base_dir (pick line (app_tree st)) st with
      | (st', (tr, Raise e)) => (st', (tr, Raise e))
      | (st', (tr, Ret _)) =>
          let '(st'', (tr', r)) := session base_dir rest st' in
          (st'', ((tr ++ tr')%list, r))
      end
  end.

(** The tree shows the list. *)
Definition in_sync (st : app_state) : Prop :=
  app_tree st = refresh_list (app_notifications st).

(** The records are dicts of Python: their keys are pairwise distinct. *)
Definition wf_records (l : list dict) : bool := wf_value (VList (map VDict l)).

(** The file holds the list: [load_notifications] returns it without a
    warning. *)
Definition file_current (base_dir : string) (st : app_state) : Prop :=
  load_notifications json_loads base_dir (app_disk st)
  = ([], Ret (VList (map VDict (app_notifications st)))).

(** The saves of an action go through. *)
Definition save_works (a : action) : Prop :=
  match a with
  | Type_in _ => True
  | Press _ env _ =>
      open_w_result (form_save env) = Ret tt /\ write_result (form_save env) = Ret tt
  end.

(** [_should_fire] raises on the record at no instant. *)
Definition never_raising (notif : dict) : Prop :=
  forall now tnow : datetime, exists b : bool, _should_fire now tnow notif = Ret b.

(** ** [item_selected] *)

(** A text of one or two digits and the number it writes. *)
Definition digit_text (p : string) (v : Z) : Prop :=
  (exists c, p = String c "" /\ is_digit c = true /\ v = digit_val c)
  \/ (exists c1 c2,
        p = String c1 (String c2 "") /\ is_digit c1 = true /\ is_digit c2 = true
        /\ v = 10 * digit_val c1 + digit_val c2).

(** What [item_selected] puts in the time entry and the AM/PM box for a
    stored time; when the stored text does not split into two numbers, the
    text is shown as it is, with AM. *)
Definition display_time (t24 : string) : string * string :=
  match
    (parts <- unpack2 (split_colon t24) ;;
     h <- int_of_str (fst parts) ;;
     let amp := if h <? 12 then "AM" else "PM" in
     let h12 := if h mod 12 =? 0 then 12 else h mod 12 in
     minute <- int_of_str (snd parts) ;;
     Ret (format_02d h12 ++ ":" ++ format_02d minute, amp))
  with
  | Ret shown => shown
  | Raise _ => (t24, "AM")
  end.

(** A value a [StringVar] shows as it is: a [str]. *)
Definition shown_text (v : value) : option string :=
  match v with
  | VStr s => Some s
  | _ => None
  end.

(** The form after [item_selected] on a record whose shown fields are
    texts; [None] for a record with another kind of value in a shown field,
    which the model leaves out. *)
Definition select_record (env : form_env) (notif : dict) : option form_vars :=
  match shown_text (get notif "title" (VStr "")),
        shown_text (get notif "message" (VStr "")),
        shown_text (get notif "date" (VStr "")),
        shown_text (get notif "time" (VStr "")),
        shown_text (get notif "repeat" (VStr "Once")),
        shown_text (get notif "priority" (VStr "Normal")) with
  | Some title, Some message, Some date, Some t24, Some repeat, Some priority =>
      let (time_12, amp) := display_time t24 in
      let (path, label) :=
        if truthy (get notif "image" VNone) then
          match temp_image_result env with
          | Ret name => (Some name, "(embedded)")
          | Raise _ => (None, "No image selected")
          end
        else (None, "No image selected") in
      Some (mk_form_vars title message date time_12 amp repeat priority path label)
  | _, _, _, _, _, _ => None
  end.

Definition item_selected (env : form_env) (selection : option nat) (st : app_state)
    : outcome (option app_state) :=
  match selection with
  | None => Ret (Some st)
  | Some index =>
      notif <- list_getitem (app_notifications st) index ;;
      Ret (match select_record env notif with
           | Some f => Some (mk_app_state (app_notifications st) f (app_tree st) (app_disk st))
           | None => None
           end)
  end.

(* ===================================================================== *)
(** * Assets: [_first_existing] *)
(* ===================================================================== *)

(** [exists] is [os.path.exists]. *)
Fixpoint _first_existing (exists_ : string -> bool) (paths : list string)
    : option string :=
  match paths with
  | [] => None
  | p :: rest =>
      if nonempty p && exists_ p then Some p else _first_existing exists_ rest
  end.

(** A record that [create_notification] or [update_notification] builds
    from the data of the form. *)
Definition form_record (env : form_env) (f : form_vars) (data notif : dict) : Prop :=
  new_notification env f data = Ret notif
  \/ exists old, updated_notification env f data old = Ret notif.

(** The time [_validate_inputs] stores for an entered time and AM or PM. *)
Definition time_24 (amp : string) (t : datetime) : string :=
  format_02d (hour_24 amp (hour t)) ++ ":" ++ format_02d (minute t).

(* ===================================================================== *)
(** * Closing to the tray: [_on_close], [_start_tray], [_do_show] *)
(* ===================================================================== *)

Inductive window : Type := Shown | Withdrawn | Destroyed.

(** The window and whether [self.tray] holds an icon. *)
Record shell : Type := mk_shell {
  root_window : window;
  tray : bool
}.

(** What the platform answers while the window is closed or shown. *)
Record tray_env : Type := mk_tray_env {
  run_bg : bool;                       (* self.run_bg_var.get() *)
  pystray_available : bool;            (* PYSTRAY_AVAILABLE *)
  tray_image_result : outcome unit;    (* Image.open(...) or Image.new(...) *)
  tray_icon_result : outcome unit;     (* pystray.Menu(...), pystray.Icon(...) *)
  thread_start_result : outcome unit;  (* threading.Thread(...), t.start() *)
  withdraw_result : outcome unit;      (* self.root.withdraw() on a live window *)
  destroy_result : outcome unit;       (* self.root.destroy() on a live window *)
  deiconify_result : outcome unit;     (* self.root.deiconify() on a live window *)
  tray_stop_result : outcome unit      (* self.tray.stop() *)
}.

Definition TclError : exn := OtherError "TclError".

(** A call on the window: Tk refuses it with [TclError] once the window is
    destroyed; on a live window the platform answers. *)
Definition tk_call (w : window) (r : outcome unit) : outcome unit :=
  match w with
  | Destroyed => Raise TclError
  | _ => r
  end.

(** [self.tray] is assigned before the thread is started. *)
Definition _start_tray (env : tray_env) (sh : shell) : shell * outcome unit :=
  if negb (pystray_available env) then (sh, Ret tt)
  else if tray sh then (sh, Ret tt)
  else
    match (_ <- tray_image_result env ;; tray_icon_result env) with
    | Raise e => (sh, Raise e)
    | Ret _ => (mk_shell (root_window sh) true, thread_start_result env)
    end.

(** [self.root.destroy()], which nothing guards; a call that raises leaves
    the window as it was. *)
Definition root_destroy (env : tray_env) (sh : shell) : shell * outcome unit :=
  match tk_call (root_window sh) (destroy_result env) with
  | Ret _ => (mk_shell Destroyed (tray sh), Ret tt)
  | Raise e => (sh, Raise e)
  end.

Definition _on_close (env : tray_env) (sh : shell) : shell * outcome unit :=
  if run_bg env && pystray_available env then
    match _start_tray env sh with
    | (sh', Ret _) =>
        match tk_call (root_window sh') (withdraw_result env) with
        | Ret _ => (mk_shell Withdrawn (tray sh'), Ret tt)
        | Raise _ => root_destroy env sh'
        end
    | (sh', Raise _) => root_destroy env sh'
    end
  else root_destroy env sh.

(** [self.root.deiconify()] comes first and nothing guards it: when it
    raises, the icon is left as it was.  [self.tray.stop()] is guarded and
    [self.tray] is [None] after it. *)
Definition _do_show (env : tray_env) (sh : shell) : shell * outcome unit :=
  match tk_call (root_window sh) (deiconify_result env) with
  | Raise e => (sh, Raise e)
  | Ret _ =>
      if tray sh then
        match tray_stop_result env with
        | Ret _ => (mk_shell Shown false, Ret tt)
        | Raise _ => (mk_shell Shown false, Ret tt)
        end
      else (mk_shell Shown (tray sh), Ret tt)
  end.

(* ===================================================================== *)
(** * A date text followed by a time text *)
(* ===================================================================== *)

(** A match of a text, seen as a match of the text followed by [t]. *)
Definition ext {A : Type} (t : string) (r : A * string) : A * string :=
  (fst r, snd r ++ t).

(** The matches of [m] do not look into a text [t] that follows. *)
Definition stable {A : Type} (t : string) (m : matcher A) : Prop :=
  forall s, m (s ++ t) = map (ext t) (m s).

(** On a text followed by [t], [k] matches as [k'] on the text and then
    [fin] on what is left. *)
Definition follows {A B : Type} (t : string) (fin : A -> matcher B)
    (k : matcher B) (k' : matcher A) : Prop :=
  forall s, k (s ++ t) = flat_map (fun r => fin (fst r) (snd r ++ t)) (k' s).

(** What a match of [m] leaves is the end of the text. *)
Definition consumes {A : Type} (m : matcher A) : Prop :=
  forall s v r, In (v, r) (m s) -> exists p, s = p ++ r.

(** The part of the pattern of [strptime_minute] after the date. *)
Definition re_time_part (Y m d : Z) : matcher datetime :=
  m_bind m_spaces (fun _ =>
  m_bind re_H (fun H =>
  m_bind (m_lit ":"%char) (fun _ =>
  m_bind re_M (fun M => m_ret (mk_datetime Y m d H M 0))))).

(* ===================================================================== *)
(** * Sample forms and states *)
(* ===================================================================== *)

(** A one-time reminder for Friday 5 January 2024, 9:00 AM, entered with
    blanks around the title and a date without leading zeros. *)
Definition dentist_form : form_vars :=
  mk_form_vars " Dentist " "Checkup" "2024-1-5" "9:00" "AM" "Once" "High"
    None "No image selected".

(** A daily reminder for 2:30 PM. *)
Definition standup_form : form_vars :=
  mk_form_vars "Standup" "Daily sync" "" "02:30" "PM" "Daily" "Normal"
    None "No image selected".

(** A weekly reminder anchored to Friday 5 January 2024. *)
Definition review_form : form_vars :=
  mk_form_vars "Review" "Weekly review" "2024-01-05" "9:00" "AM" "Weekly" "Low"
    None "No image selected".

(** A daily reminder entered as 14:30 with PM chosen. *)
Definition late_form : form_vars :=
  mk_form_vars "Tea" "Kettle on" "" "14:30" "PM" "Daily" "Normal"
    None "No image selected".

(** A form without a message. *)
Definition blank_form : form_vars :=
  mk_form_vars "Tea" "  " "" "14:30" "PM" "Daily" "Normal" None "No image selected".

(** Friday 5 January 2024, 08:59:55; nothing is chosen as an image, the
    user confirms, and the save goes through. *)
Definition office : form_env :=
  mk_form_env false (Raise OSError) friday_0859 true (Raise OSError) friendly_save.

(** The application with a list of records and a form being filled in. *)
Definition desk_with (l : list dict) (f : form_vars) : app_state :=
  mk_app_state l f (refresh_list l) empty_disk.

Definition desk (f : form_vars) : app_state :=
  desk_with [daily_record; weekly_record] f.

(** The data of a form and the record [create_notification] builds from
    them on a Friday. *)
Definition data_of (title message date time repeat priority : string) : dict :=
  [ ("title", VStr title); ("message", VStr message); ("date", VStr date);
    ("time", VStr time); ("repeat", VStr repeat); ("priority", VStr priority) ].

Definition created_of (data : dict) : dict :=
  (data ++ [ ("image", VNone); ("delivered", VBool false); ("last_fired_date", VNone);
             ("last_fired_week", VNone); ("created_weekday", VInt 4) ])%list.

Definition dentist_data : dict :=
  data_of "Dentist" "Checkup" "2024-1-5" "09:00" "Once" "High".

Definition standup_data : dict :=
  data_of "Standup" "Daily sync" "" "14:30" "Daily" "Normal".

Definition review_data : dict :=
  data_of "Review" "Weekly review" "2024-01-05" "09:00" "Weekly" "Low".

Definition late_data : dict :=
  data_of "Tea" "Kettle on" "" "26:30" "Daily" "Normal".

(** A session: a reminder is created, Update is pressed with no line
    selected, the first line is updated and the second deleted. *)
Definition busy_session : list action :=
  [ Type_in dentist_form; Press Create office 0; Press Update office 7;
    Type_in standup_form; Press Update office 0; Press Delete office 1;
    Type_in blank_form; Press Create office 0; Press Clear office 0 ].

(** Closing with the tray wanted and available, and with an icon that
    cannot be made. *)
Definition tray_works : tray_env :=
  mk_tray_env true true (Ret tt) (Ret tt) (Ret tt) (Ret tt) (Ret tt) (Ret tt) (Ret tt).

Definition tray_fails : tray_env :=
  mk_tray_env true true (Ret tt) (Raise OSError) (Ret tt) (Ret tt) (Ret tt) (Ret tt)
    (Raise RuntimeError).

(** Friday 5 January 2024, 14:30:20. *)
Definition friday_1430 : datetime := mk_datetime 2024 1 5 14 30 20.

(* ===================================================================== *)
(** * Outcomes and dictionaries *)
(* ===================================================================== *)

Lemma eq_str_true_iff (v : value) (s : string) :
  eq_str v s = true <-> v = VStr s.
Proof.
  destruct v; simpl; split; try discriminate.
  - intros H. apply String.eqb_eq in H. now subst.
  - intros H. injection H as ->. apply String.eqb_refl.
Qed.

Lemma eq_str_false_iff (v : value) (s : string) :
  eq_str v s = false <-> v <> VStr s.
Proof.
  rewrite <- eq_str_true_iff. destruct (eq_str v s); split; congruence.
Qed.

Lemma dict_lookup_set_eq (k : string) (v : value) (d : dict) :
  dict_lookup k (dict_set k v d) = Some v.
Proof.
  induction d as [| [k' v'] d IH]; simpl.
  - now rewrite String.eqb_refl.
  - destruct (String.eqb k' k) eqn:E; simpl; rewrite E; auto.
Qed.

Lemma dict_lookup_set_ne (k k' : string) (v : value) (d : dict) :
  k <> k' -> dict_lookup k' (dict_set k v d) = dict_lookup k' d.
Proof.
  intros Hne. induction d as [| [k0 v0] d IH]; simpl.
  - destruct (String.eqb k k') eqn:E; auto.
    apply String.eqb_eq in E. contradiction.
  - destruct (String.eqb k0 k) eqn:E; simpl.
    + apply String.eqb_eq in E. subst k0.
      destruct (String.eqb k k') eqn:E'; auto.
      apply String.eqb_eq in E'. contradiction.
    + now rewrite IH.
Qed.

Lemma get_set_eq (k : string) (v default : value) (d : dict) :
  get (dict_set k v d) k default = v.
Proof. unfold get. now rewrite dict_lookup_set_eq. Qed.

Lemma get_set_ne (k k' : string) (v default : value) (d : dict) :
  k <> k' -> get (dict_set k v d) k' default = get d k' default.
Proof. intros H. unfold get. now rewrite dict_lookup_set_ne. Qed.

(** The keys of a dictionary do not change when a field is written, a new
    key apart. *)
Lemma dict_set_keys (k : string) (v : value) (d : dict) :
  map fst (dict_set k v d)
  = if existsb (String.eqb k) (map fst d) then map fst d
    else (map fst d ++ [k])%list.
Proof.
  induction d as [| [k' v'] d IH]; simpl; auto.
  rewrite (String.eqb_sym k k').
  destruct (String.eqb k' k) eqn:E; simpl.
  - reflexivity.
  - rewrite IH. now destruct (existsb (String.eqb k) (map fst d)).
Qed.

(* ===================================================================== *)
(** * [_mark_fired] writes one field *)
(* ===================================================================== *)

Lemma mark_fired_repeat (now : datetime) (notif : dict) (default : value) :
  get (_mark_fired now notif) "repeat" default = get notif "repeat" default.
Proof.
  unfold _mark_fired.
  destruct (eq_str (get notif "repeat" (VStr "Once")) "Once");
    [now apply get_set_ne |].
  destruct (eq_str (get notif "repeat" (VStr "Once")) "Daily");
    [now apply get_set_ne |].
  destruct (eq_str (get notif "repeat" (VStr "Once")) "Weekly");
    [now apply get_set_ne | reflexivity].
Qed.

(** C10. [_mark_fired] writes the one fire-memory field its repeat mode
    selects ([delivered] for Once, [last_fired_date] for Daily,
    [last_fired_week] for Weekly): that field holds the new mark, every other
    key of the record reads as before, and no key other than that field is
    added; for any other repeat value the record is unchanged. *)
Theorem mark_fired_frame (now : datetime) (notif : dict) :
  match fire_memory_field (get notif "repeat" (VStr "Once")) with
  | Some field =>
      (forall k, k <> field ->
                 dict_lookup k (_mark_fired now notif) = dict_lookup k notif)
      /\ (exists v, _mark_fired now notif = dict_set field v notif)
      /\ (field = "delivered" -> dict_lookup field (_mark_fired now notif) = Some (VBool true))
      /\ (field = "last_fired_date" ->
          dict_lookup field (_mark_fired now notif) = Some (VStr (strftime_date now)))
      /\ (field = "last_fired_week" ->
          dict_lookup field (_mark_fired now notif) = Some (VStr (current_week now)))
  | None => _mark_fired now notif = notif
  end.
Proof.
  unfold fire_memory_field, _mark_fired.
  destruct (eq_str (get notif "repeat" (VStr "Once")) "Once").
  { repeat split; intros; try discriminate.
    - apply dict_lookup_set_ne; congruence.
    - eauto.
    - apply dict_lookup_set_eq. }
  destruct (eq_str (get notif "repeat" (VStr "Once")) "Daily").
  { repeat split; intros; try discriminate.
    - apply dict_lookup_set_ne; congruence.
    - eauto.
    - apply dict_lookup_set_eq. }
  destruct (eq_str (get notif "repeat" (VStr "Once")) "Weekly").
  { repeat split; intros; try discriminate.
    - apply dict_lookup_set_ne; congruence.
    - eauto.
    - apply dict_lookup_set_eq. }
  reflexivity.
Qed.

(* ===================================================================== *)
(** * Decimal text *)
(* ===================================================================== *)

Lemma code_chr (n : Z) : 0 <= n < 256 -> code (chr n) = n.
Proof.
  intros H. unfold code, chr.
  rewrite N_ascii_embedding by lia. lia.
Qed.

Lemma code_inj (a b : ascii) : code a = code b -> a = b.
Proof.
  unfold code. intros H. apply N2Z.inj in H.
  rewrite <- (ascii_N_embedding a), <- (ascii_N_embedding b). now rewrite H.
Qed.

Lemma ascii_eqb_code (a b : ascii) : Ascii.eqb a b = (code a =? code b).
Proof.
  destruct (Ascii.eqb a b) eqn:E.
  - apply Ascii.eqb_eq in E. subst. symmetry. apply Z.eqb_refl.
  - symmetry. apply Z.eqb_neq. intros H. apply code_inj in H.
    subst. now rewrite Ascii.eqb_refl in E.
Qed.

Lemma code_digit_char (d : Z) : 0 <= d <= 9 -> code (digit_char d) = 48 + d.
Proof. intros H. unfold digit_char. apply code_chr. lia. Qed.

Lemma is_digit_digit_char (d : Z) : 0 <= d <= 9 -> is_digit (digit_char d) = true.
Proof.
  intros H. unfold is_digit. rewrite code_digit_char by assumption.
  apply andb_true_intro. split; apply Z.leb_le; lia.
Qed.

Lemma digit_val_digit_char (d : Z) : 0 <= d <= 9 -> digit_val (digit_char d) = d.
Proof. intros H. unfold digit_val. rewrite code_digit_char by assumption. lia. Qed.

Lemma digit_char_inj (a b : Z) :
  0 <= a <= 9 -> 0 <= b <= 9 -> digit_char a = digit_char b -> a = b.
Proof.
  intros Ha Hb H. apply (f_equal code) in H.
  rewrite !code_digit_char in H by assumption. lia.
Qed.

Lemma append_single_inj (s s' : string) (c c' : ascii) :
  s ++ String c "" = s' ++ String c' "" -> s = s' /\ c = c'.
Proof.
  revert s'. induction s as [| a s IH]; intros [| a' s'] H; simpl in H.
  - injection H as ->. auto.
  - injection H as -> H. destruct s'; discriminate.
  - injection H as -> H. destruct s; discriminate.
  - injection H as -> H. apply IH in H as [-> ->]. auto.
Qed.

Lemma append_assoc (a b c : string) : (a ++ b) ++ c = a ++ (b ++ c).
Proof. induction a; simpl; congruence. Qed.

Lemma append_nil_r (a : string) : a ++ "" = a.
Proof. induction a; simpl; congruence. Qed.

Lemma length_append (a b : string) :
  String.length (a ++ b) = (String.length a + String.length b)%nat.
Proof. induction a; simpl; congruence. Qed.

Lemma fixed_digits_length (w : nat) (n : Z) : String.length (fixed_digits w n) = w.
Proof.
  revert n. induction w as [| w IH]; intros n; simpl; auto.
  rewrite length_append, IH. simpl. lia.
Qed.

Lemma fixed_digits_inj (w : nat) (a b : Z) :
  0 <= a < 10 ^ Z.of_nat w -> 0 <= b < 10 ^ Z.of_nat w ->
  fixed_digits w a = fixed_digits w b -> a = b.
Proof.
  revert a b. induction w as [| w IH]; intros a b Ha Hb H.
  - simpl in Ha, Hb. lia.
  - rewrite Nat2Z.inj_succ, Z.pow_succ_r in Ha, Hb by lia.
    simpl in H. apply append_single_inj in H as [H1 H2].
    apply IH in H1.
    + apply digit_char_inj in H2.
      * rewrite (Z.div_mod a 10), (Z.div_mod b 10) by lia. congruence.
      * pose proof (Z.mod_pos_bound a 10). lia.
      * pose proof (Z.mod_pos_bound b 10). lia.
    + split; [apply Z.div_pos; lia | apply Z.div_lt_upper_bound; lia].
    + split; [apply Z.div_pos; lia | apply Z.div_lt_upper_bound; lia].
Qed.

Lemma zfill_fixed (w : nat) (n : Z) :
  n < 10 ^ Z.of_nat w -> zfill w n = fixed_digits w n.
Proof.
  intros H. unfold zfill.
  destruct (n <? 10 ^ Z.of_nat w) eqn:E; auto.
  apply Z.ltb_ge in E. lia.
Qed.

(** Two texts of the same length followed by anything are equal only when
    they and what follows are equal. *)
Lemma append_same_length_inj (a b c d : string) :
  String.length a = String.length b -> a ++ c = b ++ d -> a = b /\ c = d.
Proof.
  revert b. induction a as [| x a IH]; intros [| y b] Hl H; simpl in *;
    try discriminate; auto.
  injection H as -> H. injection Hl as Hl.
  destruct (IH _ Hl H) as [-> ->]. auto.
Qed.

(* ===================================================================== *)
(** * [strftime] tells calendar minutes and days apart *)
(* ===================================================================== *)

Lemma days_in_month_bounds (y m : Z) :
  1 <= m <= 12 -> 28 <= _days_in_month y m <= 31.
Proof.
  intros H. unfold _days_in_month.
  assert (m = 1 \/ m = 2 \/ m = 3 \/ m = 4 \/ m = 5 \/ m = 6 \/ m = 7
          \/ m = 8 \/ m = 9 \/ m = 10 \/ m = 11 \/ m = 12) as Hm by lia.
  destruct (_is_leap y);
    repeat (destruct Hm as [-> | Hm]; [simpl; lia |]); subst; simpl; lia.
Qed.

Lemma valid_datetime_ranges (t : datetime) :
  valid_datetime t = true ->
  1 <= year t <= 9999 /\ 1 <= month t <= 12
  /\ 1 <= day t <= _days_in_month (year t) (month t)
  /\ 0 <= hour t <= 23 /\ 0 <= minute t <= 59 /\ 0 <= second t <= 59.
Proof.
  unfold valid_datetime. intros H.
  repeat (apply andb_prop in H; destruct H as [H ?]).
  repeat match goal with
         | H : (_ <=? _) = true |- _ => apply Z.leb_le in H
         end.
  lia.
Qed.

Lemma strftime_date_inj (a b : datetime) :
  valid_datetime a = true -> valid_datetime b = true ->
  strftime_date a = strftime_date b -> date_of a = date_of b.
Proof.
  intros Ha Hb H.
  apply valid_datetime_ranges in Ha, Hb.
  pose proof (days_in_month_bounds (year a) (month a)).
  pose proof (days_in_month_bounds (year b) (month b)).
  unfold strftime_date in H.
  rewrite !zfill_fixed in H by (simpl; lia).
  apply append_same_length_inj in H as [Hy H];
    [| now rewrite !fixed_digits_length].
  apply (append_same_length_inj "-" "-") in H as [_ H]; [| reflexivity].
  apply append_same_length_inj in H as [Hm H];
    [| now rewrite !fixed_digits_length].
  apply (append_same_length_inj "-" "-") in H as [_ Hd]; [| reflexivity].
  apply fixed_digits_inj in Hy; [| simpl; lia | simpl; lia].
  apply fixed_digits_inj in Hm; [| simpl; lia | simpl; lia].
  apply fixed_digits_inj in Hd; [| simpl; lia | simpl; lia].
  unfold date_of. congruence.
Qed.

Lemma strftime_hm_inj (a b : datetime) :
  valid_datetime a = true -> valid_datetime b = true ->
  strftime_hm a = strftime_hm b -> hour a = hour b /\ minute a = minute b.
Proof.
  intros Ha Hb H.
  apply valid_datetime_ranges in Ha, Hb.
  unfold strftime_hm in H.
  rewrite !zfill_fixed in H by (simpl; lia).
  apply append_same_length_inj in H as [Hh H];
    [| now rewrite !fixed_digits_length].
  apply (append_same_length_inj ":" ":") in H as [_ Hm]; [| reflexivity].
  apply fixed_digits_inj in Hh; [| simpl; lia | simpl; lia].
  apply fixed_digits_inj in Hm; [| simpl; lia | simpl; lia].
  split; assumption.
Qed.

Lemma strftime_date_length (a : datetime) :
  valid_datetime a = true -> String.length (strftime_date a) = 10%nat.
Proof.
  intros Ha. apply valid_datetime_ranges in Ha.
  pose proof (days_in_month_bounds (year a) (month a)).
  unfold strftime_date.
  rewrite !zfill_fixed by (simpl; lia).
  rewrite !length_append, !fixed_digits_length. reflexivity.
Qed.

Lemma strftime_minute_inj (a b : datetime) :
  valid_datetime a = true -> valid_datetime b = true ->
  strftime_minute a = strftime_minute b -> minute_of a = minute_of b.
Proof.
  intros Ha Hb H. unfold strftime_minute in H.
  apply append_same_length_inj in H as [Hd H];
    [| now rewrite !strftime_date_length].
  apply (append_same_length_inj " " " ") in H as [_ Hm]; [| reflexivity].
  apply strftime_date_inj in Hd; auto.
  apply strftime_hm_inj in Hm as [Hh Hm]; auto.
  unfold date_of in Hd. unfold minute_of. congruence.
Qed.

Lemma strftime_date_same_day (a b : datetime) :
  date_of a = date_of b -> strftime_date a = strftime_date b.
Proof. unfold date_of, strftime_date. intros H. injection H as -> -> ->. reflexivity. Qed.

Lemma strftime_minute_same_minute (a b : datetime) :
  minute_of a = minute_of b -> strftime_minute a = strftime_minute b.
Proof.
  unfold minute_of, strftime_minute, strftime_date, strftime_hm.
  intros H. injection H as -> -> -> -> ->. reflexivity.
Qed.

Lemma strftime_minute_eqb (a b : datetime) :
  valid_datetime a = true -> valid_datetime b = true ->
  String.eqb (strftime_minute a) (strftime_minute b) = true
  <-> minute_of a = minute_of b.
Proof.
  intros Ha Hb. rewrite String.eqb_eq. split.
  - now apply strftime_minute_inj.
  - apply strftime_minute_same_minute.
Qed.

(* ===================================================================== *)
(** * [strptime] yields existing dates only *)
(* ===================================================================== *)

Lemma in_m_bind {A B : Type} (m : matcher A) (k : A -> matcher B) (s : string)
    (x : B * string) :
  In x (m_bind m k s) <-> exists a s', In (a, s') (m s) /\ In x (k a s').
Proof.
  unfold m_bind. rewrite in_flat_map. split.
  - intros [[a s'] [H1 H2]]. eauto.
  - intros (a & s' & H1 & H2). exists (a, s'). auto.
Qed.

Lemma in_m_alt {A : Type} (m1 m2 : matcher A) (s : string) (x : A * string) :
  In x (m_alt m1 m2 s) <-> In x (m1 s) \/ In x (m2 s).
Proof. unfold m_alt. apply in_app_iff. Qed.

Lemma in_m_ret {A : Type} (a : A) (s : string) (x : A * string) :
  In x (m_ret a s) <-> x = (a, s).
Proof. unfold m_ret. simpl. intuition congruence. Qed.

Lemma in_m_ret_value {A : Type} (a v : A) (s r : string) :
  In (v, r) (m_ret a s) -> v = a.
Proof. intros H. apply in_m_ret in H. congruence. Qed.

Lemma in_m_digit (lo hi : Z) (s : string) (v : Z) (r : string) :
  In (v, r) (m_digit lo hi s) -> lo <= v <= hi.
Proof.
  unfold m_digit. rewrite in_m_bind. intros (c & s' & H1 & H2).
  apply in_m_ret in H2. injection H2 as -> ->.
  unfold m_char in H1. destruct s as [| c0 s0]; [contradiction |].
  destruct (is_digit c0 && (lo <=? digit_val c0) && (digit_val c0 <=? hi)) eqn:E;
    [| contradiction].
  destruct H1 as [H1 | []]. injection H1 as -> ->.
  apply andb_prop in E as [E E2]. apply andb_prop in E as [_ E1].
  apply Z.leb_le in E1, E2. split; assumption.
Qed.

Lemma in_m_two (lo1 hi1 lo2 hi2 : Z) (s : string) (v : Z) (r : string) :
  In (v, r) (m_two lo1 hi1 lo2 hi2 s) ->
  10 * lo1 + lo2 <= v <= 10 * hi1 + hi2.
Proof.
  unfold m_two. rewrite in_m_bind. intros (a & s1 & Ha & H).
  apply in_m_bind in H as (b & s2 & Hb & H).
  apply in_m_ret_value in H. subst v.
  apply in_m_digit in Ha, Hb. lia.
Qed.

Lemma in_re_Y (s : string) (v : Z) (r : string) :
  In (v, r) (re_Y s) -> 0 <= v <= 9999.
Proof.
  unfold re_Y. rewrite in_m_bind. intros (a & s1 & Ha & H).
  apply in_m_bind in H as (b & s2 & Hb & H).
  apply in_m_bind in H as (c & s3 & Hc & H).
  apply in_m_bind in H as (d & s4 & Hd & H).
  apply in_m_ret_value in H. subst v.
  apply in_m_digit in Ha, Hb, Hc, Hd. lia.
Qed.

Ltac in_alternatives H :=
  repeat (apply in_m_alt in H; destruct H as [H | H]);
  try (apply in_m_two in H; lia);
  try (apply in_m_digit in H; lia).

Lemma in_re_m (s : string) (v : Z) (r : string) :
  In (v, r) (re_m s) -> 1 <= v <= 12.
Proof. unfold re_m. intros H. in_alternatives H. Qed.

Lemma in_re_d (s : string) (v : Z) (r : string) :
  In (v, r) (re_d s) -> 1 <= v <= 31.
Proof.
  unfold re_d. intros H. in_alternatives H.
  apply in_m_bind in H as (c & s1 & _ & H). apply in_m_digit in H. lia.
Qed.

Lemma in_re_H (s : string) (v : Z) (r : string) :
  In (v, r) (re_H s) -> 0 <= v <= 23.
Proof. unfold re_H. intros H. in_alternatives H. Qed.

Lemma in_re_M (s : string) (v : Z) (r : string) :
  In (v, r) (re_M s) -> 0 <= v <= 59.
Proof. unfold re_M. intros H. in_alternatives H. Qed.

Lemma in_re_minute_format (s : string) (t : datetime) (r : string) :
  In (t, r) (re_minute_format s) ->
  0 <= year t <= 9999 /\ 1 <= month t <= 12 /\ 1 <= day t <= 31
  /\ 0 <= hour t <= 23 /\ 0 <= minute t <= 59 /\ second t = 0.
Proof.
  unfold re_minute_format. rewrite in_m_bind. intros (Y & s1 & HY & H).
  apply in_m_bind in H as (c1 & s2 & _ & H).
  apply in_m_bind in H as (m & s3 & Hm & H).
  apply in_m_bind in H as (c2 & s4 & _ & H).
  apply in_m_bind in H as (d & s5 & Hd & H).
  apply in_m_bind in H as (u & s6 & _ & H).
  apply in_m_bind in H as (h & s7 & Hh & H).
  apply in_m_bind in H as (c3 & s8 & _ & H).
  apply in_m_bind in H as (mi & s9 & Hmi & H).
  apply in_m_ret_value in H. subst t. cbn [year month day hour minute second].
  apply in_re_Y in HY. apply in_re_m in Hm. apply in_re_d in Hd.
  apply in_re_H in Hh. apply in_re_M in Hmi. lia.
Qed.

Lemma strptime_minute_valid (text : string) (t : datetime) :
  strptime_minute text = Ret t -> valid_datetime t = true.
Proof.
  unfold strptime_minute.
  destruct (re_minute_format text) as [| [t0 rest] l] eqn:E; [discriminate |].
  destruct rest; [| discriminate].
  destruct ((1 <=? year t0) && (day t0 <=? _days_in_month (year t0) (month t0))) eqn:C;
    [| discriminate].
  intros H. injection H as ->.
  assert (In (t, "") (re_minute_format text)) as Hin by (rewrite E; now left).
  apply in_re_minute_format in Hin.
  apply andb_prop in C as [C1 C2]. apply Z.leb_le in C1, C2.
  unfold valid_datetime.
  repeat (apply andb_true_intro; split); apply Z.leb_le; lia.
Qed.

(* ===================================================================== *)
(** * [strptime] reads back what [strftime] writes *)
(* ===================================================================== *)

Lemma first_bind {A B : Type} (m : matcher A) (k : A -> matcher B)
    (s s' : string) (a : A) (x : B * string) :
  first_match m s (a, s') -> first_match (k a) s' x -> first_match (m_bind m k) s x.
Proof.
  intros [l Hl] [l' Hl']. unfold first_match, m_bind.
  rewrite Hl. cbn [flat_map fst snd]. rewrite Hl'. cbn [app]. eauto.
Qed.

Lemma first_ret {A : Type} (a : A) (s : string) : first_match (m_ret a) s (a, s).
Proof. exists []. reflexivity. Qed.

Lemma first_lit (c : ascii) (s : string) : first_match (m_lit c) (String c s) (c, s).
Proof. exists []. unfold m_lit, m_char. now rewrite Ascii.eqb_refl. Qed.

Lemma first_digit (d : Z) (s : string) :
  0 <= d <= 9 -> first_match (m_digit 0 9) (String (digit_char d) s) (d, s).
Proof.
  intros H. exists []. unfold m_digit, m_bind, m_char.
  rewrite is_digit_digit_char, digit_val_digit_char by assumption.
  replace (0 <=? d) with true by (symmetry; apply Z.leb_le; lia).
  replace (d <=? 9) with true by (symmetry; apply Z.leb_le; lia).
  cbn. now rewrite digit_val_digit_char.
Qed.

Lemma fixed_digits_2 (n : Z) (s : string) :
  fixed_digits 2 n ++ s
  = String (digit_char ((n / 10) mod 10)) (String (digit_char (n mod 10)) s).
Proof. reflexivity. Qed.

Lemma fixed_digits_4 (n : Z) (s : string) :
  fixed_digits 4 n ++ s
  = String (digit_char ((n / 10 / 10 / 10) mod 10))
      (String (digit_char ((n / 10 / 10) mod 10))
         (String (digit_char ((n / 10) mod 10)) (String (digit_char (n mod 10)) s))).
Proof. reflexivity. Qed.

Lemma first_re_Y (y : Z) (s : string) :
  0 <= y <= 9999 -> first_match re_Y (fixed_digits 4 y ++ s) (y, s).
Proof.
  intros H. rewrite fixed_digits_4.
  pose proof (Z.mod_pos_bound y 10 ltac:(lia)).
  pose proof (Z.mod_pos_bound (y / 10) 10 ltac:(lia)).
  pose proof (Z.mod_pos_bound (y / 10 / 10) 10 ltac:(lia)).
  pose proof (Z.mod_pos_bound (y / 10 / 10 / 10) 10 ltac:(lia)).
  assert (y = 1000 * ((y / 10 / 10 / 10) mod 10) + 100 * ((y / 10 / 10) mod 10)
              + 10 * ((y / 10) mod 10) + y mod 10) as Hy.
  { assert (y / 10 / 10 / 10 < 10) by (repeat apply Z.div_lt_upper_bound; lia).
    rewrite (Z.mod_small (y / 10 / 10 / 10)) by (split; [repeat apply Z.div_pos |]; lia).
    pose proof (Z.div_mod y 10 ltac:(lia)).
    pose proof (Z.div_mod (y / 10) 10 ltac:(lia)).
    pose proof (Z.div_mod (y / 10 / 10) 10 ltac:(lia)).
    lia. }
  rewrite Hy at 5.
  unfold re_Y.
  eapply first_bind; [apply first_digit; lia |].
  eapply first_bind; [apply first_digit; lia |].
  eapply first_bind; [apply first_digit; lia |].
  eapply first_bind; [apply first_digit; lia |].
  apply first_ret.
Qed.

Lemma first_re_m (m : Z) (s : string) :
  1 <= m <= 12 -> first_match re_m (fixed_digits 2 m ++ s) (m, s).
Proof.
  intros H.
  assert (m = 1 \/ m = 2 \/ m = 3 \/ m = 4 \/ m = 5 \/ m = 6 \/ m = 7
          \/ m = 8 \/ m = 9 \/ m = 10 \/ m = 11 \/ m = 12) as Hm by lia.
  repeat (destruct Hm as [-> | Hm]; [eexists; reflexivity |]).
  subst. eexists; reflexivity.
Qed.

(** A number between [lo] and [lo + n] is one of these [n + 1] numbers. *)
Lemma range_cases (P : Z -> Prop) (n : nat) (lo : Z) :
  (forall i, (i <= n)%nat -> P (lo + Z.of_nat i)) ->
  forall x, lo <= x <= lo + Z.of_nat n -> P x.
Proof.
  intros H x Hx. replace x with (lo + Z.of_nat (Z.to_nat (x - lo))) by lia.
  apply H. lia.
Qed.

Lemma first_re_d (d : Z) (s : string) :
  1 <= d <= 31 -> first_match re_d (fixed_digits 2 d ++ s) (d, s).
Proof.
  apply (range_cases (fun d => first_match re_d (fixed_digits 2 d ++ s) (d, s)) 30 1).
  intros i Hi.
  do 31 (destruct i as [| i]; [eexists; reflexivity |]). lia.
Qed.

Lemma first_re_H (h : Z) (s : string) :
  0 <= h <= 23 -> first_match re_H (fixed_digits 2 h ++ s) (h, s).
Proof.
  apply (range_cases (fun h => first_match re_H (fixed_digits 2 h ++ s) (h, s)) 23 0).
  intros i Hi.
  do 24 (destruct i as [| i]; [eexists; reflexivity |]). lia.
Qed.

Lemma first_re_M (m : Z) (s : string) :
  0 <= m <= 59 -> first_match re_M (fixed_digits 2 m ++ s) (m, s).
Proof.
  apply (range_cases (fun m => first_match re_M (fixed_digits 2 m ++ s) (m, s)) 59 0).
  intros i Hi.
  do 60 (destruct i as [| i]; [eexists; reflexivity |]). lia.
Qed.

Lemma first_spaces (h : Z) (s : string) :
  0 <= h <= 23 ->
  first_match m_spaces (String " "%char (fixed_digits 2 h ++ s))
    (tt, fixed_digits 2 h ++ s).
Proof.
  apply (range_cases
           (fun h => first_match m_spaces (String " "%char (fixed_digits 2 h ++ s))
                       (tt, fixed_digits 2 h ++ s)) 23 0).
  intros i Hi.
  do 24 (destruct i as [| i]; [eexists; reflexivity |]). lia.
Qed.

Lemma strftime_minute_layout (t : datetime) :
  valid_datetime t = true ->
  strftime_minute t
  = fixed_digits 4 (year t)
    ++ String "-"%char (fixed_digits 2 (month t)
    ++ String "-"%char (fixed_digits 2 (day t)
    ++ String " "%char (fixed_digits 2 (hour t)
    ++ String ":"%char (fixed_digits 2 (minute t) ++ "")))).
Proof.
  intros Hv. apply valid_datetime_ranges in Hv.
  pose proof (days_in_month_bounds (year t) (month t)).
  unfold strftime_minute, strftime_date, strftime_hm.
  rewrite !zfill_fixed by (simpl; lia).
  rewrite !append_assoc. cbn [append]. now rewrite append_nil_r.
Qed.

(** [strptime] on the text [strftime] writes for a [datetime] gives the
    start of its calendar minute. *)
Theorem strptime_strftime (t : datetime) :
  valid_datetime t = true ->
  strptime_minute (strftime_minute t) = Ret (start_of_minute t).
Proof.
  intros Hv. rewrite strftime_minute_layout by assumption.
  pose proof (valid_datetime_ranges t Hv) as (Hy & Hm & Hd & Hh & Hmi & _).
  pose proof (days_in_month_bounds (year t) (month t) Hm).
  assert (first_match re_minute_format
            (fixed_digits 4 (year t)
             ++ String "-"%char (fixed_digits 2 (month t)
             ++ String "-"%char (fixed_digits 2 (day t)
             ++ String " "%char (fixed_digits 2 (hour t)
             ++ String ":"%char (fixed_digits 2 (minute t) ++ "")))))
            (start_of_minute t, "")) as [l Hl].
  { unfold re_minute_format.
    eapply first_bind; [apply first_re_Y; lia |].
    eapply first_bind; [apply first_lit |].
    eapply first_bind; [apply first_re_m; lia |].
    eapply first_bind; [apply first_lit |].
    eapply first_bind; [apply first_re_d; lia |].
    eapply first_bind; [apply first_spaces; lia |].
    eapply first_bind; [apply first_re_H; lia |].
    eapply first_bind; [apply first_lit |].
    eapply first_bind; [apply first_re_M; lia |].
    apply first_ret. }
  unfold strptime_minute. rewrite Hl. cbn [start_of_minute year month day].
  replace (1 <=? year t) with true by (symmetry; apply Z.leb_le; lia).
  replace (day t <=? _days_in_month (year t) (month t)) with true
    by (symmetry; apply Z.leb_le; lia).
  reflexivity.
Qed.

(* ===================================================================== *)
(** * [_should_fire] on a Once record *)
(* ===================================================================== *)

Lemma should_fire_once (now tnow : datetime) (notif : dict) :
  get notif "repeat" (VStr "Once") = VStr "Once" ->
  _should_fire now tnow notif =
    if truthy (get notif "delivered" VNone) then Ret false
    else if negb (truthy (get notif "date" VNone)) then Ret false
    else match strptime_minute (due_text notif) with
         | Raise _ => Ret false
         | Ret due_dt => Ret (String.eqb (strftime_minute now) (strftime_minute due_dt))
         end.
Proof. intros H. unfold _should_fire, due_text. rewrite H. reflexivity. Qed.

Lemma strftime_date_truthy (t : datetime) :
  valid_datetime t = true -> truthy (VStr (strftime_date t)) = true.
Proof.
  intros Hv. pose proof (strftime_date_length t Hv) as Hl.
  simpl. destruct (strftime_date t); [discriminate | reflexivity].
Qed.

Lemma valid_start_of_minute (t : datetime) :
  valid_datetime t = true -> valid_datetime (start_of_minute t) = true.
Proof.
  unfold valid_datetime, start_of_minute. cbn [year month day hour minute second].
  intros H. repeat (apply andb_prop in H; destruct H as [H ?]).
  repeat (apply andb_true_intro; split); auto.
Qed.

(** C1. For a record whose repeat mode is Once, [_should_fire] at the
    instant [now] returns true exactly when [delivered] is false, [date] is
    present, [date] and [time] parse as [%Y-%m-%d %H:%M], and the calendar
    minute of [now] is the calendar minute parsed; it returns a boolean at
    every instant, and false at every instant outside that minute.  In
    particular, for a record not yet delivered whose [date] and [time] are
    the day [D] and the time [T] of an instant [due] as [strftime] writes
    them, it returns true exactly during the calendar minute [D T]. *)
Theorem should_fire_once_iff (now tnow : datetime) (notif : dict) :
  valid_datetime now = true ->
  get notif "repeat" (VStr "Once") = VStr "Once" ->
  (_should_fire now tnow notif = Ret true <->
     truthy (get notif "delivered" VNone) = false
     /\ truthy (get notif "date" VNone) = true
     /\ exists due_dt, strptime_minute (due_text notif) = Ret due_dt
                       /\ minute_of now = minute_of due_dt)
  /\ (_should_fire now tnow notif = Ret true \/ _should_fire now tnow notif = Ret false)
  /\ (forall due_dt, strptime_minute (due_text notif) = Ret due_dt ->
                     minute_of now <> minute_of due_dt ->
                     _should_fire now tnow notif = Ret false)
  /\ (forall due : datetime,
        valid_datetime due = true ->
        truthy (get notif "delivered" VNone) = false ->
        get notif "date" VNone = VStr (strftime_date due) ->
        get notif "time" (VStr "00:00") = VStr (strftime_hm due) ->
        (_should_fire now tnow notif = Ret true <-> minute_of now = minute_of due)
        /\ (minute_of now <> minute_of due -> _should_fire now tnow notif = Ret false)).
Proof.
  intros Hnow Hrep.
  assert (forall due : datetime,
             valid_datetime due = true ->
             truthy (get notif "delivered" VNone) = false ->
             get notif "date" VNone = VStr (strftime_date due) ->
             get notif "time" (VStr "00:00") = VStr (strftime_hm due) ->
             _should_fire now tnow notif
             = Ret (String.eqb (strftime_minute now) (strftime_minute due))) as Hcanon.
  { intros due Hdue Hdel Hdate Htime.
    rewrite (should_fire_once now tnow notif Hrep), Hdel.
    unfold due_text. rewrite Hdate, Htime, strftime_date_truthy by assumption.
    cbn [negb py_str].
    change (strftime_date due ++ " " ++ strftime_hm due) with (strftime_minute due).
    rewrite strptime_strftime by assumption.
    now rewrite (strftime_minute_same_minute (start_of_minute due) due). }
  rewrite (should_fire_once now tnow notif Hrep).
  split; [| split; [| split]].
  - destruct (truthy (get notif "delivered" VNone)).
    { split; [discriminate | intros (H & _); discriminate]. }
    destruct (truthy (get notif "date" VNone)); simpl.
    2:{ split; [discriminate | intros (_ & H & _); discriminate]. }
    destruct (strptime_minute (due_text notif)) as [due_dt | e] eqn:P.
    + pose proof (strptime_minute_valid _ _ P) as Hdue.
      pose proof (strftime_minute_eqb now due_dt Hnow Hdue) as Heq.
      split.
      * intros H. injection H as H'. apply Heq in H'. eauto.
      * intros (_ & _ & d & Hd & Hm). injection Hd as <-.
        apply Heq in Hm. now rewrite Hm.
    + split; [discriminate | intros (_ & _ & d & Hd & _); discriminate].
  - destruct (truthy (get notif "delivered" VNone)); auto.
    destruct (negb (truthy (get notif "date" VNone))); auto.
    destruct (strptime_minute (due_text notif)); auto.
    destruct (String.eqb (strftime_minute now) (strftime_minute a)); auto.
  - intros d Hd Hne. rewrite Hd.
    pose proof (strptime_minute_valid _ _ Hd) as Hdue.
    pose proof (strftime_minute_eqb now d Hnow Hdue) as Heq.
    destruct (truthy (get notif "delivered" VNone)); auto.
    destruct (negb (truthy (get notif "date" VNone))); auto.
    destruct (String.eqb (strftime_minute now) (strftime_minute d)); auto.
    exfalso. apply Hne, Heq. reflexivity.
  - intros due Hdue Hdel Hdate Htime.
    rewrite <- (should_fire_once now tnow notif Hrep).
    rewrite (Hcanon due Hdue Hdel Hdate Htime).
    pose proof (strftime_minute_eqb now due Hnow Hdue) as Heq.
    split.
    + rewrite <- Heq. split; intros H; [now injection H | now rewrite H].
    + intros Hne.
      destruct (String.eqb (strftime_minute now) (strftime_minute due)); auto.
      exfalso. apply Hne, Heq. reflexivity.
Qed.

(** C2. After [_mark_fired] on a record whose repeat mode is Once,
    [_should_fire] returns false at every instant, whatever the instants of
    the mark and of the evaluations are and however often it is evaluated or
    marked again. *)
Theorem should_fire_false_after_mark_once
    (marks : list datetime) (mnow now tnow : datetime) (notif : dict) :
  get notif "repeat" (VStr "Once") = VStr "Once" ->
  _should_fire now tnow
    (fold_left (fun r m => _mark_fired m r) marks (_mark_fired mnow notif))
  = Ret false.
Proof.
  intros Hrep.
  assert (forall r : dict,
             get r "repeat" (VStr "Once") = VStr "Once" ->
             get r "delivered" VNone = VBool true ->
             _should_fire now tnow (fold_left (fun r m => _mark_fired m r) marks r)
             = Ret false) as Hgen.
  { induction marks as [| m marks IH]; intros r Hr Hd; simpl.
    - rewrite should_fire_once by assumption. now rewrite Hd.
    - apply IH.
      + now rewrite mark_fired_repeat.
      + unfold _mark_fired. rewrite Hr. simpl. apply get_set_eq. }
  apply Hgen.
  - now rewrite mark_fired_repeat.
  - unfold _mark_fired. rewrite Hrep. simpl. apply get_set_eq.
Qed.

(* ===================================================================== *)
(** * [str] of an integer can be read back *)
(* ===================================================================== *)

Lemma digits_of_app (f : nat) (n : Z) (acc rest : string) :
  digits_of f n acc ++ rest = digits_of f n (acc ++ rest).
Proof.
  revert n acc. induction f as [| f IH]; intros n acc; simpl; auto.
  destruct (n <? 10); [reflexivity | apply IH].
Qed.

Lemma scan_digits_step (a d : Z) (s : string) :
  0 <= d <= 9 ->
  scan_digits a (String (digit_char d) s) = scan_digits (10 * a + d) s.
Proof.
  intros H. cbn [scan_digits].
  now rewrite is_digit_digit_char, digit_val_digit_char.
Qed.

Lemma scan_digits_of (f : nat) (n : Z) (t : string) :
  0 <= n < 10 ^ Z.of_nat f ->
  scan_digits 0 (digits_of f n t) = scan_digits n t.
Proof.
  revert n t. induction f as [| f IH]; intros n t H.
  - simpl in H. assert (n = 0) by lia. now subst.
  - rewrite Nat2Z.inj_succ, Z.pow_succ_r in H by lia.
    cbn [digits_of]. destruct (n <? 10) eqn:E.
    + apply Z.ltb_lt in E. rewrite scan_digits_step by lia. f_equal.
    + apply Z.ltb_ge in E. rewrite IH.
      * pose proof (Z.mod_pos_bound n 10).
        rewrite scan_digits_step by lia. f_equal.
        rewrite (Z.div_mod n 10) at 3 by lia. reflexivity.
      * split; [apply Z.div_pos; lia | apply Z.div_lt_upper_bound; lia].
Qed.

Lemma digits_of_head (f : nat) (n : Z) (acc : string) :
  0 < n < 10 ^ Z.of_nat f ->
  exists d s, 1 <= d <= 9 /\ digits_of f n acc = String (digit_char d) s.
Proof.
  revert n acc. induction f as [| f IH]; intros n acc H.
  - simpl in H. lia.
  - rewrite Nat2Z.inj_succ, Z.pow_succ_r in H by lia.
    cbn [digits_of]. destruct (n <? 10) eqn:E.
    + apply Z.ltb_lt in E. exists n, acc. split; [lia | reflexivity].
    + apply Z.ltb_ge in E. apply IH.
      split; [apply Z.div_str_pos; lia | apply Z.div_lt_upper_bound; lia].
Qed.

Lemma str_nat_fuel (n : Z) :
  0 <= n -> n < 10 ^ Z.of_nat (S (Z.to_nat (Z.log2 n))).
Proof.
  intros H. rewrite Nat2Z.inj_succ, Z2Nat.id by apply Z.log2_nonneg.
  destruct (Z.eq_dec n 0) as [-> | Hn]; [reflexivity |].
  pose proof (Z.log2_spec n ltac:(lia)) as [_ Hlt].
  pose proof (Z.log2_nonneg n).
  eapply Z.lt_le_trans; [exact Hlt |].
  apply Z.pow_le_mono_l. lia.
Qed.

Lemma scan_digits_stop (a : Z) (s : string) :
  match s with String c _ => is_digit c | EmptyString => false end = false ->
  scan_digits a s = (a, s).
Proof. destruct s; simpl; intros H; [reflexivity | now rewrite H]. Qed.

Lemma scan_str_nat (n : Z) (rest : string) :
  0 <= n -> no_digit_ahead rest ->
  scan_digits 0 (str_nat n ++ rest) = (n, rest).
Proof.
  intros Hn Hrest. unfold str_nat.
  rewrite digits_of_app. simpl append.
  rewrite scan_digits_of by (split; [assumption | apply str_nat_fuel; assumption]).
  now apply scan_digits_stop.
Qed.

Lemma str_nat_head (n : Z) :
  0 <= n -> exists d s, 0 <= d <= 9 /\ str_nat n = String (digit_char d) s.
Proof.
  intros Hn. destruct (Z.eq_dec n 0) as [-> | Hne].
  - exists 0, "". split; [lia | reflexivity].
  - destruct (digits_of_head (S (Z.to_nat (Z.log2 n))) n "") as (d & s & Hd & E).
    + split; [lia | apply str_nat_fuel; lia].
    + exists d, s. split; [lia | exact E].
Qed.

Lemma str_nat_app_inj (a b : Z) (r r' : string) :
  0 <= a -> 0 <= b -> no_digit_ahead r -> no_digit_ahead r' ->
  str_nat a ++ r = str_nat b ++ r' -> a = b /\ r = r'.
Proof.
  intros Ha Hb Hr Hr' H.
  apply (f_equal (scan_digits 0)) in H.
  rewrite !scan_str_nat in H by assumption.
  now injection H.
Qed.

Lemma str_int_app_inj (a b : Z) (r r' : string) :
  no_digit_ahead r -> no_digit_ahead r' ->
  str_int a ++ r = str_int b ++ r' -> a = b /\ r = r'.
Proof.
  intros Hr Hr' H. unfold str_int in H.
  destruct (a <? 0) eqn:Ea, (b <? 0) eqn:Eb;
    try apply Z.ltb_lt in Ea; try apply Z.ltb_lt in Eb;
    try apply Z.ltb_ge in Ea; try apply Z.ltb_ge in Eb.
  - simpl in H. injection H as H.
    apply str_nat_app_inj in H as [H1 H2]; try assumption; try lia.
    split; [lia | assumption].
  - exfalso. destruct (str_nat_head b Eb) as (d & s & Hd & E).
    rewrite E in H. simpl in H. injection H as H _.
    apply (f_equal code) in H. rewrite code_digit_char in H by assumption.
    change (code "-"%char) with 45 in H. lia.
  - exfalso. destruct (str_nat_head a Ea) as (d & s & Hd & E).
    rewrite E in H. simpl in H. injection H as H _.
    apply (f_equal code) in H. rewrite code_digit_char in H by assumption.
    change (code "-"%char) with 45 in H. lia.
  - apply str_nat_app_inj in H; assumption.
Qed.

(** [current_week] tells ISO weeks apart. *)
Lemma current_week_inj (a b : datetime) :
  current_week a = current_week b -> iso_week_of a = iso_week_of b.
Proof.
  unfold current_week, iso_week_of.
  destruct (isocalendar a) as [[y w] d], (isocalendar b) as [[y' w'] d'].
  intros H.
  apply str_int_app_inj in H as [-> H]; [| reflexivity | reflexivity].
  simpl in H. injection H as H.
  rewrite <- (append_nil_r (str_int w)), <- (append_nil_r (str_int w')) in H.
  apply str_int_app_inj in H as [-> _]; [| reflexivity | reflexivity].
  reflexivity.
Qed.

Lemma current_week_same_week (a b : datetime) :
  iso_week_of a = iso_week_of b -> current_week a = current_week b.
Proof.
  unfold current_week, iso_week_of.
  destruct (isocalendar a) as [[y w] d], (isocalendar b) as [[y' w'] d'].
  intros H. injection H as -> ->. reflexivity.
Qed.

(* ===================================================================== *)
(** * [_should_fire] on Daily and Weekly records *)
(* ===================================================================== *)

Lemma time_matches_now (tnow : datetime) (time_str : value) :
  _time_matches_now tnow time_str = Ret (eq_str time_str (strftime_hm tnow)).
Proof. reflexivity. Qed.

Lemma should_fire_daily_reads (now tnow : datetime) (notif : dict) :
  get notif "repeat" (VStr "Once") = VStr "Daily" ->
  _should_fire now tnow notif =
    Ret (eq_str (get notif "time" (VStr "00:00")) (strftime_hm tnow)
         && negb (eq_str (get notif "last_fired_date" VNone) (strftime_date now))).
Proof.
  intros H. unfold _should_fire. rewrite H, time_matches_now. simpl.
  now destruct (eq_str (get notif "time" (VStr "00:00")) (strftime_hm tnow)).
Qed.

Lemma mark_fired_daily (tmark : datetime) (notif : dict) :
  get notif "repeat" (VStr "Once") = VStr "Daily" ->
  _mark_fired tmark notif
  = dict_set "last_fired_date" (VStr (strftime_date tmark)) notif.
Proof. intros H. unfold _mark_fired. now rewrite H. Qed.

(** C3. For a record whose repeat mode is Daily, [_should_fire] at the
    instant [now] returns true exactly when [time] is the [%H:%M] of [now]
    and [last_fired_date] is not the date of [now].  Once [_mark_fired] has
    marked the record on some day, [_should_fire] is false at every instant
    of that day, and it is true again at [time] on any other day, the next
    day in particular. *)
Theorem should_fire_daily_iff (now : datetime) (notif : dict) :
  get notif "repeat" (VStr "Once") = VStr "Daily" ->
  (_should_fire now now notif = Ret true <->
     get notif "time" (VStr "00:00") = VStr (strftime_hm now)
     /\ get notif "last_fired_date" VNone <> VStr (strftime_date now))
  /\ (_should_fire now now notif = Ret true \/ _should_fire now now notif = Ret false)
  /\ (forall tmark later : datetime,
        date_of tmark = date_of later ->
        _should_fire later later (_mark_fired tmark notif) = Ret false)
  /\ (forall tmark next : datetime,
        valid_datetime tmark = true -> valid_datetime next = true ->
        date_of tmark <> date_of next ->
        get notif "time" (VStr "00:00") = VStr (strftime_hm next) ->
        _should_fire next next (_mark_fired tmark notif) = Ret true).
Proof.
  intros Hrep. split; [| split; [| split]].
  - rewrite should_fire_daily_reads by assumption.
    rewrite <- eq_str_true_iff, <- eq_str_false_iff.
    destruct (eq_str (get notif "time" (VStr "00:00")) (strftime_hm now)),
      (eq_str (get notif "last_fired_date" VNone) (strftime_date now));
      simpl; split; try discriminate; auto; intros [? ?]; discriminate.
  - rewrite should_fire_daily_reads by assumption.
    destruct (_ && _); auto.
  - intros tmark later Hday.
    rewrite should_fire_daily_reads by (now rewrite mark_fired_repeat).
    rewrite mark_fired_daily by assumption.
    rewrite get_set_eq. simpl.
    rewrite (strftime_date_same_day tmark later Hday), String.eqb_refl.
    now rewrite andb_false_r.
  - intros tmark next Hv Hv' Hday Htime.
    rewrite should_fire_daily_reads by (now rewrite mark_fired_repeat).
    rewrite mark_fired_daily by assumption.
    rewrite get_set_eq, get_set_ne by discriminate.
    rewrite Htime. simpl. rewrite String.eqb_refl. simpl.
    destruct (String.eqb (strftime_date tmark) (strftime_date next)) eqn:E; auto.
    apply String.eqb_eq in E. apply strftime_date_inj in E; auto. contradiction.
Qed.

Lemma should_fire_weekly_reads (now tnow : datetime) (notif : dict) :
  get notif "repeat" (VStr "Once") = VStr "Weekly" ->
  _should_fire now tnow notif =
    cw <- py_int (get notif "created_weekday" (VInt (weekday now))) ;;
    Ret ((weekday now =? cw)
         && eq_str (get notif "time" (VStr "00:00")) (strftime_hm tnow)
         && negb (eq_str (get notif "last_fired_week" VNone) (current_week now))).
Proof.
  intros H. unfold _should_fire. rewrite H, time_matches_now. simpl.
  destruct (py_int (get notif "created_weekday" (VInt (weekday now)))) as [cw |];
    simpl; auto.
  destruct (weekday now =? cw); simpl; auto.
  now destruct (eq_str (get notif "time" (VStr "00:00")) (strftime_hm tnow)).
Qed.

Lemma mark_fired_weekly (tmark : datetime) (notif : dict) :
  get notif "repeat" (VStr "Once") = VStr "Weekly" ->
  _mark_fired tmark notif
  = dict_set "last_fired_week" (VStr (current_week tmark)) notif.
Proof. intros H. unfold _mark_fired. now rewrite H. Qed.

(** C4. For a record whose repeat mode is Weekly, [_should_fire] at the
    instant [now] returns true exactly when the weekday of [now] is the
    record's [created_weekday], [time] is the [%H:%M] of [now], and
    [last_fired_week] is not the ISO year and week of [now] written
    [{year}-W{week}].  Once [_mark_fired] has marked the record in some ISO
    week, [_should_fire] is not true at any instant of that week; in another
    ISO week it is true again on the anchored weekday at [time]; and on any
    other weekday it is not true. *)
Theorem should_fire_weekly_iff (now : datetime) (notif : dict) :
  get notif "repeat" (VStr "Once") = VStr "Weekly" ->
  (_should_fire now now notif = Ret true <->
     py_int (get notif "created_weekday" (VInt (weekday now))) = Ret (weekday now)
     /\ get notif "time" (VStr "00:00") = VStr (strftime_hm now)
     /\ get notif "last_fired_week" VNone <> VStr (current_week now))
  /\ (forall w : Z,
        get notif "created_weekday" (VInt (weekday now)) = VInt w ->
        weekday now <> w -> _should_fire now now notif = Ret false)
  /\ (forall tmark later : datetime,
        iso_week_of tmark = iso_week_of later ->
        _should_fire later later (_mark_fired tmark notif) <> Ret true)
  /\ (forall tmark next : datetime,
        iso_week_of tmark <> iso_week_of next ->
        py_int (get notif "created_weekday" (VInt (weekday next))) = Ret (weekday next) ->
        get notif "time" (VStr "00:00") = VStr (strftime_hm next) ->
        _should_fire next next (_mark_fired tmark notif) = Ret true).
Proof.
  intros Hrep. split; [| split; [| split]].
  - rewrite should_fire_weekly_reads by assumption.
    rewrite <- eq_str_true_iff, <- eq_str_false_iff.
    destruct (py_int (get notif "created_weekday" (VInt (weekday now)))) as [cw | e];
      simpl.
    + destruct (Z.eqb_spec (weekday now) cw) as [<- | Hne]; simpl.
      * destruct (eq_str (get notif "time" (VStr "00:00")) (strftime_hm now)),
          (eq_str (get notif "last_fired_week" VNone) (current_week now));
          simpl; split; try discriminate; auto; intros (_ & ? & ?); discriminate.
      * split; [discriminate |]. intros (H & _). congruence.
    + split; [discriminate |]. intros (H & _). discriminate.
  - intros w Hw Hne. rewrite should_fire_weekly_reads by assumption.
    rewrite Hw. simpl.
    destruct (Z.eqb_spec (weekday now) w); [contradiction | reflexivity].
  - intros tmark later Hweek.
    rewrite should_fire_weekly_reads by (now rewrite mark_fired_repeat).
    rewrite mark_fired_weekly by assumption.
    rewrite get_set_eq. simpl eq_str.
    rewrite (current_week_same_week tmark later Hweek), String.eqb_refl.
    destruct (py_int _); simpl; [| discriminate].
    rewrite andb_false_r. discriminate.
  - intros tmark next Hweek Hcw Htime.
    rewrite should_fire_weekly_reads by (now rewrite mark_fired_repeat).
    rewrite mark_fired_weekly by assumption.
    rewrite get_set_eq, !get_set_ne by discriminate.
    rewrite Hcw, Htime. simpl. rewrite Z.eqb_refl, String.eqb_refl. simpl.
    destruct (String.eqb (current_week tmark) (current_week next)) eqn:E; auto.
    apply String.eqb_eq in E. apply current_week_inj in E. contradiction.
Qed.

(* ===================================================================== *)
(** * Where [_should_fire] returns and where it raises *)
(* ===================================================================== *)

(** [_should_fire] returns a boolean for every record whose repeat mode is
    not Weekly, and for a Weekly record whose [created_weekday] is missing or
    converts with [int]. *)
Lemma should_fire_returns (now tnow : datetime) (notif : dict) :
  (get notif "repeat" (VStr "Once") = VStr "Weekly" ->
   exists w, py_int (get notif "created_weekday" (VInt (weekday now))) = Ret w) ->
  exists b : bool, _should_fire now tnow notif = Ret b.
Proof.
  intros Hcw.
  destruct (eq_str (get notif "repeat" (VStr "Once")) "Weekly") eqn:Ew.
  - apply eq_str_true_iff in Ew. destruct (Hcw Ew) as [w Hw].
    rewrite should_fire_weekly_reads, Hw by assumption. simpl. eauto.
  - unfold _should_fire. rewrite Ew, time_matches_now.
    destruct (eq_str (get notif "repeat" (VStr "Once")) "Once").
    + destruct (truthy (get notif "delivered" VNone)); eauto.
      destruct (negb (truthy (get notif "date" VNone))); eauto.
      destruct (strptime_minute _); eauto.
    + destruct (eq_str (get notif "repeat" (VStr "Once")) "Daily"); eauto.
      simpl. destruct (negb _); eauto.
Qed.

(** C9. [_should_fire] is not total: a Weekly record whose
    [created_weekday] is [None] makes it raise [TypeError] at every instant,
    because [int(None)] is not guarded, unlike the parse of the Once
    branch. *)
Theorem should_fire_raises_on_weekly_none (now tnow : datetime) :
  _should_fire now tnow broken_weekly_record = Raise TypeError.
Proof. reflexivity. Qed.

(* ===================================================================== *)
(** * The dispatcher *)
(* ===================================================================== *)

Lemma play_sound_returns (env : delivery_env) : snd (_play_sound env) = Ret tt.
Proof.
  unfold _play_sound.
  destruct (is_windows env); simpl; auto.
  destruct (default_sound_exists env); simpl.
  - destruct (PlaySound_result env) as [[] |]; simpl; auto.
    destruct (MessageBeep_retry_result env) as [[] |]; reflexivity.
  - destruct (MessageBeep_result env) as [[] |]; simpl; auto.
    destruct (MessageBeep_retry_result env) as [[] |]; reflexivity.
Qed.

Lemma try_mechanism_spec (m : mechanism) (result : outcome unit) :
  try_mechanism m result
  = ([mk_attempt m (negb (raises result))], Ret (negb (raises result))).
Proof. destruct result as [[] |]; reflexivity. Qed.

Lemma deliver_notification_trace (env : delivery_env)
    (title message : value) (image_path : option string) :
  _deliver_notification env title message image_path
  = (mk_attempt Sound true :: first_success_wins (candidates env), Ret tt).
Proof.
  unfold _deliver_notification, candidates.
  pose proof (play_sound_returns env) as Hs.
  destruct (_play_sound env) as [calls r]. simpl in Hs. subst r.
  rewrite !try_mechanism_spec. simpl.
  destruct (toaster_present env), (show_toast_result env) as [[] |],
    (winotify_available env), (winotify_result env) as [[] |],
    (plyer_available env), (plyer_result env) as [[] |],
    (showinfo_result env) as [[] |]; reflexivity.
Qed.

Lemma cons_eq_app {A : Type} (x a : A) (l pre post : list A) :
  x :: l = (pre ++ a :: post)%list ->
  (pre = [] /\ a = x /\ post = l)
  \/ (exists pre', pre = x :: pre' /\ l = (pre' ++ a :: post)%list).
Proof.
  destruct pre as [| y pre]; simpl; intros H; injection H as -> ->; eauto.
Qed.

(** Nothing follows a success in [first_success_wins]. *)
Lemma first_success_wins_stops (cs : list (mechanism * bool * outcome unit))
    (pre post : list attempt) (a : attempt) :
  first_success_wins cs = (pre ++ a :: post)%list ->
  succeeded a = true -> post = [].
Proof.
  revert pre. induction cs as [| [[m available] result] cs IH]; intros pre H Ha.
  - destruct pre; discriminate.
  - simpl in H. destruct available; [| eauto].
    destruct (raises result).
    + destruct pre as [| x pre]; simpl in H.
      * injection H as <- _. discriminate.
      * injection H as _ H. eauto.
    + destruct pre as [| x [| y pre]]; simpl in H; try discriminate.
      injection H as _ <-. reflexivity.
Qed.

(** Every attempt of [first_success_wins] but the last one failed. *)
Lemma first_success_wins_earlier_failed (cs : list (mechanism * bool * outcome unit))
    (pre post : list attempt) (a : attempt) :
  first_success_wins cs = (pre ++ a :: post)%list ->
  post <> [] -> succeeded a = false.
Proof.
  intros H Hpost. destruct (succeeded a) eqn:E; auto.
  apply first_success_wins_stops in H; auto. contradiction.
Qed.

(** C8. For every delivery call and whatever each mechanism does,
    [_deliver_notification] returns without raising; it invokes the sound
    first and then the available mechanisms in the order primary toast,
    secondary toast, generic library, modal dialog, stopping after the first
    one that succeeds; so the mechanisms of its trace come in that fixed
    order with none invoked twice, nothing is invoked after a toast, library
    or dialog that succeeded, and every failure before it was swallowed. *)
Theorem deliver_notification_dispatch (env : delivery_env)
    (title message : value) (image_path : option string) :
  let '(trace, result) := _deliver_notification env title message image_path in
  result = Ret tt
  /\ trace = mk_attempt Sound true :: first_success_wins (candidates env)
  /\ strictly_ordered (map (fun a => rank (mech a)) trace)
  /\ (forall pre a post,
        trace = (pre ++ a :: post)%list -> mech a <> Sound ->
        succeeded a = true -> post = [])
  /\ (forall pre a post,
        trace = (pre ++ a :: post)%list -> mech a <> Sound ->
        post <> [] -> succeeded a = false).
Proof.
  rewrite deliver_notification_trace.
  split; [reflexivity | split; [reflexivity | split; [| split]]].
  - unfold candidates. simpl.
    destruct (toaster_present env), (raises (show_toast_result env)),
      (winotify_available env), (raises (winotify_result env)),
      (plyer_available env), (raises (plyer_result env)),
      (raises (showinfo_result env)); simpl; repeat split; lia.
  - intros pre a post H Hm Ha.
    apply cons_eq_app in H as [(_ & -> & _) | (pre' & _ & H)].
    + now contradiction Hm.
    + eapply first_success_wins_stops; eauto.
  - intros pre a post H Hm Hpost.
    apply cons_eq_app in H as [(_ & -> & _) | (pre' & _ & H)].
    + now contradiction Hm.
    + eapply first_success_wins_earlier_failed; eauto.
Qed.

(* ===================================================================== *)
(** * The store: loading *)
(* ===================================================================== *)

(** C6. [load_notifications] returns the empty list and shows nothing when
    no file exists at the storage path; when the file exists but cannot be
    opened or read, or its text cannot be parsed, it shows one warning and
    returns the empty list; it raises in no case, whatever the decoder
    does. *)
Theorem load_notifications_never_raises
    (loads : string -> outcome value) (base_dir : string) (fs : filesystem) :
  (fs (notifications_path base_dir) = NoFile ->
   load_notifications loads base_dir fs = ([], Ret (VList [])))
  /\ (forall e, fs (notifications_path base_dir) = Unreadable e ->
                load_notifications loads base_dir fs
                = ([showwarning "Load" e], Ret (VList [])))
  /\ (forall text e,
        fs (notifications_path base_dir) = Readable text -> loads text = Raise e ->
        load_notifications loads base_dir fs
        = ([showwarning "Load" e], Ret (VList [])))
  /\ (exists v, snd (load_notifications loads base_dir fs) = Ret v).
Proof.
  unfold load_notifications.
  split; [| split; [| split]].
  - intros ->. reflexivity.
  - intros e ->. reflexivity.
  - intros text e -> H. simpl. rewrite H. reflexivity.
  - destruct (fs (notifications_path base_dir)) as [| e | text]; simpl; eauto.
    destruct (loads text); simpl; eauto.
Qed.

(* ===================================================================== *)
(** * The poll cycle *)
(* ===================================================================== *)











(* ===================================================================== *)
(** * [json.loads] reads back what [json.dumps] writes *)
(* ===================================================================== *)

Lemma value_ind_nested (P : value -> Prop) :
  P VNone ->
  (forall b, P (VBool b)) ->
  (forall z, P (VInt z)) ->
  (forall s, P (VStr s)) ->
  (forall l, Forall P l -> P (VList l)) ->
  (forall d, Forall (fun kv => P (snd kv)) d -> P (VDict d)) ->
  forall v, P v.
Proof.
  intros HN HB HI HS HL HD.
  fix IH 1. intros [| b | z | s | l | d].
  - exact HN.
  - apply HB.
  - apply HI.
  - apply HS.
  - apply HL. induction l as [| x l IHl]; constructor; [apply IH | exact IHl].
  - apply HD. induction d as [| [k x] d IHd]; constructor; [apply IH | exact IHd].
Qed.

(** ** White space *)

Lemma skip_ws_spaces (n : nat) (t : string) : skip_ws (spaces n ++ t) = skip_ws t.
Proof. induction n as [| n IH]; simpl; auto. Qed.

Lemma skip_ws_newline_indent (level : nat) (t : string) :
  skip_ws (newline_indent level ++ t) = skip_ws t.
Proof. unfold newline_indent. simpl. apply skip_ws_spaces. Qed.

Lemma skip_ws_start (c : ascii) (s : string) :
  value_start c = true -> skip_ws (String c s) = String c s.
Proof.
  unfold value_start. intros H. apply andb_prop in H as [H _].
  simpl. destruct (is_json_ws c); [discriminate | reflexivity].
Qed.

(** ** Strings *)

Lemma scanstring_escape_char (c : ascii) (t : string) :
  scanstring (escape_char c ++ t)
  = r <- scanstring t ;; Ret (String c (fst r), snd r).
Proof.
  destruct c as [[|] [|] [|] [|] [|] [|] [|] [|]]; reflexivity.
Qed.

Lemma scanstring_escape (s rest : string) :
  scanstring (escape s ++ String dquote rest) = Ret (s, rest).
Proof.
  induction s as [| c s IH].
  - reflexivity.
  - cbn [escape]. rewrite append_assoc, scanstring_escape_char, IH. reflexivity.
Qed.

(** ** Numbers *)

Lemma delimited_empty : delimited "".
Proof. split; reflexivity. Qed.

Lemma delimited_comma (s : string) : delimited (String ","%char s).
Proof. split; [reflexivity | destruct s; reflexivity]. Qed.

Lemma delimited_newline_indent (level : nat) (s : string) :
  delimited (newline_indent level ++ s).
Proof.
  unfold newline_indent. split; [reflexivity |].
  simpl. destruct (_ ++ s); reflexivity.
Qed.

Lemma digit_char_not (d : Z) (c : ascii) :
  0 <= d <= 9 -> code c <> 48 + d -> Ascii.eqb (digit_char d) c = false.
Proof.
  intros Hd Hc. rewrite ascii_eqb_code, code_digit_char by assumption.
  apply Z.eqb_neq. congruence.
Qed.

Lemma scan_integer_str_nat (n : Z) (rest : string) :
  0 <= n -> no_digit_ahead rest ->
  scan_integer (str_nat n ++ rest) = Some (n, rest).
Proof.
  intros Hn Hd. destruct (Z.eq_dec n 0) as [-> | Hz].
  - reflexivity.
  - destruct (digits_of_head (S (Z.to_nat (Z.log2 n))) n "") as (d & s & Hr & E).
    { split; [lia | apply str_nat_fuel; lia]. }
    pose proof (scan_str_nat n rest Hn Hd) as Hs.
    unfold str_nat in Hs |- *. rewrite E in Hs |- *.
    cbn [append] in Hs |- *. unfold scan_integer.
    rewrite (digit_char_not d "0"%char) by (change (code "0"%char) with 48; lia).
    rewrite is_digit_digit_char by lia.
    now rewrite Hs.
Qed.

Lemma str_nat_not_minus (n : Z) (rest : string) :
  0 <= n ->
  exists c s, str_nat n ++ rest = String c s /\ Ascii.eqb c "-"%char = false
              /\ is_digit c = true.
Proof.
  intros Hn. destruct (str_nat_head n Hn) as (d & s & Hd & E).
  exists (digit_char d), (s ++ rest). rewrite E. split; [reflexivity |].
  split; [| now apply is_digit_digit_char].
  apply digit_char_not; [assumption |].
  change (code "-"%char) with 45. lia.
Qed.

Lemma scan_number_str_int (z : Z) (rest : string) :
  delimited rest -> scan_number (str_int z ++ rest) = Ret (VInt z, rest).
Proof.
  intros [Hd Hf]. unfold str_int.
  destruct (z <? 0) eqn:Ez.
  - apply Z.ltb_lt in Ez.
    cbn [append]. unfold scan_number. cbn [Ascii.eqb Bool.eqb].
    rewrite scan_integer_str_nat by (assumption || lia).
    rewrite Hf. now rewrite Z.opp_involutive.
  - apply Z.ltb_ge in Ez.
    destruct (str_nat_not_minus z rest Ez) as (c & s & E & Hc & _).
    unfold scan_number. rewrite E, Hc, <- E.
    rewrite scan_integer_str_nat by assumption.
    now rewrite Hf.
Qed.

(** A number is read by [scan_number]: its first character opens no other
    kind of value. *)
Lemma scan_once_number (f : nat) (c : ascii) (s : string) :
  is_digit c = true \/ c = "-"%char ->
  scan_once (S f) (String c s) = scan_number (String c s).
Proof.
  intros H.
  destruct c as [[|] [|] [|] [|] [|] [|] [|] [|]];
    try reflexivity;
    destruct H as [H | H]; vm_compute in H; discriminate.
Qed.

Lemma scan_once_str_int (f : nat) (z : Z) (rest : string) :
  delimited rest -> scan_once (S f) (str_int z ++ rest) = Ret (VInt z, rest).
Proof.
  intros Hd. rewrite <- (scan_number_str_int z rest Hd).
  unfold str_int. destruct (z <? 0) eqn:Ez.
  - cbn [append]. apply scan_once_number. now right.
  - apply Z.ltb_ge in Ez.
    destruct (str_nat_not_minus z rest Ez) as (c & s & E & _ & Hc).
    rewrite E. apply scan_once_number. now left.
Qed.

(** ** Values *)

Lemma encode_list_cons (level : nat) (v : value) (l : list value) :
  encode level (VList (v :: l))
  = "[" ++ newline_indent (S level)
    ++ join ("," ++ newline_indent (S level)) (map (encode (S level)) (v :: l))
    ++ newline_indent level ++ "]".
Proof. reflexivity. Qed.

Lemma encode_dict_cons (level : nat) (kv : string * value) (d : list (string * value)) :
  encode level (VDict (kv :: d))
  = "{" ++ newline_indent (S level)
    ++ join ("," ++ newline_indent (S level)) (map (encode_pair (S level)) (kv :: d))
    ++ newline_indent level ++ "}".
Proof. reflexivity. Qed.

Lemma value_start_digit_char (d : Z) : 0 <= d <= 9 -> value_start (digit_char d) = true.
Proof.
  intros H.
  assert (d = 0 \/ d = 1 \/ d = 2 \/ d = 3 \/ d = 4 \/ d = 5 \/ d = 6
          \/ d = 7 \/ d = 8 \/ d = 9) as Hd by lia.
  repeat (destruct Hd as [-> | Hd]; [reflexivity |]). subst. reflexivity.
Qed.

(** The text of a value begins with a character that starts a value. *)
Lemma encode_head (level : nat) (v : value) (rest : string) :
  exists c s, encode level v ++ rest = String c s /\ value_start c = true.
Proof.
  destruct v as [| [|] | z | s | [| x l] | [| kv d]];
    try (eexists _, _; split; [reflexivity | reflexivity]).
  cbn [encode]. unfold str_int. destruct (z <? 0) eqn:Ez.
  - eexists _, _. split; reflexivity.
  - apply Z.ltb_ge in Ez. destruct (str_nat_head z Ez) as (d & s & Hd & E).
    rewrite E. eexists _, _. split; [reflexivity |].
    now apply value_start_digit_char.
Qed.

Lemma skip_ws_encode (level : nat) (v : value) (rest : string) :
  skip_ws (encode level v ++ rest) = encode level v ++ rest.
Proof.
  destruct (encode_head level v rest) as (c & s & -> & H).
  now apply skip_ws_start.
Qed.

Lemma join_cons_cons (sep x y : string) (r : list string) (tail : string) :
  join sep (x :: y :: r) ++ tail = x ++ sep ++ join sep (y :: r) ++ tail.
Proof. cbn [join]. now rewrite !append_assoc. Qed.

Lemma comma_app (a b : string) : ("," ++ a) ++ b = String ","%char (a ++ b).
Proof. reflexivity. Qed.

Lemma join_head (sep x : string) (r : list string) (tail : string) :
  exists t, join sep (x :: r) ++ tail = x ++ t.
Proof.
  destruct r as [| y r].
  - exists tail. reflexivity.
  - rewrite join_cons_cons. eauto.
Qed.

Lemma skip_ws_join_encode (sep : string) (level : nat) (v : value)
    (l : list value) (tail : string) :
  skip_ws (join sep (encode level v :: map (encode level) l) ++ tail)
  = join sep (encode level v :: map (encode level) l) ++ tail.
Proof.
  destruct (join_head sep (encode level v) (map (encode level) l) tail)
    as [t ->].
  apply skip_ws_encode.
Qed.

Lemma array_items_encode (l : list value) :
  Forall reads_back l -> forallb wf_value l = true -> l <> [] ->
  forall (level level' fuel : nat) (rest : string),
    (list_sum (map (fun x => S (weight x)) l) <= fuel)%nat ->
    array_items fuel
      (join ("," ++ newline_indent level) (map (encode level) l)
       ++ newline_indent level' ++ String "]"%char rest)
    = Ret (l, rest).
Proof.
  induction 1 as [| v l Hv Hl IH]; intros Hwf Hne level level' fuel rest Hfuel;
    [contradiction |].
  cbn [forallb] in Hwf. apply andb_prop in Hwf as [Hwv Hwl].
  cbn [map list_sum fold_right] in Hfuel.
  fold (list_sum (map (fun x => S (weight x)) l)) in Hfuel.
  destruct fuel as [| f]; [lia |].
  destruct l as [| v2 l'].
  - cbn [map join array_items].
    rewrite (Hv Hwv level f) by (lia || apply delimited_newline_indent).
    cbn [bind fst snd]. rewrite skip_ws_newline_indent. reflexivity.
  - cbn [map] in IH, Hfuel |- *. rewrite join_cons_cons. cbn [array_items].
    rewrite comma_app.
    rewrite (Hv Hwv level f) by (lia || apply delimited_comma).
    cbn [bind fst snd]. rewrite skip_ws_start by reflexivity.
    cbn [Ascii.eqb Bool.eqb]. rewrite skip_ws_newline_indent.
    rewrite skip_ws_join_encode.
    rewrite IH by (assumption || discriminate || lia).
    reflexivity.
Qed.

Lemma encode_pair_app (level : nat) (kv : string * value) (tail : string) :
  encode_pair level kv ++ tail = String dquote (pair_body level kv tail).
Proof.
  destruct kv as [k x]. unfold encode_pair, pair_body, encode_basestring.
  cbn [append]. now rewrite !append_assoc.
Qed.

Lemma object_items_pair (f level : nat) (k : string) (x : value) (tail : string) :
  reads_back x -> wf_value x = true -> (weight x <= f)%nat -> delimited tail ->
  object_items (S f) (pair_body level (k, x) tail)
  = match skip_ws tail with
    | String c2 s2 =>
        if Ascii.eqb c2 "}"%char then Ret ([(k, x)], s2)
        else if Ascii.eqb c2 ","%char then
          match skip_ws s2 with
          | String c3 s3 =>
              if Ascii.eqb c3 dquote then
                r' <- object_items f s3 ;; Ret ((k, x) :: fst r', snd r')
              else Raise JSONDecodeError
          | EmptyString => Raise JSONDecodeError
          end
        else Raise JSONDecodeError
    | EmptyString => Raise JSONDecodeError
    end.
Proof.
  intros Hx Hw Hf Hd. unfold pair_body. cbn [object_items].
  rewrite scanstring_escape. cbn [bind fst snd].
  rewrite skip_ws_start by reflexivity. cbn [Ascii.eqb Bool.eqb].
  replace (skip_ws (String " "%char (encode level x ++ tail)))
    with (skip_ws (encode level x ++ tail)) by reflexivity.
  rewrite skip_ws_encode, (Hx Hw level f tail Hf Hd).
  reflexivity.
Qed.

Lemma object_items_encode (d : list (string * value)) :
  Forall (fun kv => reads_back (snd kv)) d ->
  forallb (fun kv : string * value => let (_, x) := kv in wf_value x) d = true ->
  d <> [] ->
  forall (level level' fuel : nat) (rest : string),
    (list_sum (map (fun kv : string * value => let (_, x) := kv in S (weight x)) d)
     <= fuel)%nat ->
    exists body,
      join ("," ++ newline_indent level) (map (encode_pair level) d)
      ++ newline_indent level' ++ String "}"%char rest
      = String dquote body
      /\ object_items fuel body = Ret (d, rest).
Proof.
  induction 1 as [| [k x] d Hx Hd IH]; intros Hwf Hne level level' fuel rest Hfuel;
    [contradiction |].
  cbn [forallb] in Hwf. apply andb_prop in Hwf as [Hwx Hwd].
  cbn [map list_sum fold_right] in Hfuel.
  fold (list_sum (map (fun kv : string * value => let (_, x) := kv in S (weight x)) d))
    in Hfuel.
  cbn [snd] in Hx.
  destruct fuel as [| f]; [lia |].
  destruct d as [| kv2 d'].
  - cbn [map join]. rewrite encode_pair_app. eexists. split; [reflexivity |].
    rewrite object_items_pair
      by (assumption || lia || apply delimited_newline_indent).
    rewrite skip_ws_newline_indent. reflexivity.
  - destruct (IH Hwd ltac:(discriminate) level level' f rest ltac:(lia))
      as (body2 & E2 & H2).
    cbn [map] in E2 |- *. rewrite join_cons_cons, E2, comma_app, encode_pair_app.
    eexists. split; [reflexivity |].
    rewrite object_items_pair by (assumption || lia || apply delimited_comma).
    rewrite skip_ws_start by reflexivity. cbn [Ascii.eqb Bool.eqb].
    rewrite skip_ws_newline_indent, skip_ws_start by reflexivity.
    change (Ascii.eqb dquote dquote) with true. cbn iota.
    rewrite H2. reflexivity.
Qed.

(** ** Dictionaries built from pairs *)

Lemma dict_set_fresh (k : string) (v : value) (d : dict) :
  existsb (String.eqb k) (map fst d) = false ->
  dict_set k v d = (d ++ [(k, v)])%list.
Proof.
  induction d as [| [k' v'] d IH]; simpl; intros H; [reflexivity |].
  apply orb_false_elim in H as [H1 H2].
  rewrite String.eqb_sym, H1. now rewrite IH.
Qed.

Lemma existsb_app_false (k : string) (l1 l2 : list string) :
  existsb (String.eqb k) (l1 ++ l2) = false
  <-> existsb (String.eqb k) l1 = false /\ existsb (String.eqb k) l2 = false.
Proof. rewrite existsb_app. apply orb_false_iff. Qed.

Lemma fold_dict_set_distinct (pairs acc : list (string * value)) :
  distinct (map fst pairs) = true ->
  (forall k, In k (map fst pairs) -> existsb (String.eqb k) (map fst acc) = false) ->
  fold_left (fun d kv => dict_set (fst kv) (snd kv) d) pairs acc
  = (acc ++ pairs)%list.
Proof.
  revert acc. induction pairs as [| [k v] pairs IH]; intros acc Hd Hacc.
  - simpl. now rewrite app_nil_r.
  - cbn [map fst distinct] in Hd. apply andb_prop in Hd as [Hk Hd].
    apply negb_true_iff in Hk.
    cbn [fold_left fst snd].
    rewrite dict_set_fresh by (apply Hacc; now left).
    rewrite IH.
    + now rewrite <- app_assoc.
    + assumption.
    + intros k' Hin. rewrite map_app. apply existsb_app_false. split.
      * apply Hacc. now right.
      * simpl. rewrite orb_false_r.
        destruct (String.eqb k' k) eqn:E; auto.
        apply String.eqb_eq in E. subst k'.
        assert (existsb (String.eqb k) (map fst pairs) = true) as Hc.
        { apply existsb_exists. exists k. split; [assumption | apply String.eqb_refl]. }
        congruence.
Qed.

Lemma dict_of_pairs_distinct (d : list (string * value)) :
  distinct (map fst d) = true -> dict_of_pairs d = d.
Proof.
  intros H. unfold dict_of_pairs. now rewrite fold_dict_set_distinct.
Qed.

(** ** The decoder reads back every value *)

Lemma join_encode_head (sep : string) (level : nat) (v : value)
    (l : list value) (tail : string) :
  exists c s,
    join sep (encode level v :: map (encode level) l) ++ tail = String c s
    /\ value_start c = true.
Proof.
  destruct (join_head sep (encode level v) (map (encode level) l) tail) as [t ->].
  apply encode_head.
Qed.

Lemma bracket_app (a rest : string) (level : nat) (J : string) (close : ascii) :
  (a ++ newline_indent (S level) ++ J ++ newline_indent level ++ String close "") ++ rest
  = a ++ newline_indent (S level) ++ (J ++ newline_indent level ++ String close rest).
Proof. now rewrite !append_assoc. Qed.

Theorem scan_once_encode (v : value) : reads_back v.
Proof.
  induction v as [| b | z | s | l IH | d IH] using value_ind_nested;
    intros Hwf level fuel rest Hfuel Hdel;
    (destruct fuel as [| f]; [cbn [weight] in Hfuel; lia |]).
  - reflexivity.
  - destruct b; reflexivity.
  - cbn [encode]. now apply scan_once_str_int.
  - cbn [encode]. unfold encode_basestring. cbn [append].
    rewrite append_assoc. cbn [append scan_once].
    change (Ascii.eqb dquote dquote) with true. cbn iota.
    rewrite scanstring_escape. reflexivity.
  - destruct l as [| v l]; [reflexivity |].
    cbn [wf_value] in Hwf. cbn [weight] in Hfuel.
    rewrite encode_list_cons, bracket_app.
    destruct (join_encode_head ("," ++ newline_indent (S level)) (S level) v l
                (newline_indent level ++ String "]"%char rest))
      as (c & s & E & Hc).
    pose proof (array_items_encode (v :: l) IH Hwf ltac:(discriminate)
                  (S level) level f rest ltac:(lia)) as Ha.
    cbn [map] in Ha |- *. rewrite E in Ha |- *.
    cbn [append scan_once Ascii.eqb Bool.eqb].
    change (Ascii.eqb "["%char dquote) with false. cbn iota.
    rewrite skip_ws_newline_indent, skip_ws_start by assumption.
    unfold value_start in Hc. apply andb_prop in Hc as [_ Hc].
    apply negb_true_iff in Hc. rewrite Hc, Ha. reflexivity.
  - destruct d as [| kv d]; [reflexivity |].
    cbn [wf_value] in Hwf. apply andb_prop in Hwf as [Hdist Hwf].
    cbn [weight] in Hfuel.
    rewrite encode_dict_cons, bracket_app.
    destruct (object_items_encode (kv :: d) IH Hwf ltac:(discriminate)
                (S level) level f rest ltac:(lia)) as (body & E & Hb).
    rewrite E.
    cbn [append scan_once Ascii.eqb Bool.eqb].
    change (Ascii.eqb "{"%char dquote) with false. cbn iota.
    rewrite skip_ws_newline_indent, skip_ws_start by reflexivity.
    change (Ascii.eqb dquote "}"%char) with false.
    change (Ascii.eqb dquote dquote) with true. cbn iota.
    rewrite Hb. cbn [bind fst snd].
    now rewrite dict_of_pairs_distinct.
Qed.

(** ** The depth the decoder allows itself is enough *)

Lemma weight_join_values (l : list value) (sep : string) (level : nat) :
  Forall (fun x => forall k, (weight x <= String.length (encode k x))%nat) l ->
  (1 <= String.length sep)%nat ->
  (list_sum (map (fun x => S (weight x)) l)
   <= String.length (join sep (map (encode level) l)) + 1)%nat.
Proof.
  intros H Hsep. induction H as [| x r Hx Hr IH]; [simpl; lia |].
  cbn [map list_sum fold_right].
  fold (list_sum (map (fun x => S (weight x)) r)).
  specialize (Hx level).
  destruct r as [| y r'].
  - simpl. lia.
  - cbn [map] in IH |- *. cbn [join].
    rewrite !length_append. cbn [join] in IH. lia.
Qed.

Lemma weight_join_pairs (d : list (string * value)) (sep : string) (level : nat) :
  Forall (fun kv => forall k, (weight (snd kv) <= String.length (encode k (snd kv)))%nat) d ->
  (1 <= String.length sep)%nat ->
  (list_sum (map (fun kv : string * value => let (_, x) := kv in S (weight x)) d)
   <= String.length (join sep (map (encode_pair level) d)) + 1)%nat.
Proof.
  intros H Hsep. induction H as [| [k x] r Hx Hr IH]; [simpl; lia |].
  cbn [map list_sum fold_right].
  fold (list_sum (map (fun kv : string * value => let (_, x) := kv in S (weight x)) r)).
  specialize (Hx level). cbn [snd] in Hx.
  assert (String.length (encode level x) <= String.length (encode_pair level (k, x)))%nat
    as Hp.
  { unfold encode_pair. rewrite !length_append. lia. }
  destruct r as [| y r'].
  - cbn [map join list_sum fold_right]. lia.
  - cbn [map] in IH |- *. cbn [join].
    rewrite !length_append. cbn [join] in IH. lia.
Qed.

Lemma weight_le_length (v : value) :
  forall level, (weight v <= String.length (encode level v))%nat.
Proof.
  induction v as [| b | z | s | l IH | d IH] using value_ind_nested; intros level.
  - simpl. lia.
  - destruct b; simpl; lia.
  - cbn [weight encode]. unfold str_int. destruct (z <? 0) eqn:E.
    + simpl. lia.
    + apply Z.ltb_ge in E. destruct (str_nat_head z E) as (d & s & _ & ->).
      simpl. lia.
  - simpl. lia.
  - destruct l as [| v l]; [simpl; lia |].
    rewrite encode_list_cons. cbn [weight].
    pose proof (weight_join_values (v :: l) ("," ++ newline_indent (S level))
                  (S level) IH ltac:(simpl; lia)).
    rewrite !length_append.
    change (String.length "[") with 1%nat. change (String.length "]") with 1%nat. lia.
  - destruct d as [| kv d]; [simpl; lia |].
    rewrite encode_dict_cons. cbn [weight].
    pose proof (weight_join_pairs (kv :: d) ("," ++ newline_indent (S level))
                  (S level) IH ltac:(simpl; lia)).
    rewrite !length_append.
    change (String.length "{") with 1%nat. change (String.length "}") with 1%nat. lia.
Qed.

(** [json.loads] returns the value whose text [json.dumps] wrote. *)
Theorem json_loads_dumps (v : value) (text : string) :
  wf_value v = true -> json_dumps v = Ret text -> json_loads text = Ret v.
Proof.
  intros Hwf H. injection H as <-. unfold json_loads.
  pose proof (skip_ws_encode 0 v "") as Hs. rewrite append_nil_r in Hs.
  rewrite Hs.
  pose proof (scan_once_encode v Hwf 0%nat (S (String.length (encode 0 v))) ""
                ltac:(pose proof (weight_le_length v 0%nat); lia) delimited_empty) as Hr.
  rewrite append_nil_r in Hr. rewrite Hr. reflexivity.
Qed.

(* ===================================================================== *)
(** * The store: saving, then loading *)
(* ===================================================================== *)

Lemma map_VDict_inj (a b : list dict) : map VDict a = map VDict b -> a = b.
Proof.
  revert b. induction a as [| x a IH]; intros [| y b] H; simpl in H;
    try discriminate; auto.
  injection H as -> H. f_equal. now apply IH.
Qed.

(** C7. When [save_notifications] goes through for a list of records,
    [load_notifications] on the file system it leaves shows no warning and
    returns that list: every record comes back with every field, in the
    same order, and so the [image] of every record decodes to the same
    bytes, whatever the base64 decoder is. *)
Theorem save_then_load_roundtrip
    (env : save_env) (base_dir : string) (records : list dict) (fs : filesystem) :
  wf_value (VList (map VDict records)) = true ->
  save_succeeded (save_notifications json_dumps env base_dir (VList (map VDict records)) fs) ->
  load_notifications json_loads base_dir
    (fst (save_notifications json_dumps env base_dir (VList (map VDict records)) fs))
  = ([], Ret (VList (map VDict records)))
  /\ forall (A : Type) (b64decode : value -> A) (loaded : list dict),
       snd (load_notifications json_loads base_dir
              (fst (save_notifications json_dumps env base_dir
                      (VList (map VDict records)) fs)))
       = Ret (VList (map VDict loaded)) ->
       loaded = records
       /\ map (fun r => b64decode (get r "image" VNone)) loaded
          = map (fun r => b64decode (get r "image" VNone)) records.
Proof.
  intros Hwf Hsave.
  assert (load_notifications json_loads base_dir
            (fst (save_notifications json_dumps env base_dir
                    (VList (map VDict records)) fs))
          = ([], Ret (VList (map VDict records)))) as Hload.
  { unfold save_succeeded, save_notifications in *.
    destruct (open_w_result env) as [[] | e]; [| discriminate].
    destruct (write_result env) as [[] | e]; [| discriminate].
    cbn [json_dumps bind fst]. unfold load_notifications, write_file.
    rewrite String.eqb_refl.
    cbn [t_try].
    now rewrite (json_loads_dumps _ _ Hwf eq_refl). }
  split; [exact Hload |].
  intros A b64decode loaded H. rewrite Hload in H. cbn [snd] in H.
  injection H as H. apply map_VDict_inj in H. subst loaded. auto.
Qed.

(* ===================================================================== *)
(** * The theorems at sample inputs *)
(* ===================================================================== *)

Lemma should_fire_once_iff_witness :
  valid_datetime friday_0900 = true
  /\ get once_record "repeat" (VStr "Once") = VStr "Once"
  /\ _should_fire friday_0900 friday_0900 once_record = Ret true
  /\ _should_fire friday_0859 friday_0859 once_record = Ret false
  /\ _should_fire saturday_0900 saturday_0900 once_record = Ret false.
Proof.
  split; [reflexivity |]. split; [reflexivity |]. split; [| split].
  - apply (proj1 (should_fire_once_iff friday_0900 friday_0900 once_record
                    eq_refl eq_refl)).
    split; [reflexivity |]. split; [reflexivity |].
    exists (mk_datetime 2024 1 5 9 0 0). split; reflexivity.
  - apply (proj1 (proj2 (proj2 (should_fire_once_iff friday_0859 friday_0859
                                  once_record eq_refl eq_refl)))
             (mk_datetime 2024 1 5 9 0 0)).
    + reflexivity.
    + discriminate.
  - apply (proj2 (proj2 (proj2 (should_fire_once_iff saturday_0900 saturday_0900
                                  once_record eq_refl eq_refl)))
             friday_0900_later eq_refl eq_refl eq_refl eq_refl).
    discriminate.
Defined.

Lemma should_fire_false_after_mark_once_witness :
  get once_record "repeat" (VStr "Once") = VStr "Once"
  /\ _should_fire friday_0900_later friday_0900_later
       (fold_left (fun r m => _mark_fired m r) [saturday_0900]
          (_mark_fired friday_0900 once_record))
     = Ret false.
Proof.
  split; [reflexivity |].
  apply (should_fire_false_after_mark_once [saturday_0900] friday_0900
           friday_0900_later friday_0900_later once_record).
  reflexivity.
Defined.

Lemma should_fire_daily_iff_witness :
  get daily_record "repeat" (VStr "Once") = VStr "Daily"
  /\ _should_fire friday_0900 friday_0900 daily_record = Ret true
  /\ _should_fire friday_0900_later friday_0900_later
       (_mark_fired friday_0900 daily_record) = Ret false
  /\ _should_fire saturday_0900 saturday_0900
       (_mark_fired friday_0900 daily_record) = Ret true.
Proof.
  split; [reflexivity |].
  pose proof (should_fire_daily_iff friday_0900 daily_record eq_refl)
    as (Hiff & _ & Hsame & Hnext).
  split; [| split].
  - apply Hiff. split; [reflexivity | discriminate].
  - apply Hsame. reflexivity.
  - apply Hnext; try reflexivity. discriminate.
Defined.

Lemma should_fire_weekly_iff_witness :
  get weekly_record "repeat" (VStr "Once") = VStr "Weekly"
  /\ _should_fire friday_0900 friday_0900 weekly_record = Ret true
  /\ _should_fire friday_0900_later friday_0900_later
       (_mark_fired friday_0900 weekly_record) <> Ret true
  /\ _should_fire next_friday_0900 next_friday_0900
       (_mark_fired friday_0900 weekly_record) = Ret true.
Proof.
  split; [reflexivity |].
  pose proof (should_fire_weekly_iff friday_0900 weekly_record eq_refl)
    as (Hiff & _ & Hsame & Hnext).
  split; [| split].
  - apply Hiff. split; [reflexivity |]. split; [reflexivity | discriminate].
  - apply Hsame. reflexivity.
  - apply Hnext; try reflexivity. discriminate.
Defined.



Lemma load_notifications_never_raises_witness :
  load_notifications json_loads "C:\app" empty_disk = ([], Ret (VList []))
  /\ load_notifications json_loads "C:\app" locked_disk
     = ([showwarning "Load" OSError], Ret (VList [])).
Proof.
  split.
  - apply (proj1 (load_notifications_never_raises json_loads "C:\app" empty_disk)).
    reflexivity.
  - apply (proj1 (proj2 (load_notifications_never_raises json_loads "C:\app" locked_disk))).
    reflexivity.
Defined.

Lemma save_then_load_roundtrip_witness :
  wf_value (VList (map VDict [once_record; daily_record])) = true
  /\ save_succeeded (save_notifications json_dumps friendly_save "C:\app"
                       (VList (map VDict [once_record; daily_record])) empty_disk)
  /\ load_notifications json_loads "C:\app"
       (fst (save_notifications json_dumps friendly_save "C:\app"
               (VList (map VDict [once_record; daily_record])) empty_disk))
     = ([], Ret (VList (map VDict [once_record; daily_record]))).
Proof.
  split; [reflexivity |]. split; [reflexivity |].
  apply (proj1 (save_then_load_roundtrip friendly_save "C:\app"
                  [once_record; daily_record] empty_disk eq_refl eq_refl)).
Defined.

Lemma deliver_notification_dispatch_witness :
  _deliver_notification toasts_fail (VStr "Standup") (VStr "Daily sync") None
  = ([mk_attempt Sound true; mk_attempt PrimaryToast false;
      mk_attempt SecondaryToast false; mk_attempt GenericLibrary true], Ret tt).
Proof.
  pose proof (deliver_notification_dispatch toasts_fail (VStr "Standup")
                (VStr "Daily sync") None) as H.
  destruct (_deliver_notification toasts_fail (VStr "Standup") (VStr "Daily sync") None)
    as [trace result].
  destruct H as (-> & -> & _). reflexivity.
Defined.

Lemma mark_fired_frame_witness :
  dict_lookup "title" (_mark_fired friday_0900 daily_record)
  = dict_lookup "title" daily_record
  /\ dict_lookup "last_fired_date" (_mark_fired friday_0900 daily_record)
     = Some (VStr "2024-01-05").
Proof.
  pose proof (mark_fired_frame friday_0900 daily_record) as H.
  change (fire_memory_field (get daily_record "repeat" (VStr "Once")))
    with (Some "last_fired_date") in H.
  destruct H as (Hother & _ & _ & Hdate & _). split.
  - apply Hother. discriminate.
  - apply Hdate. reflexivity.
Defined.

(* ===================================================================== *)
(** * Scenarios *)
(* ===================================================================== *)

(** A Daily record "Standup" at 09:00: nothing at 08:59; due at 09:00; after
    the mark, [last_fired_date] is that day and a second poll in the same
    minute finds nothing due. *)
Example standup_scenario :
  _should_fire friday_0859 friday_0859 daily_record = Ret false
  /\ _should_fire friday_0900 friday_0900 daily_record = Ret true
  /\ get (_mark_fired friday_0900 daily_record) "last_fired_date" VNone
     = VStr "2024-01-05"
  /\ _should_fire friday_0900_later friday_0900_later
       (_mark_fired friday_0900 daily_record) = Ret false.
Proof. repeat split; reflexivity. Qed.

(** When both toasts and the generic library fail, the dialog is invoked
    once, last. *)
Example dialog_is_last_resort :
  fst (_deliver_notification all_fail (VStr "Standup") (VStr "Daily sync") None)
  = [mk_attempt Sound true; mk_attempt PrimaryToast false;
     mk_attempt SecondaryToast false; mk_attempt GenericLibrary false;
     mk_attempt ModalDialog false].
Proof. reflexivity. Qed.

(** When [PlaySound] fails the beep is tried, once. *)
Example sound_falls_back_to_beep :
  _play_sound toasts_fail = ([PlaySound; MessageBeep], Ret tt).
Proof. reflexivity. Qed.

(** A record whose evaluation raises ends the cycle: the due record after it
    is neither evaluated nor marked, and nothing is saved. *)
Example poll_cycle_aborts_when_evaluation_raises :
  let c := poll_cycle (fun _ => hostile) friendly_save "C:\app"
             [broken_weekly_record; daily_record] empty_disk in
  aborted c = true
  /\ events c = [Evaluated broken_weekly_record]
  /\ records_after c = [broken_weekly_record; daily_record]
  /\ fs_after c (notifications_path "C:\app") = NoFile.
Proof. repeat split; reflexivity. Qed.

(** The layout [json.dumps] gives a list with [indent=2]. *)
Example dumped_text :
  json_dumps (VList [VInt (-12); VBool true; VNone; VList []; VList [VInt 0]])
  = Ret "[
  -12,
  true,
  null,
  [],
  [
    0
  ]
]".
Proof. reflexivity. Qed.

(** The decoder on text that [json.dumps] did not write: white space
    anywhere between tokens, an escape, a key given twice. *)
Example loads_foreign_text :
  json_loads (" [1 ,{" ++ String dquote ("a" ++ String dquote (": 2, "
              ++ String dquote ("a" ++ String dquote (":" ++ String dquote
              ("x\u0041\n" ++ String dquote "} ] "))))))
  = Ret (VList [VInt 1; VDict [("a", VStr ("xA" ++ String newline ""))]]).
Proof. reflexivity. Qed.

(* ===================================================================== *)
(** * Texts of digits *)
(* ===================================================================== *)

Lemma digit_is_plain (c : ascii) :
  is_digit c = true ->
  is_space c = false /\ Ascii.eqb c ":"%char = false /\ Ascii.eqb c "-"%char = false
  /\ Ascii.eqb c "+"%char = false /\ Ascii.eqb c "_"%char = false
  /\ Ascii.eqb c " "%char = false.
Proof.
  destruct c as [[|] [|] [|] [|] [|] [|] [|] [|]]; intros H;
    try (vm_compute in H; discriminate H); repeat split; reflexivity.
Qed.

Lemma digit_val_range (c : ascii) : is_digit c = true -> 0 <= digit_val c <= 9.
Proof.
  unfold is_digit, digit_val. intros H. apply andb_prop in H as [H1 H2].
  apply Z.leb_le in H1, H2. split.
  - apply Zle_minus_le_0. exact H1.
  - apply (Z.sub_le_mono_r _ 57 48) in H2. exact H2.
Qed.

Lemma strip_digit_text (p : string) (v : Z) : digit_text p v -> strip p = p.
Proof.
  unfold strip.
  intros [(c & -> & Hc & _) | (c1 & c2 & -> & H1 & H2 & _)].
  - apply digit_is_plain in Hc as (Hs & _). simpl. rewrite Hs. simpl. now rewrite Hs.
  - apply digit_is_plain in H1 as (Hs1 & _). apply digit_is_plain in H2 as (Hs2 & _).
    simpl. rewrite Hs1. simpl. now rewrite Hs2.
Qed.

Lemma digit_no_int_space (c : ascii) : is_digit c = true -> is_int_space c = false.
Proof.
  destruct c as [[|] [|] [|] [|] [|] [|] [|] [|]]; intros H;
    try (vm_compute in H; discriminate H); reflexivity.
Qed.

Lemma int_strip_digit_text (p : string) (v : Z) :
  digit_text p v -> rstrip_of is_int_space (lstrip_of is_int_space p) = p.
Proof.
  intros [(c & -> & Hc & _) | (c1 & c2 & -> & H1 & H2 & _)].
  - apply digit_no_int_space in Hc. simpl. rewrite Hc. simpl. now rewrite Hc.
  - apply digit_no_int_space in H1. apply digit_no_int_space in H2.
    simpl. rewrite H1. simpl. now rewrite H2.
Qed.

Lemma int_of_str_digit_text (p : string) (v : Z) :
  digit_text p v -> int_of_str p = Ret v.
Proof.
  intros H. unfold int_of_str.
  rewrite (int_strip_digit_text p v H).
  destruct H as [(c & -> & Hc & ->) | (c1 & c2 & -> & H1 & H2 & ->)].
  - pose proof (digit_is_plain c Hc) as (_ & _ & Hm & Hp & _).
    rewrite ascii_eqb_code in Hm, Hp.
    assert ((false, String c "")
            = match String c "" with
              | String "-"%char r => (true, r)
              | String "+"%char r => (false, r)
              | _ => (false, String c "")
              end) as <-.
    { destruct c as [[|] [|] [|] [|] [|] [|] [|] [|]]; try reflexivity;
        vm_compute in Hm, Hp; discriminate. }
    cbn [int_digits count_digits]. rewrite Hc. cbn [int_digits]. reflexivity.
  - pose proof (digit_is_plain c1 H1) as (_ & _ & Hm & Hp & _).
    rewrite ascii_eqb_code in Hm, Hp.
    assert ((false, String c1 (String c2 ""))
            = match String c1 (String c2 "") with
              | String "-"%char r => (true, r)
              | String "+"%char r => (false, r)
              | _ => (false, String c1 (String c2 ""))
              end) as <-.
    { destruct c1 as [[|] [|] [|] [|] [|] [|] [|] [|]]; try reflexivity;
        vm_compute in Hm, Hp; discriminate. }
    cbn [int_digits count_digits]. rewrite H1. cbn [int_digits]. rewrite H2.
    cbn [int_digits]. change (1 + (1 + 0) <=? int_max_str_digits) with true.
    cbv iota. f_equal.
Qed.

Lemma split_colon_digit_text (p q : string) (v w : Z) :
  digit_text p v -> digit_text q w ->
  split_colon (p ++ String ":"%char q) = [p; q].
Proof.
  assert (forall q w, digit_text q w -> split_colon q = [q]) as Hq.
  { intros q0 w0 [(c & -> & Hc & _) | (c1 & c2 & -> & H1 & H2 & _)].
    - apply digit_is_plain in Hc as (_ & Hc & _). simpl. now rewrite Hc.
    - apply digit_is_plain in H1 as (_ & H1 & _).
      apply digit_is_plain in H2 as (_ & H2 & _). simpl. now rewrite H1, H2. }
  intros Hp Hw. specialize (Hq q w Hw).
  destruct Hp as [(c & -> & Hc & _) | (c1 & c2 & -> & H1 & H2 & _)].
  - apply digit_is_plain in Hc as (_ & Hc & _).
    cbn [append split_colon]. rewrite Hc. cbn [Ascii.eqb Bool.eqb].
    now rewrite Hq.
  - apply digit_is_plain in H1 as (_ & H1 & _).
    apply digit_is_plain in H2 as (_ & H2 & _).
    cbn [append split_colon]. rewrite H1, H2. cbn [Ascii.eqb Bool.eqb].
    now rewrite Hq.
Qed.

Lemma digit_text_fixed_2 (n : Z) : 0 <= n <= 99 -> digit_text (fixed_digits 2 n) n.
Proof.
  intros H. right.
  pose proof (Z.mod_pos_bound n 10 ltac:(lia)).
  pose proof (Z.mod_pos_bound (n / 10) 10 ltac:(lia)).
  exists (digit_char ((n / 10) mod 10)), (digit_char (n mod 10)).
  split; [reflexivity |].
  rewrite !is_digit_digit_char, !digit_val_digit_char by lia.
  split; [reflexivity |]. split; [reflexivity |].
  assert (n / 10 < 10) by (apply Z.div_lt_upper_bound; lia).
  rewrite (Z.mod_small (n / 10)) by (split; [apply Z.div_pos |]; lia).
  pose proof (Z.div_mod n 10 ltac:(lia)). lia.
Qed.

(* ===================================================================== *)
(** * The text [strptime] accepts as a time *)
(* ===================================================================== *)

Lemma in_m_digit_shape (lo hi : Z) (s : string) (v : Z) (r : string) :
  In (v, r) (m_digit lo hi s) ->
  exists c, s = String c r /\ is_digit c = true /\ v = digit_val c.
Proof.
  unfold m_digit. rewrite in_m_bind. intros (c & s' & H1 & H2).
  apply in_m_ret in H2. injection H2 as -> ->.
  unfold m_char in H1. destruct s as [| c0 s0]; [contradiction |].
  destruct (is_digit c0 && (lo <=? digit_val c0) && (digit_val c0 <=? hi)) eqn:E;
    [| contradiction].
  destruct H1 as [H1 | []]. injection H1 as -> ->.
  apply andb_prop in E as [E _]. apply andb_prop in E as [E _].
  exists c. auto.
Qed.

Lemma in_m_digit_text (lo hi : Z) (s : string) (v : Z) (r : string) :
  In (v, r) (m_digit lo hi s) -> exists p, s = p ++ r /\ digit_text p v.
Proof.
  intros H. apply in_m_digit_shape in H as (c & -> & Hc & ->).
  exists (String c ""). split; [reflexivity |]. left. eauto.
Qed.

Lemma in_m_two_text (lo1 hi1 lo2 hi2 : Z) (s : string) (v : Z) (r : string) :
  In (v, r) (m_two lo1 hi1 lo2 hi2 s) -> exists p, s = p ++ r /\ digit_text p v.
Proof.
  unfold m_two. rewrite in_m_bind. intros (a & s1 & Ha & H).
  apply in_m_bind in H as (b & s2 & Hb & H).
  apply in_m_ret in H.
  assert (v = 10 * a + b /\ r = s2) as [-> ->] by (split; congruence).
  apply in_m_digit_shape in Ha as (c1 & -> & H1 & ->).
  apply in_m_digit_shape in Hb as (c2 & -> & H2 & ->).
  exists (String c1 (String c2 "")). split; [reflexivity |]. right.
  exists c1, c2. auto.
Qed.

Ltac text_alternatives H :=
  repeat (apply in_m_alt in H; destruct H as [H | H]);
  try (apply in_m_two_text in H; exact H);
  try (apply in_m_digit_text in H; exact H).

Lemma in_re_H_text (s : string) (v : Z) (r : string) :
  In (v, r) (re_H s) -> exists p, s = p ++ r /\ digit_text p v.
Proof. unfold re_H. intros H. text_alternatives H. Qed.

Lemma in_re_M_text (s : string) (v : Z) (r : string) :
  In (v, r) (re_M s) -> exists p, s = p ++ r /\ digit_text p v.
Proof. unfold re_M. intros H. text_alternatives H. Qed.

Lemma in_m_lit (c : ascii) (s : string) (x : ascii) (r : string) :
  In (x, r) (m_lit c s) -> s = String c r.
Proof.
  unfold m_lit, m_char. destruct s as [| c0 s0]; [contradiction |].
  destruct (Ascii.eqb c c0) eqn:E; [| contradiction].
  apply Ascii.eqb_eq in E. subst c0. intros [H | []]. now injection H as _ ->.
Qed.

(** A text [strptime] accepts with [%H:%M] is one or two digits, a colon,
    and one or two digits; the hour is below 24 and the minute below 60. *)
Lemma strptime_hm_shape (text : string) (t : datetime) :
  strptime_hm text = Ret t ->
  exists pH pM,
    text = pH ++ String ":"%char pM
    /\ digit_text pH (hour t) /\ digit_text pM (minute t)
    /\ 0 <= hour t <= 23 /\ 0 <= minute t <= 59.
Proof.
  unfold strptime_hm.
  destruct (re_hm_format text) as [| [t0 rest] l] eqn:E; [discriminate |].
  destruct rest; [| discriminate]. intros H. injection H as ->.
  assert (In (t, "") (re_hm_format text)) as Hin by (rewrite E; now left).
  unfold re_hm_format in Hin.
  apply in_m_bind in Hin as (h & s1 & Hh & Hin).
  apply in_m_bind in Hin as (c & s2 & Hc & Hin).
  apply in_m_bind in Hin as (m & s3 & Hm & Hin).
  apply in_m_ret in Hin.
  assert (t = mk_datetime 1900 1 1 h m 0 /\ s3 = "") as [-> ->]
    by (split; congruence).
  pose proof (in_re_H _ _ _ Hh). pose proof (in_re_M _ _ _ Hm).
  apply in_re_H_text in Hh as (pH & -> & HpH).
  apply in_m_lit in Hc as ->.
  apply in_re_M_text in Hm as (pM & -> & HpM).
  exists pH, pM. rewrite append_nil_r. cbn [hour minute]. auto.
Qed.

Lemma strptime_date_error (text : string) (e : exn) :
  strptime_date text = Raise e -> e = ValueError.
Proof.
  unfold strptime_date.
  destruct (re_date_format text) as [| [t rest] l]; [congruence |].
  destruct rest; [| congruence].
  destruct ((1 <=? year t) && (day t <=? _days_in_month (year t) (month t)));
    congruence.
Qed.

Lemma strptime_hm_error (text : string) (e : exn) :
  strptime_hm text = Raise e -> e = ValueError.
Proof.
  unfold strptime_hm.
  destruct (re_hm_format text) as [| [t rest] l]; [congruence |].
  destruct rest; congruence.
Qed.

Lemma check_date_spec (date_str : string) :
  match strptime_date date_str with
  | Ret _ => check_date date_str = Ret None
  | Raise _ =>
      check_date date_str = Ret (Some (box_error "Validation" "Date must be YYYY-MM-DD."))
  end.
Proof.
  unfold check_date.
  destruct (strptime_date date_str) as [t | e] eqn:E; [reflexivity |].
  apply strptime_date_error in E. subst e. reflexivity.
Qed.

(* ===================================================================== *)
(** * [_validate_inputs] *)
(* ===================================================================== *)

Lemma validate_inputs_validation (f : form_vars) (for_update : bool) :
  _validate_inputs f for_update = (fst (validation f), Ret (snd (validation f))).
Proof.
  unfold _validate_inputs, validation.
  destruct (negb (forallb nonempty _)); [reflexivity |].
  destruct (strptime_hm (strip (time_var f))) as [t | e] eqn:Et.
  2:{ apply strptime_hm_error in Et. subst e. reflexivity. }
  cbn [bind except_ValueError].
  destruct (strptime_hm_shape _ _ Et) as (pH & pM & Etext & HpH & HpM & _).
  rewrite Etext, (split_colon_digit_text pH pM _ _ HpH HpM).
  cbn [unpack2 bind fst snd].
  rewrite (int_of_str_digit_text _ _ HpH), (int_of_str_digit_text _ _ HpM).
  cbn [bind]. fold (form_data f t).
  pose proof (check_date_spec (strip (date_var f))) as Hd.
  destruct (String.eqb (repeat_var f) "Once").
  - destruct (nonempty (strip (date_var f))); [| reflexivity].
    cbn [negb andb].
    destruct (strptime_date (strip (date_var f))); rewrite Hd; reflexivity.
  - cbn [andb]. destruct (nonempty (strip (date_var f))); [| reflexivity].
    destruct (strptime_date (strip (date_var f))); rewrite Hd; reflexivity.
Qed.

Lemma validation_some (f : form_vars) (data : dict) :
  snd (validation f) = Some data ->
  exists t,
    strptime_hm (strip (time_var f)) = Ret t
    /\ data = form_data f t
    /\ fst (validation f) = []
    /\ forallb nonempty [ strip (title_var f); strip (message_var f);
                          strip (time_var f); repeat_var f; priority_var f ] = true
    /\ (repeat_var f = "Once" -> nonempty (strip (date_var f)) = true)
    /\ (nonempty (strip (date_var f)) = true ->
        exists d, strptime_date (strip (date_var f)) = Ret d).
Proof.
  unfold validation.
  destruct (forallb nonempty _) eqn:Er; cbn [negb]; [| intros H; discriminate H].
  destruct (strptime_hm (strip (time_var f))) as [t | e]; [| intros H; discriminate H].
  destruct (String.eqb (repeat_var f) "Once" && negb (nonempty (strip (date_var f))))
    eqn:Eo; [intros H; discriminate H |].
  destruct (nonempty (strip (date_var f)) && raises (strptime_date (strip (date_var f))))
    eqn:Ed; [intros H; discriminate H |].
  cbn [fst snd]. intros H. injection H as <-.
  exists t. split; [reflexivity |]. split; [reflexivity |]. split; [reflexivity |].
  split; [reflexivity |]. split.
  - intros Hr. rewrite Hr in Eo. cbn in Eo. now apply negb_false_iff in Eo.
  - intros Hn. rewrite Hn in Ed. cbn [andb] in Ed.
    destruct (strptime_date (strip (date_var f))) as [d |]; [eauto | discriminate].
Qed.

Lemma validation_none (f : form_vars) :
  snd (validation f) = None -> exists message, fst (validation f) = [box_error "Validation" message].
Proof.
  unfold validation.
  destruct (negb (forallb nonempty _)); [intros _; eexists; reflexivity |].
  destruct (strptime_hm (strip (time_var f))) as [t | e]; [| intros _; eexists; reflexivity].
  destruct (String.eqb (repeat_var f) "Once" && negb (nonempty (strip (date_var f))));
    [intros _; eexists; reflexivity |].
  destruct (nonempty (strip (date_var f)) && raises (strptime_date (strip (date_var f))));
    [intros _; eexists; reflexivity | cbn [snd fst]; intros H; discriminate H].
Qed.

(** X1. [_validate_inputs] never raises: it shows one error box and returns
    [None], or shows nothing and returns the data. *)
Theorem validate_inputs_never_raises (f : form_vars) (for_update : bool) :
  (exists message,
      _validate_inputs f for_update = ([box_error "Validation" message], Ret None))
  \/ (exists data, _validate_inputs f for_update = ([], Ret (Some data))).
Proof.
  rewrite validate_inputs_validation.
  destruct (snd (validation f)) as [data |] eqn:E.
  - right. exists data. apply validation_some in E as (_ & _ & _ & -> & _). reflexivity.
  - left. apply validation_none in E as (message & ->). eauto.
Qed.

Lemma format_02d_fixed (n : Z) : 0 <= n <= 99 -> format_02d n = fixed_digits 2 n.
Proof.
  intros H. unfold format_02d.
  destruct (n <? 0) eqn:E; [apply Z.ltb_lt in E; lia |].
  apply zfill_fixed. simpl. lia.
Qed.

Lemma hour_24_range (amp : string) (h : Z) : 0 <= h <= 23 -> 0 <= hour_24 amp h <= 35.
Proof.
  intros H. unfold hour_24.
  destruct (String.eqb amp "AM"); destruct (Z.eqb_spec h 12); lia.
Qed.

(** X2. The data [_validate_inputs] accepts: a title and a message that are not
    empty, a time written with two digits, a colon and two digits (the
    minute below 60), and a date that is empty or exists, and exists for a
    Once reminder. *)
Theorem validate_inputs_accepts (f : form_vars) (for_update : bool) (data : dict) :
  snd (_validate_inputs f for_update) = Ret (Some data) ->
  (exists title message,
      get data "title" VNone = VStr title /\ title <> ""
      /\ get data "message" VNone = VStr message /\ message <> "")
  /\ (exists h m,
        get data "time" VNone = VStr (fixed_digits 2 h ++ ":" ++ fixed_digits 2 m)
        /\ 0 <= h <= 35 /\ 0 <= m <= 59)
  /\ (exists date,
        get data "date" VNone = VStr date
        /\ (date = "" \/ exists d, strptime_date date = Ret d)
        /\ (get data "repeat" VNone = VStr "Once" ->
            exists d, strptime_date date = Ret d)).
Proof.
  rewrite validate_inputs_validation. cbn [snd]. intros H. injection H as H.
  apply validation_some in H as (t & Ht & -> & _ & Hreq & Honce & Hdate).
  cbn [forallb] in Hreq.
  apply andb_prop in Hreq as [Htitle Hreq]. apply andb_prop in Hreq as [Hmsg _].
  unfold nonempty in Htitle, Hmsg.
  apply negb_true_iff, String.eqb_neq in Htitle, Hmsg.
  destruct (strptime_hm_shape _ _ Ht) as (_ & _ & _ & _ & _ & Hh & Hm).
  pose proof (hour_24_range (ampm_var f) (hour t) Hh) as Hh24.
  split; [| split].
  - exists (strip (title_var f)), (strip (message_var f)). auto.
  - exists (hour_24 (ampm_var f) (hour t)), (minute t).
    cbn. rewrite !format_02d_fixed by lia. auto.
  - exists (strip (date_var f)). split; [reflexivity |]. split.
    + destruct (nonempty (strip (date_var f))) eqn:E; [right; auto |].
      left. unfold nonempty in E. now apply negb_false_iff, String.eqb_eq in E.
    + cbn. intros Hr. injection Hr as Hr. auto.
Qed.

(* ===================================================================== *)
(** * The list: create, update, delete *)
(* ===================================================================== *)

Lemma commit_spec (env : form_env) (base_dir : string) (st : app_state) (l : list dict) :
  exists ds,
    commit env base_dir st l
    = (mk_app_state l (clear_form (app_form st)) (refresh_list l)
         (fst (save_notifications json_dumps (form_save env) base_dir
                 (VList (map VDict l)) (app_disk st))),
       (map box_store ds, Ret tt))
    /\ (ds = [] \/ exists e, ds = [showerror "Save" e]).
Proof.
  unfold commit, save_notifications, json_dumps.
  destruct (open_w_result (form_save env)) as [[] | e].
  - cbn [bind]. destruct (write_result (form_save env)) as [[] | e'].
    + exists []. split; [reflexivity | now left].
    + eexists. split; [reflexivity | right; eauto].
  - eexists. split; [reflexivity | right; eauto].
Qed.

Lemma weekday_anchor_form (env : form_env) (f : form_vars) (t : datetime) :
  weekday_anchor env (form_data f t)
  = if nonempty (strip (date_var f))
    then (d <- strptime_date (strip (date_var f)) ;; Ret (weekday d))
    else Ret (weekday (now_form env)).
Proof. reflexivity. Qed.

(** The record built from accepted data: the data, then the image and the
    fresh fire memory. *)
Lemma new_notification_form (env : form_env) (f : form_vars) (data : dict) :
  snd (validation f) = Some data ->
  exists t wd,
    strptime_hm (strip (time_var f)) = Ret t
    /\ data = form_data f t
    /\ weekday_anchor env data = Ret wd
    /\ new_notification env f data
       = Ret (form_data f t
              ++ [ ("image", read_image env f VNone); ("delivered", VBool false);
                   ("last_fired_date", VNone); ("last_fired_week", VNone);
                   ("created_weekday", VInt wd) ])%list.
Proof.
  intros H. apply validation_some in H as (t & Ht & -> & _ & _ & _ & Hdate).
  assert (exists wd, weekday_anchor env (form_data f t) = Ret wd) as [wd Hwd].
  { rewrite weekday_anchor_form.
    destruct (nonempty (strip (date_var f))); [| eauto].
    destruct (Hdate eq_refl) as [d ->]. cbn [bind]. eauto. }
  exists t, wd. split; [exact Ht |]. split; [reflexivity |]. split; [exact Hwd |].
  unfold new_notification. rewrite Hwd. reflexivity.
Qed.

Lemma weekday_range (t : datetime) : 0 <= weekday t <= 6.
Proof. unfold weekday. pose proof (Z.mod_pos_bound (toordinal t + 6) 7). lia. Qed.

Lemma weekday_anchor_range (env : form_env) (f : form_vars) (t : datetime) (wd : Z) :
  weekday_anchor env (form_data f t) = Ret wd -> 0 <= wd <= 6.
Proof.
  rewrite weekday_anchor_form.
  destruct (nonempty (strip (date_var f))).
  - destruct (strptime_date (strip (date_var f))) as [d |]; [| discriminate].
    cbn [bind]. intros H. injection H as <-. apply weekday_range.
  - intros H. injection H as <-. apply weekday_range.
Qed.

Lemma read_image_kinds (env : form_env) (f : form_vars) (kept : value) :
  read_image env f kept = kept \/ exists text, read_image env f kept = VStr text.
Proof.
  unfold read_image. destruct (image_chosen env f); [| now left].
  destruct (read_image_result env); [right; eauto | now left].
Qed.

Lemma create_notification_spec (env : form_env) (base_dir : string) (st : app_state) :
  match snd (validation (app_form st)) with
  | None =>
      exists message,
        create_notification env base_dir st
        = (st, ([box_error "Validation" message], Ret tt))
  | Some data =>
      exists notif ds,
        new_notification env (app_form st) data = Ret notif
        /\ create_notification env base_dir st
           = (mk_app_state (app_notifications st ++ [notif]) (clear_form (app_form st))
                (refresh_list (app_notifications st ++ [notif]))
                (fst (save_notifications json_dumps (form_save env) base_dir
                        (VList (map VDict (app_notifications st ++ [notif])))
                        (app_disk st))),
              (map box_store ds, Ret tt))
        /\ (ds = [] \/ exists e, ds = [showerror "Save" e])
  end.
Proof.
  unfold create_notification. rewrite validate_inputs_validation.
  destruct (snd (validation (app_form st))) as [data |] eqn:E.
  - pose proof (validation_some _ _ E) as (_ & _ & _ & Hfst & _). rewrite Hfst.
    destruct (new_notification_form env _ _ E) as (t & wd & _ & _ & _ & Hn).
    rewrite Hn.
    match goal with
    | |- context [commit env base_dir st ?l] =>
        destruct (commit_spec env base_dir st l) as (ds & Hc & Hds); rewrite Hc
    end.
    eexists _, ds. split; [reflexivity |]. split; [reflexivity | exact Hds].
  - apply validation_none in E as (message & ->). eauto.
Qed.

(** X3. [create_notification] never raises. Either the form is rejected with
    one error box and nothing changes, or one record is appended after the
    records there were, with a fresh fire memory and a weekday anchor, the
    form is cleared, the tree shows the new list, and the only boxes are
    those of a failed save. *)
Theorem create_notification_effect (env : form_env) (base_dir : string) (st : app_state) :
  snd (snd (create_notification env base_dir st)) = Ret tt
  /\ ((fst (create_notification env base_dir st) = st
       /\ exists message,
            fst (snd (create_notification env base_dir st))
            = [box_error "Validation" message])
      \/ (exists notif,
            app_notifications (fst (create_notification env base_dir st))
            = (app_notifications st ++ [notif])%list
            /\ app_form (fst (create_notification env base_dir st))
               = clear_form (app_form st)
            /\ app_tree (fst (create_notification env base_dir st))
               = refresh_list (app_notifications st ++ [notif])
            /\ get notif "delivered" VNone = VBool false
            /\ dict_lookup "last_fired_date" notif = Some VNone
            /\ dict_lookup "last_fired_week" notif = Some VNone
            /\ (exists wd, get notif "created_weekday" VNone = VInt wd /\ 0 <= wd <= 6)
            /\ (get notif "image" VNone = VNone
                \/ exists text, get notif "image" VNone = VStr text)
            /\ forall box,
                 In box (fst (snd (create_notification env base_dir st))) ->
                 exists e, box = box_store (showerror "Save" e))).
Proof.
  pose proof (create_notification_spec env base_dir st) as H.
  destruct (snd (validation (app_form st))) as [data |] eqn:E.
  - destruct H as (notif & ds & Hn & -> & Hds). cbn [fst snd].
    split; [reflexivity |]. right. exists notif.
    destruct (new_notification_form env _ _ E) as (t & wd & _ & -> & Hwd & Hn').
    rewrite Hn' in Hn. injection Hn as <-.
    split; [reflexivity |]. split; [reflexivity |]. split; [reflexivity |].
    split; [reflexivity |]. split; [reflexivity |]. split; [reflexivity |].
    split; [exists wd; split; [reflexivity | exact (weekday_anchor_range _ _ _ _ Hwd)] |].
    split; [exact (read_image_kinds env (app_form st) VNone) |].
    intros box Hin. destruct Hds as [-> | [e ->]]; [contradiction |].
    destruct Hin as [<- | []]. eauto.
  - destruct H as (message & ->). cbn [fst snd]. split; [reflexivity |].
    left. split; [reflexivity | eauto].
Qed.

(* ===================================================================== *)
(** * Records built from the form *)
(* ===================================================================== *)

Lemma dict_lookup_absent (k : string) (d : dict) :
  existsb (String.eqb k) (map fst d) = false -> dict_lookup k d = None.
Proof.
  induction d as [| [k1 v1] d IH]; [reflexivity |].
  cbn [map fst existsb dict_lookup]. intros H. apply orb_false_elim in H as [H1 H2].
  rewrite String.eqb_sym, H1. exact (IH H2).
Qed.

(** After [d.update(pairs)] a key of [pairs] has the value given there and
    every other key the value it had. *)
Lemma dict_lookup_update (pairs : list (string * value)) (d : dict) (k : string) :
  distinct (map fst pairs) = true ->
  dict_lookup k (dict_update d pairs)
  = match dict_lookup k pairs with
    | Some v => Some v
    | None => dict_lookup k d
    end.
Proof.
  revert d. induction pairs as [| [k1 v1] ps IH]; intros d Hd; [reflexivity |].
  cbn [map fst distinct] in Hd. apply andb_prop in Hd as [Hk Hd].
  apply negb_true_iff in Hk.
  change (dict_update d ((k1, v1) :: ps)) with (dict_update (dict_set k1 v1 d) ps).
  rewrite IH by exact Hd. cbn [dict_lookup].
  destruct (String.eqb k1 k) eqn:E.
  - apply String.eqb_eq in E. subst k1.
    rewrite (dict_lookup_absent k ps Hk). apply dict_lookup_set_eq.
  - destruct (dict_lookup k ps); [reflexivity |].
    apply dict_lookup_set_ne. now apply String.eqb_neq.
Qed.

Lemma updated_notification_form (env : form_env) (f : form_vars) (data old : dict) :
  snd (validation f) = Some data ->
  exists t wd,
    strptime_hm (strip (time_var f)) = Ret t
    /\ data = form_data f t
    /\ weekday_anchor env data = Ret wd
    /\ updated_notification env f data old
       = Ret (dict_update old
                (form_data f t
                 ++ [ ("image", read_image env f (get old "image" VNone));
                      ("delivered",
                       if String.eqb (repeat_var f) "Once" then VBool false
                       else get old "delivered" (VBool false));
                      ("last_fired_date", VNone); ("last_fired_week", VNone);
                      ("created_weekday", VInt wd) ])%list).
Proof.
  intros H. destruct (new_notification_form env f data H) as (t & wd & Ht & -> & Hwd & _).
  exists t, wd. split; [exact Ht |]. split; [reflexivity |]. split; [exact Hwd |].
  unfold updated_notification. cbn [getitem form_data dict_lookup String.eqb Ascii.eqb Bool.eqb bind].
  rewrite Hwd. reflexivity.
Qed.

(** The fields the schedule reads, in a record built from the form. *)
Lemma form_record_fields (env : form_env) (f : form_vars) (data notif : dict) :
  snd (validation f) = Some data -> form_record env f data notif ->
  exists t wd,
    strptime_hm (strip (time_var f)) = Ret t
    /\ weekday_anchor env (form_data f t) = Ret wd
    /\ dict_lookup "repeat" notif = Some (VStr (repeat_var f))
    /\ dict_lookup "time" notif = Some (VStr (time_24 (ampm_var f) t))
    /\ dict_lookup "date" notif = Some (VStr (strip (date_var f)))
    /\ dict_lookup "last_fired_date" notif = Some VNone
    /\ dict_lookup "last_fired_week" notif = Some VNone
    /\ dict_lookup "created_weekday" notif = Some (VInt wd)
    /\ (repeat_var f = "Once" -> dict_lookup "delivered" notif = Some (VBool false)).
Proof.
  intros Hv [Hn | [old Hu]].
  - destruct (new_notification_form env f data Hv) as (t & wd & Ht & -> & Hwd & Hn').
    rewrite Hn' in Hn. injection Hn as <-.
    exists t, wd. do 8 (split; [first [assumption | reflexivity] |]).
    intros _. reflexivity.
  - destruct (updated_notification_form env f data old Hv) as (t & wd & Ht & -> & Hwd & Hu').
    match type of Hu' with _ = Ret ?d => assert (notif = d) as -> by congruence end.
    exists t, wd. split; [exact Ht |]. split; [exact Hwd |].
    do 6 (split; [rewrite dict_lookup_update by reflexivity; reflexivity |]).
    intros Hr. rewrite dict_lookup_update by reflexivity.
    cbn [form_data app dict_lookup String.eqb Ascii.eqb Bool.eqb].
    rewrite Hr. reflexivity.
Qed.

(* ===================================================================== *)
(** * [strptime] on a date text followed by a time *)
(* ===================================================================== *)

Lemma flat_map_map {A B C : Type} (f : B -> list C) (g : A -> B) (l : list A) :
  flat_map f (map g l) = flat_map (fun x => f (g x)) l.
Proof. induction l as [| x l IH]; [reflexivity |]. cbn [map flat_map]. now rewrite IH. Qed.

Lemma map_flat_map {A B C : Type} (f : A -> list B) (g : B -> C) (l : list A) :
  map g (flat_map f l) = flat_map (fun x => map g (f x)) l.
Proof.
  induction l as [| x l IH]; [reflexivity |].
  cbn [flat_map]. now rewrite map_app, IH.
Qed.

Lemma flat_map_flat_map {A B C : Type} (f : A -> list B) (g : B -> list C) (l : list A) :
  flat_map g (flat_map f l) = flat_map (fun x => flat_map g (f x)) l.
Proof.
  induction l as [| x l IH]; [reflexivity |].
  cbn [flat_map]. now rewrite flat_map_app, IH.
Qed.

Lemma flat_map_nil {A B : Type} (f : A -> list B) (l : list A) :
  (forall x, In x l -> f x = []) -> flat_map f l = [].
Proof.
  induction l as [| x l IH]; [reflexivity |]. intros H. cbn [flat_map].
  rewrite (H x (or_introl eq_refl)), IH; [reflexivity |].
  intros y Hy. apply H. now right.
Qed.

Lemma stable_ret {A : Type} (t : string) (a : A) : stable t (m_ret a).
Proof. intros s. reflexivity. Qed.

Lemma stable_char (p : ascii -> bool) (c : ascii) (t : string) :
  p c = false -> stable (String c t) (m_char p).
Proof.
  intros Hp [| c' s]; cbn [append m_char].
  - now rewrite Hp.
  - destruct (p c'); reflexivity.
Qed.

Lemma stable_bind {A B : Type} (t : string) (m : matcher A) (k : A -> matcher B) :
  stable t m -> (forall a, stable t (k a)) -> stable t (m_bind m k).
Proof.
  intros Hm Hk s. unfold m_bind. rewrite Hm, flat_map_map, map_flat_map.
  apply flat_map_ext. intros [a r]. cbn [ext fst snd]. apply Hk.
Qed.

Lemma stable_alt {A : Type} (t : string) (m1 m2 : matcher A) :
  stable t m1 -> stable t m2 -> stable t (m_alt m1 m2).
Proof. intros H1 H2 s. unfold m_alt. now rewrite H1, H2, map_app. Qed.

Lemma stable_digit (lo hi : Z) (t : string) : stable (String " "%char t) (m_digit lo hi).
Proof.
  unfold m_digit. apply stable_bind; [apply stable_char; reflexivity |].
  intros a. apply stable_ret.
Qed.

Lemma stable_two (lo1 hi1 lo2 hi2 : Z) (t : string) :
  stable (String " "%char t) (m_two lo1 hi1 lo2 hi2).
Proof.
  unfold m_two. apply stable_bind; [apply stable_digit |]. intros a.
  apply stable_bind; [apply stable_digit |]. intros b. apply stable_ret.
Qed.

Lemma stable_dash (t : string) : stable (String " "%char t) (m_lit "-"%char).
Proof. apply stable_char. reflexivity. Qed.

Lemma follows_bind {A B C : Type} (t : string) (fin : A -> matcher B)
    (m : matcher C) (k : C -> matcher B) (k' : C -> matcher A) :
  stable t m -> (forall c, follows t fin (k c) (k' c)) ->
  follows t fin (m_bind m k) (m_bind m k').
Proof.
  intros Hm Hk s. unfold m_bind. rewrite Hm, flat_map_map, flat_map_flat_map.
  apply flat_map_ext. intros [c r]. cbn [ext fst snd]. apply Hk.
Qed.

(** The day of the month is the one part of the date whose pattern can
    reach into the text that follows, with its last choice, a blank and a
    digit; what is left then starts with no blank, so the time cannot be
    read after it. *)
Lemma re_d_followed (a b : ascii) (u s : string) :
  re_d (s ++ String " "%char (String a (String b u)))
  = (map (ext (String " "%char (String a (String b u)))) (re_d s)
     ++ match s with
        | EmptyString => m_digit 1 9 (String a (String b u))
        | String _ _ => []
        end)%list.
Proof.
  unfold re_d, m_alt.
  rewrite !(stable_two _ _ _ _ (String a (String b u)) s).
  rewrite (stable_digit 1 9 (String a (String b u)) s).
  rewrite !map_app, <- !app_assoc. do 4 f_equal.
  destruct s as [| c s'].
  - cbn. now rewrite app_nil_r.
  - unfold m_bind, m_lit, m_char. cbn [append].
    destruct (Ascii.eqb " " c); [| reflexivity].
    cbn [flat_map fst snd]. rewrite !app_nil_r.
    apply (stable_digit 1 9 (String a (String b u)) s').
Qed.

Lemma follows_last {A B C : Type} (t : string) (fin : A -> matcher B)
    (m : matcher C) (edge : string -> list (C * string))
    (k : C -> matcher B) (mk : C -> A) :
  (forall s, m (s ++ t) = (map (ext t) (m s) ++ edge s)%list) ->
  (forall s x, In x (edge s) -> k (fst x) (snd x) = []) ->
  (forall c r, fin (mk c) r = k c r) ->
  follows t fin (m_bind m k) (m_bind m (fun c => m_ret (mk c))).
Proof.
  intros Hm Hedge Hfin s. unfold m_bind.
  rewrite Hm, flat_map_app, flat_map_map, (flat_map_nil _ (edge s)) by apply Hedge.
  rewrite app_nil_r, flat_map_flat_map.
  apply flat_map_ext. intros [c r]. cbn [ext fst snd m_ret flat_map].
  rewrite app_nil_r. symmetry. apply Hfin.
Qed.

Lemma stable_re_Y (t : string) : stable (String " "%char t) re_Y.
Proof.
  unfold re_Y. repeat (apply stable_bind; [apply stable_digit | intros ?]).
  apply stable_ret.
Qed.

Lemma stable_re_m (t : string) : stable (String " "%char t) re_m.
Proof.
  unfold re_m. repeat apply stable_alt; first [apply stable_two | apply stable_digit].
Qed.

(** On a date text followed by a blank and a time text, the pattern of
    [strptime_minute] matches as the pattern of the date on the date text
    and then the rest of the pattern on what is left. *)
Lemma re_minute_format_follows (a b : ascii) (u : string) :
  is_space b = false ->
  follows (String " "%char (String a (String b u)))
    (fun x => re_time_part (year x) (month x) (day x))
    re_minute_format re_date_format.
Proof.
  intros Hb. unfold re_minute_format, re_date_format.
  apply follows_bind; [apply stable_re_Y |]. intros Y.
  apply follows_bind; [apply stable_dash |]. intros _.
  apply follows_bind; [apply stable_re_m |]. intros m.
  apply follows_bind; [apply stable_dash |]. intros _.
  apply (follows_last _ _ re_d
           (fun s => match s with
                     | EmptyString => m_digit 1 9 (String a (String b u))
                     | String _ _ => []
                     end)
           (fun d => re_time_part Y m d) (fun d => mk_datetime Y m d 0 0 0)).
  - intros s. apply re_d_followed.
  - intros [| c s] [v r] Hin; [| contradiction].
    apply in_m_digit_shape in Hin as (c & Heq & _). injection Heq as _ <-.
    cbn [fst snd]. unfold re_time_part, m_bind. cbn [m_spaces]. now rewrite Hb.
  - reflexivity.
Qed.

Lemma first_re_time_part (Y mo d h m : Z) :
  0 <= h <= 23 -> 0 <= m <= 59 ->
  first_match (re_time_part Y mo d)
    (String " "%char (fixed_digits 2 h ++ String ":"%char (fixed_digits 2 m ++ "")))
    (mk_datetime Y mo d h m 0, "").
Proof.
  intros Hh Hm. unfold re_time_part.
  eapply first_bind; [apply first_spaces; lia |].
  eapply first_bind; [apply first_re_H; lia |].
  eapply first_bind; [apply first_lit |].
  eapply first_bind; [apply first_re_M; lia |].
  apply first_ret.
Qed.

Lemma time_text_layout (h m : Z) :
  " " ++ fixed_digits 2 h ++ ":" ++ fixed_digits 2 m
  = String " "%char (String (digit_char ((h / 10) mod 10))
      (String (digit_char (h mod 10)) (String ":"%char (fixed_digits 2 m ++ "")))).
Proof. now rewrite append_nil_r. Qed.

Lemma digit_char_no_space (d : Z) : 0 <= d <= 9 -> is_space (digit_char d) = false.
Proof.
  intros H. apply (is_digit_digit_char d) in H. now apply digit_is_plain in H.
Qed.

(** The text [_should_fire] gives to [strptime] for a date text the form
    accepts and a time of the 24-hour clock: the date of the one, the hour
    and minute of the other. *)
Lemma strptime_minute_form (s : string) (d : datetime) (h m : Z) :
  strptime_date s = Ret d -> 0 <= h <= 23 -> 0 <= m <= 59 ->
  strptime_minute (s ++ " " ++ fixed_digits 2 h ++ ":" ++ fixed_digits 2 m)
  = Ret (mk_datetime (year d) (month d) (day d) h m 0).
Proof.
  intros Hd Hh Hm. unfold strptime_date in Hd.
  destruct (re_date_format s) as [| [x rest] l] eqn:E; [discriminate |].
  destruct rest; [| discriminate].
  destruct ((1 <=? year x) && (day x <=? _days_in_month (year x) (month x))) eqn:V;
    [| discriminate].
  injection Hd as ->.
  rewrite time_text_layout. unfold strptime_minute.
  rewrite re_minute_format_follows
    by (apply digit_char_no_space; pose proof (Z.mod_pos_bound h 10); lia).
  rewrite E. cbn [flat_map fst snd append].
  destruct (first_re_time_part (year d) (month d) (day d) h m Hh Hm) as [l' Hl'].
  rewrite fixed_digits_2 in Hl'. rewrite Hl'. cbn [app year month day].
  now rewrite V.
Qed.

(* ===================================================================== *)
(** * A stored hour beyond 23 *)
(* ===================================================================== *)

Lemma consumes_ret {A : Type} (a : A) : consumes (m_ret a).
Proof. intros s v r H. apply in_m_ret in H. exists "". cbn. congruence. Qed.

Lemma consumes_char (p : ascii -> bool) : consumes (m_char p).
Proof.
  intros [| c s] v r H; cbn [m_char] in H; [contradiction |].
  destruct (p c); [| contradiction]. destruct H as [H | []].
  exists (String c ""). cbn. congruence.
Qed.

Lemma consumes_bind {A B : Type} (m : matcher A) (k : A -> matcher B) :
  consumes m -> (forall a, consumes (k a)) -> consumes (m_bind m k).
Proof.
  intros Hm Hk s v r H. apply in_m_bind in H as (a & s' & H1 & H2).
  apply Hm in H1 as [p ->]. apply Hk in H2 as [q ->].
  exists (p ++ q). now rewrite append_assoc.
Qed.

Lemma consumes_alt {A : Type} (m1 m2 : matcher A) :
  consumes m1 -> consumes m2 -> consumes (m_alt m1 m2).
Proof. intros H1 H2 s v r H. apply in_m_alt in H as [H | H]; eauto. Qed.

Ltac consumes_parts :=
  repeat first
    [ apply consumes_ret
    | apply consumes_char
    | apply consumes_alt
    | apply consumes_bind; [| intros ?] ].

Lemma in_m_spaces (s r : string) (x : unit) :
  In (x, r) (m_spaces s) -> exists p c, s = p ++ String c r /\ is_space c = true.
Proof.
  revert r. induction s as [| c s IH]; intros r H; cbn [m_spaces] in H; [contradiction |].
  destruct (is_space c) eqn:E; [| contradiction].
  apply in_app_iff in H as [H | [H | []]].
  - apply IH in H as (p & c' & -> & Hc'). exists (String c p), c'. auto.
  - exists "", c. split; [cbn; congruence | exact E].
Qed.

Lemma append_suffix_inj (a b c d : string) :
  String.length c = String.length d -> a ++ c = b ++ d -> a = b /\ c = d.
Proof.
  intros Hl H. apply append_same_length_inj; [| exact H].
  apply (f_equal String.length) in H. rewrite !length_append in H. lia.
Qed.

Lemma strptime_minute_error (text : string) (e : exn) :
  strptime_minute text = Raise e -> e = ValueError.
Proof.
  unfold strptime_minute.
  destruct (re_minute_format text) as [| [t rest] l]; [congruence |].
  destruct rest; [| congruence].
  destruct ((1 <=? year t) && (day t <=? _days_in_month (year t) (month t)));
    congruence.
Qed.

Lemma space_not_digit (c : ascii) : is_space c = true -> is_digit c = true -> False.
Proof. intros Hs Hd. apply digit_is_plain in Hd as (Hd & _). congruence. Qed.

(** The time part of a text [strptime] reads in full: a blank, one or two
    digits that write an hour below 24, a colon, one or two digits. *)
Lemma strptime_minute_time_text (text : string) (due : datetime) :
  strptime_minute text = Ret due ->
  exists P c pH pM H M,
    text = P ++ String c (pH ++ String ":"%char pM)
    /\ is_space c = true /\ digit_text pH H /\ digit_text pM M /\ 0 <= H <= 23.
Proof.
  unfold strptime_minute.
  destruct (re_minute_format text) as [| [t rest] l] eqn:E; [discriminate |].
  destruct rest; [| discriminate]. intros _.
  assert (In (t, "") (re_minute_format text)) as Hin by (rewrite E; now left).
  clear E. unfold re_minute_format in Hin.
  apply in_m_bind in Hin as (Y & s1 & H1 & Hin).
  apply in_m_bind in Hin as (c1 & s2 & H2 & Hin).
  apply in_m_bind in Hin as (m & s3 & H3 & Hin).
  apply in_m_bind in Hin as (c2 & s4 & H4 & Hin).
  apply in_m_bind in Hin as (d & s5 & H5 & Hin).
  apply in_m_bind in Hin as (u & s6 & H6 & Hin).
  apply in_m_bind in Hin as (H & s7 & H7 & Hin).
  apply in_m_bind in Hin as (c3 & s8 & H8 & Hin).
  apply in_m_bind in Hin as (M & s9 & H9 & Hin).
  apply in_m_ret in Hin. assert (s9 = "") as -> by congruence.
  assert (exists P, text = P ++ s5) as [P ->].
  { assert (consumes (m_bind re_Y (fun Y =>
            m_bind (m_lit "-"%char) (fun _ =>
            m_bind re_m (fun m =>
            m_bind (m_lit "-"%char) (fun _ =>
            m_bind re_d (fun d => m_ret (Y, m, d)))))))) as Hc.
    { unfold re_Y, re_m, re_d, m_two, m_digit, m_lit. consumes_parts. }
    apply (Hc text (Y, m, d) s5).
    apply in_m_bind. exists Y, s1. split; [exact H1 |].
    apply in_m_bind. exists c1, s2. split; [exact H2 |].
    apply in_m_bind. exists m, s3. split; [exact H3 |].
    apply in_m_bind. exists c2, s4. split; [exact H4 |].
    apply in_m_bind. exists d, s5. split; [exact H5 |].
    apply in_m_ret. reflexivity. }
  pose proof (in_re_H _ _ _ H7) as HH.
  apply in_m_spaces in H6 as (p & c & -> & Hc).
  apply in_re_H_text in H7 as (pH & -> & HpH).
  apply in_m_lit in H8 as ->.
  apply in_re_M_text in H9 as (pM & -> & HpM).
  exists (P ++ p), c, pH, pM, H, M. rewrite append_nil_r, append_assoc. auto.
Qed.

Lemma append_move_1 (s : string) (x : ascii) (r : string) :
  s ++ String x r = (s ++ String x "") ++ r.
Proof. now rewrite append_assoc. Qed.

Lemma append_move_2 (s : string) (x y : ascii) (r : string) :
  s ++ String x (String y r) = (s ++ String x (String y "")) ++ r.
Proof. now rewrite append_assoc. Qed.

(** A stored time whose hour is beyond 23 makes the text of a Once record
    one [strptime] rejects, whatever the date. *)
Lemma strptime_minute_late (s : string) (h m : Z) :
  24 <= h <= 99 ->
  strptime_minute (s ++ " " ++ fixed_digits 2 h ++ ":" ++ fixed_digits 2 m)
  = Raise ValueError.
Proof.
  intros Hh.
  destruct (strptime_minute _) as [due | e] eqn:E.
  2:{ apply strptime_minute_error in E. now subst. }
  exfalso.
  apply strptime_minute_time_text in E
    as (P & c & pH & pM & H & M & Heq & Hc & HpH & HpM & HH).
  rewrite time_text_layout in Heq. change (fixed_digits 2 m ++ "")
    with (String (digit_char ((m / 10) mod 10)) (String (digit_char (m mod 10)) "")) in Heq.
  pose proof (Z.mod_pos_bound (h / 10) 10 ltac:(lia)) as B1.
  pose proof (Z.mod_pos_bound h 10 ltac:(lia)) as B2.
  assert (is_digit (digit_char ((h / 10) mod 10)) = true) as D1
    by (apply is_digit_digit_char; lia).
  assert (is_digit (digit_char (h mod 10)) = true) as D2
    by (apply is_digit_digit_char; lia).
  destruct HpH as [(a & -> & Ha & ->) | (a1 & a2 & -> & Ha1 & Ha2 & ->)];
    destruct HpM as [(b & -> & Hb & _) | (b1 & b2 & -> & Hb1 & Hb2 & _)];
    cbn [append] in Heq.
  - rewrite append_move_2 in Heq.
    apply append_suffix_inj in Heq as [_ Heq]; [| reflexivity].
    injection Heq as Heq _. subst c. exact (space_not_digit _ Hc D2).
  - rewrite append_move_1 in Heq.
    apply append_suffix_inj in Heq as [_ Heq]; [| reflexivity].
    injection Heq as Heq _. subst c. exact (space_not_digit _ Hc D1).
  - rewrite append_move_1 in Heq.
    apply append_suffix_inj in Heq as [_ Heq]; [| reflexivity].
    injection Heq as Heq _. subst c. exact (space_not_digit _ Hc D1).
  - apply append_suffix_inj in Heq as [_ Heq]; [| reflexivity].
    injection Heq as _ E1 E2 _. subst a1 a2.
    rewrite !digit_val_digit_char in HH by lia.
    assert (h / 10 < 10) by (apply Z.div_lt_upper_bound; lia).
    rewrite (Z.mod_small (h / 10)) in HH by (split; [apply Z.div_pos |]; lia).
    pose proof (Z.div_mod h 10 ltac:(lia)). lia.
Qed.

(* ===================================================================== *)
(** * When a record built from the form is due *)
(* ===================================================================== *)

Lemma form_due_valid (s : string) (d : datetime) (h m : Z) :
  strptime_date s = Ret d -> 0 <= h <= 23 -> 0 <= m <= 59 ->
  valid_datetime (mk_datetime (year d) (month d) (day d) h m 0) = true.
Proof.
  intros Hd Hh Hm.
  exact (strptime_minute_valid _ _ (strptime_minute_form s d h m Hd Hh Hm)).
Qed.

Lemma time_24_fixed (amp : string) (t : datetime) :
  0 <= hour t <= 23 -> 0 <= minute t <= 59 ->
  time_24 amp t
  = fixed_digits 2 (hour_24 amp (hour t)) ++ ":" ++ fixed_digits 2 (minute t).
Proof.
  intros Hh Hm. unfold time_24. pose proof (hour_24_range amp (hour t) Hh).
  now rewrite !format_02d_fixed by lia.
Qed.

Lemma strftime_hm_fixed (t : datetime) :
  valid_datetime t = true ->
  strftime_hm t = fixed_digits 2 (hour t) ++ ":" ++ fixed_digits 2 (minute t).
Proof.
  intros Hv. apply valid_datetime_ranges in Hv as (_ & _ & _ & Hh & Hm & _).
  unfold strftime_hm. now rewrite !zfill_fixed by (simpl; lia).
Qed.

Lemma time_text_eqb (a b c d : Z) :
  0 <= a <= 99 -> 0 <= b <= 99 -> 0 <= c <= 99 -> 0 <= d <= 99 ->
  String.eqb (fixed_digits 2 a ++ ":" ++ fixed_digits 2 b)
             (fixed_digits 2 c ++ ":" ++ fixed_digits 2 d)
  = (a =? c) && (b =? d).
Proof.
  intros Ha Hb Hc Hd.
  destruct (String.eqb_spec (fixed_digits 2 a ++ ":" ++ fixed_digits 2 b)
                            (fixed_digits 2 c ++ ":" ++ fixed_digits 2 d)) as [E | E].
  - apply append_same_length_inj in E as [E1 E2];
      [| now rewrite !fixed_digits_length].
    assert (fixed_digits 2 b = fixed_digits 2 d) as E3
      by (cbn [append] in E2; congruence).
    clear E2. rename E3 into E2.
    apply fixed_digits_inj in E1; [| simpl; lia | simpl; lia].
    apply fixed_digits_inj in E2; [| simpl; lia | simpl; lia].
    subst. now rewrite !Z.eqb_refl.
  - destruct (Z.eqb_spec a c) as [-> |]; [| reflexivity].
    destruct (Z.eqb_spec b d) as [-> |]; [| reflexivity].
    now contradiction E.
Qed.

(** Whether a stored time is the time of the clock at an instant. *)
Lemma stored_time_matches (amp : string) (t tnow : datetime) :
  0 <= hour t <= 23 -> 0 <= minute t <= 59 -> valid_datetime tnow = true ->
  String.eqb (time_24 amp t) (strftime_hm tnow)
  = (hour_24 amp (hour t) =? hour tnow) && (minute t =? minute tnow).
Proof.
  intros Hh Hm Hv. rewrite time_24_fixed, strftime_hm_fixed by assumption.
  pose proof (hour_24_range amp (hour t) Hh).
  apply valid_datetime_ranges in Hv as (_ & _ & _ & Hh' & Hm' & _).
  apply time_text_eqb; lia.
Qed.

Lemma get_of_lookup (d : dict) (k : string) (v default : value) :
  dict_lookup k d = Some v -> get d k default = v.
Proof. intros H. unfold get. now rewrite H. Qed.

Lemma form_record_daily (env : form_env) (f : form_vars) (data notif : dict)
    (now tnow : datetime) :
  snd (validation f) = Some data -> form_record env f data notif ->
  repeat_var f = "Daily" -> valid_datetime tnow = true ->
  exists t,
    strptime_hm (strip (time_var f)) = Ret t
    /\ _should_fire now tnow notif
       = Ret ((hour_24 (ampm_var f) (hour t) =? hour tnow) && (minute t =? minute tnow)).
Proof.
  intros Hv Hr Hd Hnow.
  destruct (form_record_fields env f data notif Hv Hr)
    as (t & wd & Ht & _ & Hrep & Htime & _ & Hlast & _).
  exists t. split; [exact Ht |].
  destruct (strptime_hm_shape _ _ Ht) as (_ & _ & _ & _ & _ & Hh & Hm).
  rewrite should_fire_daily_reads
    by (rewrite (get_of_lookup _ _ _ _ Hrep), Hd; reflexivity).
  rewrite (get_of_lookup _ _ _ _ Htime), (get_of_lookup _ _ _ _ Hlast).
  cbn [eq_str negb]. rewrite andb_true_r.
  now rewrite stored_time_matches.
Qed.

Lemma form_record_weekly (env : form_env) (f : form_vars) (data notif : dict)
    (now tnow : datetime) :
  snd (validation f) = Some data -> form_record env f data notif ->
  repeat_var f = "Weekly" -> valid_datetime tnow = true ->
  exists t wd,
    strptime_hm (strip (time_var f)) = Ret t
    /\ weekday_anchor env (form_data f t) = Ret wd
    /\ _should_fire now tnow notif
       = Ret ((weekday now =? wd)
              && ((hour_24 (ampm_var f) (hour t) =? hour tnow)
                  && (minute t =? minute tnow))).
Proof.
  intros Hv Hr Hd Hnow.
  destruct (form_record_fields env f data notif Hv Hr)
    as (t & wd & Ht & Hwd & Hrep & Htime & _ & _ & Hlast & Hcw & _).
  exists t, wd. split; [exact Ht |]. split; [exact Hwd |].
  destruct (strptime_hm_shape _ _ Ht) as (_ & _ & _ & _ & _ & Hh & Hm).
  rewrite should_fire_weekly_reads
    by (rewrite (get_of_lookup _ _ _ _ Hrep), Hd; reflexivity).
  rewrite (get_of_lookup _ _ _ _ Htime), (get_of_lookup _ _ _ _ Hlast),
    (get_of_lookup _ _ _ _ Hcw).
  cbn [py_int bind eq_str negb]. rewrite andb_true_r.
  now rewrite stored_time_matches, andb_assoc.
Qed.

Lemma form_record_once (env : form_env) (f : form_vars) (data notif : dict)
    (now tnow : datetime) :
  snd (validation f) = Some data -> form_record env f data notif ->
  repeat_var f = "Once" ->
  exists t d,
    strptime_hm (strip (time_var f)) = Ret t
    /\ strptime_date (strip (date_var f)) = Ret d
    /\ _should_fire now tnow notif
       = Ret (if hour_24 (ampm_var f) (hour t) <=? 23
              then String.eqb (strftime_minute now)
                     (strftime_minute
                        (mk_datetime (year d) (month d) (day d)
                           (hour_24 (ampm_var f) (hour t)) (minute t) 0))
              else false).
Proof.
  intros Hv Hr Ho.
  destruct (form_record_fields env f data notif Hv Hr)
    as (t & wd & Ht & _ & Hrep & Htime & Hdate & _ & _ & _ & Hdel).
  pose proof (validation_some _ _ Hv) as (t' & Ht' & _ & _ & _ & Honce & Hdt).
  specialize (Honce Ho). destruct (Hdt Honce) as [d Hd].
  exists t, d. split; [exact Ht |]. split; [exact Hd |].
  destruct (strptime_hm_shape _ _ Ht) as (_ & _ & _ & _ & _ & Hh & Hm).
  pose proof (hour_24_range (ampm_var f) (hour t) Hh) as Hh24.
  rewrite should_fire_once
    by (rewrite (get_of_lookup _ _ _ _ Hrep), Ho; reflexivity).
  unfold due_text.
  rewrite (get_of_lookup _ _ _ _ (Hdel Ho)), (get_of_lookup _ _ _ _ Hdate),
    (get_of_lookup _ _ _ _ Htime).
  cbn [truthy py_str]. fold (nonempty (strip (date_var f))). rewrite Honce. cbn [negb].
  rewrite time_24_fixed by assumption.
  destruct (Z.leb_spec (hour_24 (ampm_var f) (hour t)) 23) as [Hle | Hgt].
  - now rewrite (strptime_minute_form _ d) by (assumption || lia).
  - now rewrite strptime_minute_late by lia.
Qed.

Lemma accepted_validation (f : form_vars) (for_update : bool) (data : dict) :
  snd (_validate_inputs f for_update) = Ret (Some data) ->
  snd (validation f) = Some data.
Proof. rewrite validate_inputs_validation. cbn [snd]. congruence. Qed.

Lemma bool_cases (b : bool) : Ret b = Ret true \/ Ret b = Ret false.
Proof. destruct b; auto. Qed.

(** X4. A Daily record that [create_notification] or [update_notification]
    builds from an accepted form is due exactly when the clock shows the
    hour [hour_24] gives for the entered hour and AM or PM, and the entered
    minute; [_should_fire] returns a boolean at every instant. *)
Theorem form_daily_due (env : form_env) (f : form_vars) (for_update : bool)
    (data notif : dict) (now tnow : datetime) :
  snd (_validate_inputs f for_update) = Ret (Some data) ->
  form_record env f data notif ->
  repeat_var f = "Daily" ->
  valid_datetime tnow = true ->
  exists t,
    strptime_hm (strip (time_var f)) = Ret t
    /\ (_should_fire now tnow notif = Ret true
        <-> hour tnow = hour_24 (ampm_var f) (hour t) /\ minute tnow = minute t)
    /\ (_should_fire now tnow notif = Ret true \/ _should_fire now tnow notif = Ret false).
Proof.
  intros Hv Hr Hd Hnow. apply accepted_validation in Hv.
  destruct (form_record_daily env f data notif now tnow Hv Hr Hd Hnow) as (t & Ht & ->).
  exists t. split; [exact Ht |]. split; [| apply bool_cases].
  split.
  - intros H. injection H as H. apply andb_prop in H as [H1 H2].
    apply Z.eqb_eq in H1, H2. auto.
  - intros [H1 H2]. rewrite H1, H2, !Z.eqb_refl. reflexivity.
Qed.

(** X5. A Weekly record built from an accepted form is due exactly on the
    weekday of the entered date, or of the day it was built when no date
    was entered, when the clock shows the stored hour and minute. *)
Theorem form_weekly_due (env : form_env) (f : form_vars) (for_update : bool)
    (data notif : dict) (now tnow : datetime) :
  snd (_validate_inputs f for_update) = Ret (Some data) ->
  form_record env f data notif ->
  repeat_var f = "Weekly" ->
  valid_datetime tnow = true ->
  exists t anchor,
    strptime_hm (strip (time_var f)) = Ret t
    /\ (strip (date_var f) = "" -> anchor = weekday (now_form env))
    /\ (strip (date_var f) <> "" ->
        exists d, strptime_date (strip (date_var f)) = Ret d /\ anchor = weekday d)
    /\ (_should_fire now tnow notif = Ret true
        <-> weekday now = anchor
            /\ hour tnow = hour_24 (ampm_var f) (hour t) /\ minute tnow = minute t).
Proof.
  intros Hv Hr Hd Hnow. apply accepted_validation in Hv.
  destruct (form_record_weekly env f data notif now tnow Hv Hr Hd Hnow)
    as (t & wd & Ht & Hwd & ->).
  exists t, wd. split; [exact Ht |].
  rewrite weekday_anchor_form in Hwd. unfold nonempty in Hwd.
  split; [| split].
  - intros He. rewrite He in Hwd. cbn in Hwd. congruence.
  - intros Hne. apply String.eqb_neq in Hne. rewrite Hne in Hwd. cbn [negb] in Hwd.
    destruct (strptime_date (strip (date_var f))) as [d |]; [| discriminate].
    exists d. split; [reflexivity |]. cbn [bind] in Hwd. congruence.
  - split.
    + intros H. injection H as H. apply andb_prop in H as [H0 H].
      apply andb_prop in H as [H1 H2]. apply Z.eqb_eq in H0, H1, H2. auto.
    + intros (H0 & H1 & H2). rewrite H0, H1, H2, !Z.eqb_refl. reflexivity.
Qed.

(** X6. A Once record built from an accepted form is due exactly during
    the calendar minute of the entered date, at the hour [hour_24] gives
    for the entered hour and AM or PM, and the entered minute. *)
Theorem form_once_due (env : form_env) (f : form_vars) (for_update : bool)
    (data notif : dict) (now tnow : datetime) :
  snd (_validate_inputs f for_update) = Ret (Some data) ->
  form_record env f data notif ->
  repeat_var f = "Once" ->
  valid_datetime now = true ->
  exists t d,
    strptime_hm (strip (time_var f)) = Ret t
    /\ strptime_date (strip (date_var f)) = Ret d
    /\ (_should_fire now tnow notif = Ret true
        <-> minute_of now
            = (year d, month d, day d, hour_24 (ampm_var f) (hour t), minute t))
    /\ (_should_fire now tnow notif = Ret true \/ _should_fire now tnow notif = Ret false).
Proof.
  intros Hv Hr Ho Hnow. apply accepted_validation in Hv.
  destruct (form_record_once env f data notif now tnow Hv Hr Ho) as (t & d & Ht & Hd & ->).
  exists t, d. split; [exact Ht |]. split; [exact Hd |]. split; [| apply bool_cases].
  destruct (strptime_hm_shape _ _ Ht) as (_ & _ & _ & _ & _ & Hh & Hm).
  destruct (Z.leb_spec (hour_24 (ampm_var f) (hour t)) 23) as [Hle | Hgt].
  - pose proof (hour_24_range (ampm_var f) (hour t) Hh) as Hh24.
    pose proof (form_due_valid _ d (hour_24 (ampm_var f) (hour t)) (minute t) Hd
                  ltac:(lia) Hm) as Hdue.
    split.
    + intros H. injection H as H. now apply strftime_minute_eqb in H.
    + intros H. f_equal. now apply strftime_minute_eqb.
  - split; [discriminate |].
    intros H. apply valid_datetime_ranges in Hnow as (_ & _ & _ & Hhn & _).
    unfold minute_of in H. injection H as _ _ _ H _. lia.
Qed.

(** X7. Choosing PM for an entered hour from 13 to 23 is accepted, and the
    stored hour is the entered hour plus 12, beyond 23; a record built from
    such a form is never due, whatever its repeat mode. *)
Theorem pm_past_noon_never_due (env : form_env) (f : form_vars) (for_update : bool)
    (data notif : dict) (t now tnow : datetime) :
  snd (_validate_inputs f for_update) = Ret (Some data) ->
  form_record env f data notif ->
  strptime_hm (strip (time_var f)) = Ret t ->
  ampm_var f = "PM" -> 13 <= hour t ->
  valid_datetime tnow = true ->
  get notif "time" VNone
  = VStr (fixed_digits 2 (hour t + 12) ++ ":" ++ fixed_digits 2 (minute t))
  /\ 25 <= hour t + 12
  /\ _should_fire now tnow notif = Ret false.
Proof.
  intros Hv Hr Ht Hpm Hlate Hnow. apply accepted_validation in Hv.
  destruct (strptime_hm_shape _ _ Ht) as (_ & _ & _ & _ & _ & Hh & Hm).
  assert (hour_24 (ampm_var f) (hour t) = hour t + 12) as H24.
  { unfold hour_24. rewrite Hpm. cbn.
    destruct (Z.eqb_spec (hour t) 12); [lia | reflexivity]. }
  apply valid_datetime_ranges in Hnow as Hrange. destruct Hrange as (_ & _ & _ & Hhn & _).
  split; [| split; [lia |]].
  - destruct (form_record_fields env f data notif Hv Hr)
      as (t' & wd & Ht' & _ & _ & Htime & _).
    assert (t' = t) as -> by congruence.
    rewrite (get_of_lookup _ _ _ _ Htime), time_24_fixed, H24 by assumption.
    reflexivity.
  - destruct (String.eqb_spec (repeat_var f) "Once") as [Ho | Ho].
    { destruct (form_record_once env f data notif now tnow Hv Hr Ho)
        as (t' & d & Ht' & _ & ->).
      assert (t' = t) as -> by congruence. rewrite H24.
      destruct (Z.leb_spec (hour t + 12) 23); [lia | reflexivity]. }
    destruct (String.eqb_spec (repeat_var f) "Daily") as [Hd | Hd].
    { destruct (form_record_daily env f data notif now tnow Hv Hr Hd Hnow)
        as (t' & Ht' & ->).
      assert (t' = t) as -> by congruence. rewrite H24.
      destruct (Z.eqb_spec (hour t + 12) (hour tnow)); [lia | reflexivity]. }
    destruct (String.eqb_spec (repeat_var f) "Weekly") as [Hw | Hw].
    { destruct (form_record_weekly env f data notif now tnow Hv Hr Hw Hnow)
        as (t' & wd & Ht' & _ & ->).
      assert (t' = t) as -> by congruence. rewrite H24.
      destruct (Z.eqb_spec (hour t + 12) (hour tnow)); [lia |].
      now rewrite andb_false_r. }
    destruct (form_record_fields env f data notif Hv Hr)
      as (t' & wd & _ & _ & Hrep & _).
    unfold _should_fire. rewrite (get_of_lookup _ _ _ _ Hrep). cbn [eq_str].
    apply String.eqb_neq in Ho, Hd, Hw. now rewrite Ho, Hd, Hw.
Qed.

(** X8. [_should_fire] never raises on a record built from an accepted
    form: the weekday anchor it stores is an [int]. *)
Theorem form_record_should_fire_returns (env : form_env) (f : form_vars)
    (for_update : bool) (data notif : dict) (now tnow : datetime) :
  snd (_validate_inputs f for_update) = Ret (Some data) ->
  form_record env f data notif ->
  exists b : bool, _should_fire now tnow notif = Ret b.
Proof.
  intros Hv Hr. apply accepted_validation in Hv.
  destruct (form_record_fields env f data notif Hv Hr)
    as (t & wd & _ & _ & _ & _ & _ & _ & _ & Hcw & _).
  apply should_fire_returns. intros _. exists wd.
  now rewrite (get_of_lookup _ _ _ _ Hcw).
Qed.

(* ===================================================================== *)
(** * The time shown by [item_selected] *)
(* ===================================================================== *)

Lemma rstrip_idempotent (s : string) :
  rstrip_of is_space (rstrip_of is_space s) = rstrip_of is_space s.
Proof.
  induction s as [| c s IH]; [reflexivity |]. cbn [rstrip_of].
  destruct (rstrip_of is_space s) as [| c' r] eqn:E.
  - destruct (is_space c) eqn:Ec; [reflexivity |]. cbn [rstrip_of]. now rewrite Ec.
  - cbn [rstrip_of]. cbn [rstrip_of] in IH. now rewrite IH.
Qed.

Lemma lstrip_fixed (s : string) :
  match s with String c _ => is_space c = false | EmptyString => True end ->
  lstrip_of is_space s = s.
Proof. destruct s as [| c s]; intros H; [reflexivity |]. cbn. now rewrite H. Qed.

Lemma lstrip_head (s : string) :
  match lstrip_of is_space s with
  | String c _ => is_space c = false
  | EmptyString => True
  end.
Proof.
  induction s as [| c s IH]; [exact I |]. cbn [lstrip_of].
  destruct (is_space c) eqn:E; [exact IH | exact E].
Qed.

Lemma rstrip_head (s : string) :
  match s with String c _ => is_space c = false | EmptyString => True end ->
  match rstrip_of is_space s with
  | String c _ => is_space c = false
  | EmptyString => True
  end.
Proof.
  destruct s as [| c s]; intros H; [exact I |]. cbn [rstrip_of].
  destruct (rstrip_of is_space s); [rewrite H |]; exact H.
Qed.

(** [strip] leaves a stripped text as it is. *)
Lemma strip_idempotent (s : string) : strip (strip s) = strip s.
Proof.
  unfold strip.
  rewrite (lstrip_fixed (rstrip_of is_space (lstrip_of is_space s)))
    by apply rstrip_head, lstrip_head.
  apply rstrip_idempotent.
Qed.

Lemma strip_time_text (h m : Z) :
  strip (fixed_digits 2 h ++ ":" ++ fixed_digits 2 m)
  = fixed_digits 2 h ++ ":" ++ fixed_digits 2 m.
Proof.
  pose proof (Z.mod_pos_bound (h / 10) 10 ltac:(lia)).
  pose proof (Z.mod_pos_bound (m / 10) 10 ltac:(lia)).
  pose proof (Z.mod_pos_bound m 10 ltac:(lia)).
  unfold strip. rewrite lstrip_fixed by (apply digit_char_no_space; lia).
  cbn [fixed_digits append rstrip_of].
  rewrite (digit_char_no_space (m mod 10)) by lia. reflexivity.
Qed.

Lemma strptime_hm_fixed (h m : Z) :
  0 <= h <= 23 -> 0 <= m <= 59 ->
  strptime_hm (fixed_digits 2 h ++ ":" ++ fixed_digits 2 m)
  = Ret (mk_datetime 1900 1 1 h m 0).
Proof.
  intros Hh Hm.
  assert (first_match re_hm_format
            (fixed_digits 2 h ++ String ":"%char (fixed_digits 2 m ++ ""))
            (mk_datetime 1900 1 1 h m 0, "")) as [l Hl].
  { unfold re_hm_format.
    eapply first_bind; [apply first_re_H; lia |].
    eapply first_bind; [apply first_lit |].
    eapply first_bind; [apply first_re_M; lia |].
    apply first_ret. }
  rewrite append_nil_r in Hl. unfold strptime_hm.
  change (fixed_digits 2 h ++ ":" ++ fixed_digits 2 m)
    with (fixed_digits 2 h ++ String ":"%char (fixed_digits 2 m)).
  now rewrite Hl.
Qed.

(** What [item_selected] shows for a stored time of two digits, a colon and
    two digits. *)
Lemma display_time_fixed (h m : Z) :
  0 <= h <= 99 -> 0 <= m <= 99 ->
  display_time (fixed_digits 2 h ++ ":" ++ fixed_digits 2 m)
  = (format_02d (if h mod 12 =? 0 then 12 else h mod 12) ++ ":" ++ format_02d m,
     if h <? 12 then "AM" else "PM").
Proof.
  intros Hh Hm. unfold display_time.
  change (fixed_digits 2 h ++ ":" ++ fixed_digits 2 m)
    with (fixed_digits 2 h ++ String ":"%char (fixed_digits 2 m)).
  rewrite (split_colon_digit_text _ _ h m) by (apply digit_text_fixed_2; lia).
  cbn [unpack2 bind fst snd].
  rewrite (int_of_str_digit_text _ h), (int_of_str_digit_text _ m)
    by (apply digit_text_fixed_2; lia).
  reflexivity.
Qed.

Lemma hour_12_range (h : Z) :
  1 <= (if h mod 12 =? 0 then 12 else h mod 12) <= 12.
Proof.
  pose proof (Z.mod_pos_bound h 12 ltac:(lia)).
  destruct (Z.eqb_spec (h mod 12) 0); lia.
Qed.

(** The hour of the 12-hour clock and AM or PM that [item_selected] shows
    for an hour of the day give that hour back in [_validate_inputs]. *)
Lemma hour_24_of_shown (h : Z) :
  0 <= h <= 23 ->
  hour_24 (if h <? 12 then "AM" else "PM") (if h mod 12 =? 0 then 12 else h mod 12) = h.
Proof.
  apply (range_cases
           (fun h => hour_24 (if h <? 12 then "AM" else "PM")
                       (if h mod 12 =? 0 then 12 else h mod 12) = h) 23 0).
  intros i Hi. do 24 (destruct i as [| i]; [reflexivity |]). lia.
Qed.

(** The hour [_validate_inputs] stores for an hour of the 12-hour clock is
    shown by [item_selected] as that hour, with the same AM or PM. *)
Lemma shown_of_hour_24 (amp : string) (h : Z) :
  1 <= h <= 12 -> amp = "AM" \/ amp = "PM" ->
  0 <= hour_24 amp h <= 23
  /\ (if hour_24 amp h mod 12 =? 0 then 12 else hour_24 amp h mod 12) = h
  /\ (if hour_24 amp h <? 12 then "AM" else "PM") = amp.
Proof.
  intros Hh Hamp. revert h Hh.
  apply (range_cases
           (fun h => 0 <= hour_24 amp h <= 23
                     /\ (if hour_24 amp h mod 12 =? 0 then 12 else hour_24 amp h mod 12) = h
                     /\ (if hour_24 amp h <? 12 then "AM" else "PM") = amp) 11 1).
  intros i Hi.
  destruct Hamp as [-> | ->];
    do 12 (destruct i as [| i]; [cbn; repeat split; (lia || reflexivity) |]); lia.
Qed.

Lemma form_record_shown (env : form_env) (f : form_vars) (data notif : dict) :
  snd (validation f) = Some data -> form_record env f data notif ->
  dict_lookup "title" notif = Some (VStr (strip (title_var f)))
  /\ dict_lookup "message" notif = Some (VStr (strip (message_var f)))
  /\ dict_lookup "priority" notif = Some (VStr (priority_var f)).
Proof.
  intros Hv [Hn | [old Hu]].
  - destruct (new_notification_form env f data Hv) as (t & wd & Ht & -> & Hwd & Hn').
    rewrite Hn' in Hn. injection Hn as <-. repeat split.
  - destruct (updated_notification_form env f data old Hv) as (t & wd & Ht & -> & Hwd & Hu').
    match type of Hu' with _ = Ret ?d => assert (notif = d) as -> by congruence end.
    repeat split; rewrite dict_lookup_update by reflexivity; reflexivity.
Qed.

Lemma validation_some_checks (f : form_vars) (data : dict) :
  snd (validation f) = Some data ->
  String.eqb (repeat_var f) "Once" && negb (nonempty (strip (date_var f))) = false
  /\ nonempty (strip (date_var f)) && raises (strptime_date (strip (date_var f))) = false.
Proof.
  unfold validation.
  destruct (negb (forallb nonempty _)); [intros H; discriminate H |].
  destruct (strptime_hm (strip (time_var f))) as [t | e]; [| intros H; discriminate H].
  destruct (String.eqb (repeat_var f) "Once" && negb (nonempty (strip (date_var f))));
    [intros H; discriminate H |].
  destruct (nonempty (strip (date_var f)) && raises (strptime_date (strip (date_var f))));
    [intros H; discriminate H |].
  auto.
Qed.

(** The form [item_selected] fills in for a record built from the form. *)
Lemma select_record_form (env env' : form_env) (f : form_vars) (data notif : dict) :
  snd (validation f) = Some data -> form_record env f data notif ->
  exists t path label,
    strptime_hm (strip (time_var f)) = Ret t
    /\ select_record env' notif
       = Some (mk_form_vars (strip (title_var f)) (strip (message_var f))
                 (strip (date_var f))
                 (fst (display_time (time_24 (ampm_var f) t)))
                 (snd (display_time (time_24 (ampm_var f) t)))
                 (repeat_var f) (priority_var f) path label).
Proof.
  intros Hv Hr.
  destruct (form_record_fields env f data notif Hv Hr)
    as (t & wd & Ht & _ & Hrep & Htime & Hdate & _).
  destruct (form_record_shown env f data notif Hv Hr) as (Htitle & Hmsg & Hprio).
  exists t. unfold select_record.
  rewrite (get_of_lookup _ _ _ _ Hrep), (get_of_lookup _ _ _ _ Htime),
    (get_of_lookup _ _ _ _ Hdate), (get_of_lookup _ _ _ _ Htitle),
    (get_of_lookup _ _ _ _ Hmsg), (get_of_lookup _ _ _ _ Hprio).
  cbn [shown_text].
  destruct (display_time (time_24 (ampm_var f) t)) as [time_12 amp].
  destruct (truthy (get notif "image" VNone)); [destruct (temp_image_result env') |];
    do 2 eexists; (split; [exact Ht | reflexivity]).
Qed.

Lemma item_selected_at (env : form_env) (index : nat) (st : app_state)
    (notif : dict) (f : form_vars) :
  nth_error (app_notifications st) index = Some notif ->
  select_record env notif = Some f ->
  item_selected env (Some index) st
  = Ret (Some (mk_app_state (app_notifications st) f (app_tree st) (app_disk st))).
Proof.
  intros Hn Hs. unfold item_selected, list_getitem. rewrite Hn. cbn [bind].
  now rewrite Hs.
Qed.

(** X9. Selecting a record built from an accepted form whose hour was
    entered on the 12-hour clock, from 1 to 12 with AM or PM, fills the
    form with the entered values: the stripped title, message and date,
    the entered hour and minute written with two digits each, and the same
    AM or PM, repeat mode and priority. *)
Theorem item_selected_shows_entered (env env' : form_env) (f : form_vars)
    (for_update : bool) (data notif : dict) (t : datetime)
    (index : nat) (st : app_state) :
  snd (_validate_inputs f for_update) = Ret (Some data) ->
  form_record env f data notif ->
  strptime_hm (strip (time_var f)) = Ret t ->
  1 <= hour t <= 12 -> ampm_var f = "AM" \/ ampm_var f = "PM" ->
  nth_error (app_notifications st) index = Some notif ->
  exists st',
    item_selected env' (Some index) st = Ret (Some st')
    /\ app_notifications st' = app_notifications st
    /\ title_var (app_form st') = strip (title_var f)
    /\ message_var (app_form st') = strip (message_var f)
    /\ date_var (app_form st') = strip (date_var f)
    /\ time_var (app_form st')
       = fixed_digits 2 (hour t) ++ ":" ++ fixed_digits 2 (minute t)
    /\ ampm_var (app_form st') = ampm_var f
    /\ repeat_var (app_form st') = repeat_var f
    /\ priority_var (app_form st') = priority_var f.
Proof.
  intros Hv Hr Ht Hh Hamp Hn. apply accepted_validation in Hv.
  destruct (select_record_form env env' f data notif Hv Hr)
    as (t' & path & label & Ht' & Hs).
  assert (t' = t) as -> by congruence.
  eexists. split; [exact (item_selected_at env' index st notif _ Hn Hs) |].
  cbn [app_notifications app_form title_var message_var date_var time_var ampm_var
       repeat_var priority_var].
  destruct (strptime_hm_shape _ _ Ht) as (_ & _ & _ & _ & _ & Hh' & Hm).
  destruct (shown_of_hour_24 (ampm_var f) (hour t) Hh Hamp) as (H24 & H12 & Hpm).
  rewrite time_24_fixed, display_time_fixed by lia. cbn [fst snd].
  rewrite H12, Hpm, !format_02d_fixed by lia.
  repeat split.
Qed.

(** X10. Selecting a record built from an accepted form whose stored hour
    is an hour of the day fills the form with values [_validate_inputs]
    accepts, and the data it returns are the data the record was built
    from: an update right after the selection stores the same title,
    message, date, time, repeat mode and priority. *)
Theorem item_selected_then_validate (env env' : form_env) (f : form_vars)
    (for_update for_update' : bool) (data notif : dict) (t : datetime)
    (index : nat) (st : app_state) :
  snd (_validate_inputs f for_update) = Ret (Some data) ->
  form_record env f data notif ->
  strptime_hm (strip (time_var f)) = Ret t ->
  hour_24 (ampm_var f) (hour t) <= 23 ->
  nth_error (app_notifications st) index = Some notif ->
  exists st',
    item_selected env' (Some index) st = Ret (Some st')
    /\ _validate_inputs (app_form st') for_update' = ([], Ret (Some data)).
Proof.
  intros Hv Hr Ht H23 Hn. apply accepted_validation in Hv.
  destruct (select_record_form env env' f data notif Hv Hr)
    as (t' & path & label & Ht' & Hs).
  assert (t' = t) as -> by congruence.
  eexists. split; [exact (item_selected_at env' index st notif _ Hn Hs) |].
  cbn [app_form].
  destruct (strptime_hm_shape _ _ Ht) as (_ & _ & _ & _ & _ & Hh & Hm).
  pose proof (hour_24_range (ampm_var f) (hour t) Hh) as Hh24.
  pose proof (hour_12_range (hour_24 (ampm_var f) (hour t))) as Hh12.
  pose proof (validation_some _ _ Hv) as (t' & Ht'' & Hdata & _ & Hreq & _).
  assert (t' = t) as -> by congruence.
  destruct (validation_some_checks _ _ Hv) as (Hc1 & Hc2).
  rewrite validate_inputs_validation.
  rewrite time_24_fixed, display_time_fixed by lia. cbn [fst snd].
  rewrite !format_02d_fixed by lia.
  unfold validation.
  cbn [title_var message_var date_var time_var ampm_var repeat_var priority_var].
  rewrite !strip_idempotent, strip_time_text, strptime_hm_fixed by lia.
  cbn [forallb] in Hreq |- *.
  apply andb_prop in Hreq as [R1 Hreq]. apply andb_prop in Hreq as [R2 Hreq].
  apply andb_prop in Hreq as [_ Hreq].
  rewrite R1, R2, Hreq. cbn [andb negb nonempty String.eqb].
  rewrite Hc1, Hc2. cbn [fst snd]. do 2 f_equal. f_equal.
  rewrite Hdata. unfold form_data.
  cbn [title_var message_var date_var time_var ampm_var repeat_var priority_var
       hour minute].
  now rewrite !strip_idempotent, hour_24_of_shown by lia.
Qed.

(** The form [item_selected] fills in from a record built from an accepted
    form is accepted again whenever the time it shows is an hour and a
    minute of two digits each. *)
Lemma validation_reselected (f : form_vars) (data : dict) (h m : Z) (amp : string)
    (path : option string) (label : string) :
  snd (validation f) = Some data -> 0 <= h <= 23 -> 0 <= m <= 59 ->
  validation
    (mk_form_vars (strip (title_var f)) (strip (message_var f)) (strip (date_var f))
       (fixed_digits 2 h ++ ":" ++ fixed_digits 2 m) amp
       (repeat_var f) (priority_var f) path label)
  = ([], Some [ ("title", VStr (strip (title_var f)));
                ("message", VStr (strip (message_var f)));
                ("date", VStr (strip (date_var f)));
                ("time", VStr (fixed_digits 2 (hour_24 amp h) ++ ":"
                               ++ fixed_digits 2 m));
                ("repeat", VStr (repeat_var f));
                ("priority", VStr (priority_var f)) ]).
Proof.
  intros Hv Hh Hm.
  pose proof (hour_24_range amp h Hh) as Hh24.
  pose proof (validation_some _ _ Hv) as (t & _ & _ & _ & Hreq & _).
  destruct (validation_some_checks _ _ Hv) as (Hc1 & Hc2).
  unfold validation.
  cbn [title_var message_var date_var time_var ampm_var repeat_var priority_var].
  rewrite !strip_idempotent, strip_time_text, strptime_hm_fixed by lia.
  cbn [forallb] in Hreq |- *.
  apply andb_prop in Hreq as [R1 Hreq]. apply andb_prop in Hreq as [R2 Hreq].
  apply andb_prop in Hreq as [_ Hreq].
  rewrite R1, R2, Hreq. cbn [andb negb nonempty String.eqb].
  rewrite Hc1, Hc2. unfold form_data.
  cbn [title_var message_var date_var time_var ampm_var repeat_var priority_var
       hour minute].
  now rewrite !strip_idempotent, !format_02d_fixed by lia.
Qed.

(** X11. A record that is never due because PM was chosen for an entered
    hour from 13 to 23 is repaired by selecting it and pressing Update:
    [item_selected] shows the entered hour less 12 with PM, and
    [_validate_inputs] turns that into the entered hour, an hour of the
    day. *)
Theorem item_selected_repairs_late_hour (env env' : form_env) (f : form_vars)
    (for_update for_update' : bool) (data notif : dict) (t : datetime)
    (index : nat) (st : app_state) :
  snd (_validate_inputs f for_update) = Ret (Some data) ->
  form_record env f data notif ->
  strptime_hm (strip (time_var f)) = Ret t ->
  ampm_var f = "PM" -> 13 <= hour t ->
  nth_error (app_notifications st) index = Some notif ->
  exists st' data',
    item_selected env' (Some index) st = Ret (Some st')
    /\ time_var (app_form st')
       = fixed_digits 2 (hour t - 12) ++ ":" ++ fixed_digits 2 (minute t)
    /\ ampm_var (app_form st') = "PM"
    /\ _validate_inputs (app_form st') for_update' = ([], Ret (Some data'))
    /\ get data' "time" VNone
       = VStr (fixed_digits 2 (hour t) ++ ":" ++ fixed_digits 2 (minute t))
    /\ (forall k, k <> "time" -> dict_lookup k data' = dict_lookup k data).
Proof.
  intros Hv Hr Ht Hpm Hlate Hn. apply accepted_validation in Hv.
  destruct (select_record_form env env' f data notif Hv Hr)
    as (t' & path & label & Ht' & Hs).
  assert (t' = t) as -> by congruence.
  destruct (strptime_hm_shape _ _ Ht) as (_ & _ & _ & _ & _ & Hh & Hm).
  assert (hour_24 (ampm_var f) (hour t) = hour t + 12) as H24.
  { unfold hour_24. rewrite Hpm. cbn.
    destruct (Z.eqb_spec (hour t) 12); [lia | reflexivity]. }
  assert ((hour t + 12) mod 12 = hour t - 12) as Hmod.
  { symmetry. apply (Z.mod_unique (hour t + 12) 12 2 (hour t - 12)); lia. }
  rewrite time_24_fixed, H24, display_time_fixed in Hs by lia.
  cbn [fst snd] in Hs. rewrite Hmod in Hs.
  replace (hour t - 12 =? 0) with false in Hs by (symmetry; apply Z.eqb_neq; lia).
  replace (hour t + 12 <? 12) with false in Hs by (symmetry; apply Z.ltb_ge; lia).
  rewrite !format_02d_fixed in Hs by lia.
  do 2 eexists. split; [exact (item_selected_at env' index st notif _ Hn Hs) |].
  cbn [app_form time_var ampm_var].
  split; [reflexivity |]. split; [reflexivity |].
  rewrite validate_inputs_validation,
    (validation_reselected f data (hour t - 12) (minute t) "PM" path label Hv)
    by lia.
  cbn [fst snd]. split; [reflexivity |].
  assert (hour_24 "PM" (hour t - 12) = hour t) as ->.
  { unfold hour_24. cbn. destruct (Z.eqb_spec (hour t - 12) 12); lia. }
  split; [reflexivity |].
  intros k Hk. pose proof (validation_some _ _ Hv) as (t' & Ht'' & -> & _).
  unfold form_data. cbn [dict_lookup].
  destruct (String.eqb "title" k); [reflexivity |].
  destruct (String.eqb "message" k); [reflexivity |].
  destruct (String.eqb "date" k); [reflexivity |].
  destruct (String.eqb_spec "time" k) as [E | _]; [now contradiction Hk |].
  reflexivity.
Qed.

(* ===================================================================== *)
(** * Entries the form accepts *)
(* ===================================================================== *)

Lemma rstrip_snoc (s : string) (c : ascii) :
  is_space c = false -> rstrip_of is_space (s ++ String c "") = s ++ String c "".
Proof.
  intros Hc. induction s as [| a s IH]; cbn [append rstrip_of].
  - now rewrite Hc.
  - rewrite IH. destruct s; reflexivity.
Qed.

Lemma strftime_date_layout (d : datetime) :
  valid_datetime d = true ->
  strftime_date d
  = fixed_digits 4 (year d)
    ++ String "-"%char (fixed_digits 2 (month d)
    ++ String "-"%char (fixed_digits 2 (day d) ++ "")).
Proof.
  intros Hv. apply valid_datetime_ranges in Hv as (Hy & Hm & Hd & _).
  pose proof (days_in_month_bounds (year d) (month d) Hm).
  unfold strftime_date. rewrite !zfill_fixed by (simpl; lia).
  now rewrite append_nil_r.
Qed.

Lemma strip_strftime_date (d : datetime) :
  valid_datetime d = true -> strip (strftime_date d) = strftime_date d.
Proof.
  intros Hv. rewrite strftime_date_layout by assumption.
  pose proof (Z.mod_pos_bound (year d / 10 / 10 / 10) 10 ltac:(lia)).
  pose proof (Z.mod_pos_bound (day d) 10 ltac:(lia)).
  unfold strip. rewrite lstrip_fixed by (apply digit_char_no_space; lia).
  cbn [fixed_digits append].
  change (String (digit_char (year d / 10 / 10 / 10 mod 10))
            (String (digit_char (year d / 10 / 10 mod 10))
               (String (digit_char (year d / 10 mod 10))
                  (String (digit_char (year d mod 10))
                     (String "-"%char
                        (String (digit_char (month d / 10 mod 10))
                           (String (digit_char (month d mod 10))
                              (String "-"%char
                                 (String (digit_char (day d / 10 mod 10))
                                    (String (digit_char (day d mod 10)) ""))))))))))
    with ((fixed_digits 4 (year d) ++ "-" ++ fixed_digits 2 (month d) ++ "-"
           ++ String (digit_char (day d / 10 mod 10)) "")
          ++ String (digit_char (day d mod 10)) "").
  apply rstrip_snoc, digit_char_no_space. lia.
Qed.

(** [strptime] with [%Y-%m-%d] reads the date [strftime] writes. *)
Lemma strptime_date_strftime (d : datetime) :
  valid_datetime d = true ->
  strptime_date (strftime_date d) = Ret (mk_datetime (year d) (month d) (day d) 0 0 0).
Proof.
  intros Hv. rewrite strftime_date_layout by assumption.
  pose proof (valid_datetime_ranges d Hv) as (Hy & Hm & Hd & _).
  pose proof (days_in_month_bounds (year d) (month d) Hm).
  assert (first_match re_date_format
            (fixed_digits 4 (year d)
             ++ String "-"%char (fixed_digits 2 (month d)
             ++ String "-"%char (fixed_digits 2 (day d) ++ "")))
            (mk_datetime (year d) (month d) (day d) 0 0 0, "")) as [l Hl].
  { unfold re_date_format.
    eapply first_bind; [apply first_re_Y; lia |].
    eapply first_bind; [apply first_lit |].
    eapply first_bind; [apply first_re_m; lia |].
    eapply first_bind; [apply first_lit |].
    eapply first_bind; [apply first_re_d; lia |].
    apply first_ret. }
  unfold strptime_date. rewrite Hl. cbn [year month day].
  replace (1 <=? year d) with true by (symmetry; apply Z.leb_le; lia).
  replace (day d <=? _days_in_month (year d) (month d)) with true
    by (symmetry; apply Z.leb_le; lia).
  reflexivity.
Qed.

Lemma strftime_date_nonempty (d : datetime) :
  valid_datetime d = true -> nonempty (strftime_date d) = true.
Proof. intros Hv. rewrite strftime_date_layout by assumption. reflexivity. Qed.

(** X12. [_validate_inputs] accepts every form with a title, a message, a
    repeat mode and a priority that are not blank, a time written as two
    digits, a colon and two digits with the hour below 24 and the minute
    below 60, and a date that is the text [strftime] writes for a day that
    exists, or empty when the repeat mode is not Once; no box is shown, and
    the data hold the stripped title and message, the date, and the time
    with the hour [hour_24] gives. *)
Theorem validate_inputs_accepts_standard (f : form_vars) (for_update : bool)
    (h m : Z) :
  strip (title_var f) <> "" -> strip (message_var f) <> "" ->
  repeat_var f <> "" -> priority_var f <> "" ->
  time_var f = fixed_digits 2 h ++ ":" ++ fixed_digits 2 m ->
  0 <= h <= 23 -> 0 <= m <= 59 ->
  (date_var f = "" /\ repeat_var f <> "Once")
  \/ (exists d, valid_datetime d = true /\ date_var f = strftime_date d) ->
  _validate_inputs f for_update
  = ([], Ret (Some [ ("title", VStr (strip (title_var f)));
                     ("message", VStr (strip (message_var f)));
                     ("date", VStr (date_var f));
                     ("time", VStr (fixed_digits 2 (hour_24 (ampm_var f) h) ++ ":"
                                    ++ fixed_digits 2 m));
                     ("repeat", VStr (repeat_var f));
                     ("priority", VStr (priority_var f)) ])).
Proof.
  intros Htitle Hmsg Hrep Hprio Htime Hh Hm Hdate.
  pose proof (hour_24_range (ampm_var f) h Hh) as Hh24.
  rewrite validate_inputs_validation.
  assert (strip (date_var f) = date_var f
          /\ String.eqb (repeat_var f) "Once" && negb (nonempty (strip (date_var f)))
             = false
          /\ nonempty (strip (date_var f))
             && raises (strptime_date (strip (date_var f))) = false) as (Hs & C1 & C2).
  { destruct Hdate as [[Hd Ho] | (d & Hv & Hd)]; rewrite Hd.
    - apply String.eqb_neq in Ho. rewrite Ho. repeat split.
    - rewrite strip_strftime_date, strftime_date_nonempty, strptime_date_strftime
        by assumption.
      rewrite andb_false_r. repeat split. }
  assert (validation f
          = ([], Some (form_data f (mk_datetime 1900 1 1 h m 0)))) as ->.
  { unfold validation.
    rewrite Htime, strip_time_text, strptime_hm_fixed by assumption.
    apply String.eqb_neq in Htitle, Hmsg, Hrep, Hprio.
    cbn [forallb]. unfold nonempty at 1 2 3 4 5.
    rewrite Htitle, Hmsg, Hrep, Hprio.
    change (String.eqb (fixed_digits 2 h ++ ":" ++ fixed_digits 2 m) "") with false.
    cbn [negb andb]. now rewrite C1, C2. }
  cbn [fst snd]. unfold form_data. rewrite Hs. cbn [hour minute].
  now rewrite !format_02d_fixed by lia.
Qed.

Lemma digit_char_val (c : ascii) : is_digit c = true -> digit_char (digit_val c) = c.
Proof.
  destruct c as [[|] [|] [|] [|] [|] [|] [|] [|]]; intros H;
    try (vm_compute in H; discriminate H); reflexivity.
Qed.

Lemma two_digits_fixed (c1 c2 : ascii) (s : string) :
  is_digit c1 = true -> is_digit c2 = true ->
  String c1 (String c2 s) = fixed_digits 2 (10 * digit_val c1 + digit_val c2) ++ s.
Proof.
  intros H1 H2. rewrite fixed_digits_2.
  pose proof (digit_val_range c1 H1) as R1. pose proof (digit_val_range c2 H2) as R2.
  rewrite <- (digit_char_val c1 H1) at 1. rewrite <- (digit_char_val c2 H2) at 1.
  set (a := digit_val c1) in *. set (b := digit_val c2) in *.
  replace ((10 * a + b) / 10) with a
    by (apply (Z.div_unique (10 * a + b) 10 a b); lia).
  replace ((10 * a + b) mod 10) with b
    by (apply (Z.mod_unique (10 * a + b) 10 a b); lia).
  now rewrite (Z.mod_small a) by lia.
Qed.

Lemma first_re_H_one (h : Z) (s : string) :
  0 <= h <= 9 ->
  first_match re_H (String (digit_char h) (String ":"%char s)) (h, String ":"%char s).
Proof.
  apply (range_cases
           (fun h => first_match re_H (String (digit_char h) (String ":"%char s))
                       (h, String ":"%char s)) 9 0).
  intros i Hi. do 10 (destruct i as [| i]; [eexists; reflexivity |]). lia.
Qed.

Lemma first_re_M_one (m : Z) :
  0 <= m <= 9 -> first_match re_M (String (digit_char m) "") (m, "").
Proof.
  apply (range_cases (fun m => first_match re_M (String (digit_char m) "") (m, "")) 9 0).
  intros i Hi. do 10 (destruct i as [| i]; [eexists; reflexivity |]). lia.
Qed.

(** Every text of one or two digits, a colon and one or two digits, with
    the hour below 24 and the minute below 60, is a time [strptime] reads. *)
Lemma strptime_hm_digit_text (pH pM : string) (H M : Z) :
  digit_text pH H -> digit_text pM M -> 0 <= H <= 23 -> 0 <= M <= 59 ->
  strptime_hm (pH ++ String ":"%char pM) = Ret (mk_datetime 1900 1 1 H M 0).
Proof.
  intros HpH HpM HH HM.
  assert (first_match re_H (pH ++ String ":"%char pM) (H, String ":"%char pM)) as FH.
  { destruct HpH as [(c & -> & Hc & ->) | (c1 & c2 & -> & H1 & H2 & ->)].
    - pose proof (digit_val_range c Hc). cbn [append].
      rewrite <- (digit_char_val c Hc) at 1. now apply first_re_H_one.
    - cbn [append]. rewrite two_digits_fixed by assumption. now apply first_re_H. }
  assert (first_match re_M pM (M, "")) as FM.
  { destruct HpM as [(c & -> & Hc & ->) | (c1 & c2 & -> & H1 & H2 & ->)].
    - pose proof (digit_val_range c Hc).
      rewrite <- (digit_char_val c Hc) at 1. now apply first_re_M_one.
    - rewrite two_digits_fixed by assumption. now apply first_re_M. }
  assert (first_match re_hm_format (pH ++ String ":"%char pM)
            (mk_datetime 1900 1 1 H M 0, "")) as [l Hl].
  { unfold re_hm_format.
    eapply first_bind; [exact FH |].
    eapply first_bind; [apply first_lit |].
    eapply first_bind; [exact FM |].
    apply first_ret. }
  unfold strptime_hm. now rewrite Hl.
Qed.

(** X13. The times the form takes: when the title, the message, the time,
    the repeat mode and the priority are not blank, [_validate_inputs]
    shows the box Time must be HH:MM exactly when the stripped time is not
    one or two digits, a colon, and one or two digits that write an hour
    below 24 and a minute below 60. *)
Theorem validate_inputs_time_rule (f : form_vars) (for_update : bool) :
  forallb nonempty [ strip (title_var f); strip (message_var f); strip (time_var f);
                     repeat_var f; priority_var f ] = true ->
  (_validate_inputs f for_update
   = ([box_error "Validation" "Time must be HH:MM."], Ret None)
   <-> ~ exists pH pM H M,
           strip (time_var f) = pH ++ String ":"%char pM
           /\ digit_text pH H /\ digit_text pM M /\ 0 <= H <= 23 /\ 0 <= M <= 59).
Proof.
  intros Hreq. rewrite validate_inputs_validation. unfold validation.
  rewrite Hreq. cbn [negb].
  destruct (strptime_hm (strip (time_var f))) as [t | e] eqn:Et.
  - split.
    + intros H. exfalso.
      destruct (String.eqb (repeat_var f) "Once" && negb (nonempty (strip (date_var f))));
        [discriminate H |].
      destruct (nonempty (strip (date_var f))
                && raises (strptime_date (strip (date_var f)))); discriminate H.
    + intros H. exfalso. apply H.
      destruct (strptime_hm_shape _ _ Et) as (pH & pM & Htext & HpH & HpM & HH & HM).
      exists pH, pM, (hour t), (minute t). auto.
  - split; [| reflexivity].
    intros _ (pH & pM & H & M & Htext & HpH & HpM & HH & HM).
    rewrite Htext, (strptime_hm_digit_text pH pM H M) in Et by assumption.
    discriminate Et.
Qed.

(* ===================================================================== *)
(** * Update and delete *)
(* ===================================================================== *)

Lemma list_setitem_length {A : Type} (l : list A) (i : nat) (x : A) :
  (i < List.length l)%nat -> List.length (list_setitem l i x) = List.length l.
Proof.
  revert i. induction l as [| y l IH]; intros i Hi; [inversion Hi |].
  destruct i as [| i]; [reflexivity |].
  cbn [List.length] in Hi. unfold list_setitem in *. cbn [firstn skipn app List.length].
  f_equal. apply IH. now apply PeanoNat.lt_S_n.
Qed.

Lemma list_setitem_nth {A : Type} (l : list A) (i j : nat) (x : A) :
  (i < List.length l)%nat ->
  nth_error (list_setitem l i x) j = if (j =? i)%nat then Some x else nth_error l j.
Proof.
  revert i j. induction l as [| y l IH]; intros i j Hi; [inversion Hi |].
  cbn [List.length] in Hi. unfold list_setitem in *.
  destruct i as [| i]; destruct j as [| j]; try reflexivity.
  cbn [firstn skipn app nth_error Nat.eqb]. apply IH. now apply PeanoNat.lt_S_n.
Qed.

Lemma list_pop_length {A : Type} (l : list A) (i : nat) :
  (i < List.length l)%nat -> S (List.length (list_pop l i)) = List.length l.
Proof.
  revert i. induction l as [| y l IH]; intros i Hi; [inversion Hi |].
  destruct i as [| i]; [reflexivity |].
  cbn [List.length] in Hi. unfold list_pop in *. cbn [firstn skipn app List.length].
  f_equal. apply IH. now apply PeanoNat.lt_S_n.
Qed.

Lemma list_pop_nth {A : Type} (l : list A) (i j : nat) :
  nth_error (list_pop l i) j
  = if (j <? i)%nat then nth_error l j else nth_error l (S j).
Proof.
  revert i j. induction l as [| y l IH]; intros i j.
  - unfold list_pop. rewrite firstn_nil, skipn_nil. cbn [app].
    destruct (j <? i)%nat; destruct j; reflexivity.
  - unfold list_pop in *. destruct i as [| i]; [reflexivity |].
    destruct j as [| j]; [reflexivity |].
    cbn [firstn skipn app nth_error]. rewrite IH. reflexivity.
Qed.

Lemma list_getitem_nth {A : Type} (l : list A) (i : nat) :
  (i < List.length l)%nat -> exists x, nth_error l i = Some x /\ list_getitem l i = Ret x.
Proof.
  intros Hi. unfold list_getitem.
  destruct (nth_error l i) as [x |] eqn:E; [eauto |].
  apply nth_error_None in E. exfalso. apply (PeanoNat.Nat.lt_irrefl i).
  eapply PeanoNat.Nat.lt_le_trans; eassumption.
Qed.

Lemma update_notification_spec (env : form_env) (base_dir : string) (index : nat)
    (st : app_state) (old : dict) :
  nth_error (app_notifications st) index = Some old ->
  match snd (validation (app_form st)) with
  | None =>
      exists message,
        update_notification env base_dir (Some index) st
        = (st, ([box_error "Validation" message], Ret tt))
  | Some data =>
      exists notif ds,
        updated_notification env (app_form st) data old = Ret notif
        /\ update_notification env base_dir (Some index) st
           = (mk_app_state (list_setitem (app_notifications st) index notif)
                (clear_form (app_form st))
                (refresh_list (list_setitem (app_notifications st) index notif))
                (fst (save_notifications json_dumps (form_save env) base_dir
                        (VList (map VDict
                                  (list_setitem (app_notifications st) index notif)))
                        (app_disk st))),
              (map box_store ds, Ret tt))
        /\ (ds = [] \/ exists e, ds = [showerror "Save" e])
  end.
Proof.
  intros Hold. unfold update_notification. rewrite validate_inputs_validation.
  destruct (snd (validation (app_form st))) as [data |] eqn:E.
  - pose proof (validation_some _ _ E) as (_ & _ & _ & Hfst & _). rewrite Hfst.
    unfold list_getitem. rewrite Hold. cbn [bind].
    destruct (updated_notification_form env _ _ old E) as (t & wd & _ & _ & _ & Hn).
    rewrite Hn.
    match goal with
    | |- context [commit env base_dir st ?l] =>
        destruct (commit_spec env base_dir st l) as (ds & Hc & Hds); rewrite Hc
    end.
    eexists _, ds. split; [reflexivity |]. split; [reflexivity | exact Hds].
  - apply validation_none in E as (message & ->). eauto.
Qed.

Lemma delete_notification_spec (env : form_env) (base_dir : string) (index : nat)
    (st : app_state) :
  (index < List.length (app_notifications st))%nat ->
  askyesno_result env = true ->
  exists ds,
    delete_notification env base_dir (Some index) st
    = (mk_app_state (list_pop (app_notifications st) index)
         (clear_form (app_form st))
         (refresh_list (list_pop (app_notifications st) index))
         (fst (save_notifications json_dumps (form_save env) base_dir
                 (VList (map VDict (list_pop (app_notifications st) index)))
                 (app_disk st))),
       (box_askyesno "Confirm" "Delete selected notification?" :: map box_store ds,
        Ret tt))
    /\ (ds = [] \/ exists e, ds = [showerror "Save" e]).
Proof.
  intros Hi Hyes. unfold delete_notification. rewrite Hyes. cbn [negb].
  destruct (list_getitem_nth _ _ Hi) as (x & _ & ->).
  match goal with
  | |- context [commit env base_dir st ?l] =>
      destruct (commit_spec env base_dir st l) as (ds & Hc & Hds); rewrite Hc
  end.
  exists ds. split; [reflexivity | exact Hds].
Qed.

(** X14. [update_notification] on a selected line never raises. Either the
    form is rejected with one error box and nothing changes, or the record
    at the selected place is replaced by the record
    [updated_notification] builds from it, every other record keeps its
    place, the list keeps its length, the form is cleared and the tree
    shows the new list. *)
Theorem update_notification_in_place (env : form_env) (base_dir : string)
    (index : nat) (st : app_state) (old : dict) :
  nth_error (app_notifications st) index = Some old ->
  snd (snd (update_notification env base_dir (Some index) st)) = Ret tt
  /\ ((fst (update_notification env base_dir (Some index) st) = st
       /\ exists message,
            fst (snd (update_notification env base_dir (Some index) st))
            = [box_error "Validation" message])
      \/ (exists data notif,
            snd (_validate_inputs (app_form st) true) = Ret (Some data)
            /\ updated_notification env (app_form st) data old = Ret notif
            /\ nth_error
                 (app_notifications (fst (update_notification env base_dir (Some index) st)))
                 index = Some notif
            /\ (forall j, j <> index ->
                  nth_error
                    (app_notifications
                       (fst (update_notification env base_dir (Some index) st))) j
                  = nth_error (app_notifications st) j)
            /\ List.length
                 (app_notifications (fst (update_notification env base_dir (Some index) st)))
               = List.length (app_notifications st)
            /\ app_form (fst (update_notification env base_dir (Some index) st))
               = clear_form (app_form st)
            /\ in_sync (fst (update_notification env base_dir (Some index) st)))).
Proof.
  intros Hold.
  assert (index < List.length (app_notifications st))%nat as Hi
    by (apply nth_error_Some; congruence).
  pose proof (update_notification_spec env base_dir index st old Hold) as H.
  destruct (snd (validation (app_form st))) as [data |] eqn:E.
  - destruct H as (notif & ds & Hn & -> & Hds). cbn [fst snd].
    split; [reflexivity |]. right. exists data, notif.
    split; [rewrite validate_inputs_validation; cbn [snd]; now rewrite E |].
    split; [exact Hn |]. cbn [app_notifications app_form].
    split; [rewrite list_setitem_nth by exact Hi; now rewrite PeanoNat.Nat.eqb_refl |].
    split.
    { intros j Hj. rewrite list_setitem_nth by exact Hi.
      apply PeanoNat.Nat.eqb_neq in Hj. now rewrite Hj. }
    split; [now apply list_setitem_length |]. split; reflexivity.
  - destruct H as (message & ->). cbn [fst snd]. split; [reflexivity |].
    left. split; [reflexivity | eauto].
Qed.

Lemma not_in_existsb (k : string) (l : list string) :
  ~ In k l -> existsb (String.eqb k) l = false.
Proof.
  induction l as [| x l IH]; [reflexivity |]. intros H. cbn [existsb].
  apply orb_false_intro.
  - apply String.eqb_neq. intros ->. apply H. now left.
  - apply IH. intros Hin. apply H. now right.
Qed.

(** X15. The record [update_notification] leaves is the old record with the
    values of the form: a key the form does not write keeps its value,
    both fire memories are reset to [None], [delivered] is reset to false
    for a Once record and kept otherwise, and the image is kept unless a
    file is chosen and read. *)
Theorem updated_notification_merge (env : form_env) (f : form_vars)
    (for_update : bool) (data old notif : dict) :
  snd (_validate_inputs f for_update) = Ret (Some data) ->
  updated_notification env f data old = Ret notif ->
  (forall k,
      ~ In k [ "title"; "message"; "date"; "time"; "repeat"; "priority"; "image";
               "delivered"; "last_fired_date"; "last_fired_week"; "created_weekday" ] ->
      dict_lookup k notif = dict_lookup k old)
  /\ dict_lookup "last_fired_date" notif = Some VNone
  /\ dict_lookup "last_fired_week" notif = Some VNone
  /\ (repeat_var f = "Once" -> dict_lookup "delivered" notif = Some (VBool false))
  /\ (repeat_var f <> "Once" ->
      get notif "delivered" (VBool false) = get old "delivered" (VBool false))
  /\ (image_chosen env f = false \/ raises (read_image_result env) = true ->
      get notif "image" VNone = get old "image" VNone)
  /\ (forall text,
        image_chosen env f = true -> read_image_result env = Ret text ->
        get notif "image" VNone = VStr text).
Proof.
  intros Hv Hu. apply accepted_validation in Hv.
  destruct (updated_notification_form env f data old Hv) as (t & wd & Ht & -> & Hwd & Hu').
  match type of Hu' with _ = Ret ?d => assert (notif = d) as -> by congruence end.
  split.
  { intros k Hk. rewrite dict_lookup_update by reflexivity.
    rewrite dict_lookup_absent; [reflexivity |]. now apply not_in_existsb. }
  split; [rewrite dict_lookup_update by reflexivity; reflexivity |].
  split; [rewrite dict_lookup_update by reflexivity; reflexivity |].
  unfold get. rewrite !dict_lookup_update by reflexivity.
  cbn [form_data app dict_lookup String.eqb Ascii.eqb Bool.eqb].
  split; [intros Hr; now rewrite Hr |].
  split; [intros Hr; apply String.eqb_neq in Hr; now rewrite Hr |].
  unfold read_image. split.
  - intros [Hc | Hc]; [now rewrite Hc |].
    destruct (image_chosen env f); [| reflexivity].
    destruct (read_image_result env); [discriminate | reflexivity].
  - intros text Hc Hread. now rewrite Hc, Hread.
Qed.

(** X16. [delete_notification] on a selected line never raises. When the
    user declines, nothing changes; when the user confirms, the selected
    record is removed, the records before it keep their places, those
    after it move up by one, the form is cleared and the tree shows the
    new list. *)
Theorem delete_notification_effect (env : form_env) (base_dir : string)
    (index : nat) (st : app_state) :
  (index < List.length (app_notifications st))%nat ->
  snd (snd (delete_notification env base_dir (Some index) st)) = Ret tt
  /\ (askyesno_result env = false ->
      fst (delete_notification env base_dir (Some index) st) = st)
  /\ (askyesno_result env = true ->
      S (List.length
           (app_notifications (fst (delete_notification env base_dir (Some index) st))))
      = List.length (app_notifications st)
      /\ (forall j, (j < index)%nat ->
            nth_error
              (app_notifications (fst (delete_notification env base_dir (Some index) st))) j
            = nth_error (app_notifications st) j)
      /\ (forall j, (index <= j)%nat ->
            nth_error
              (app_notifications (fst (delete_notification env base_dir (Some index) st))) j
            = nth_error (app_notifications st) (S j))
      /\ app_form (fst (delete_notification env base_dir (Some index) st))
         = clear_form (app_form st)
      /\ in_sync (fst (delete_notification env base_dir (Some index) st))).
Proof.
  intros Hi. destruct (askyesno_result env) eqn:Hyes.
  - destruct (delete_notification_spec env base_dir index st Hi Hyes) as (ds & -> & _).
    cbn [fst snd app_notifications app_form].
    split; [reflexivity |]. split; [discriminate |]. intros _.
    split; [now apply list_pop_length |].
    split.
    { intros j Hj. rewrite list_pop_nth. apply PeanoNat.Nat.ltb_lt in Hj. now rewrite Hj. }
    split.
    { intros j Hj. rewrite list_pop_nth.
      apply PeanoNat.Nat.ltb_ge in Hj. now rewrite Hj. }
    split; reflexivity.
  - unfold delete_notification. rewrite Hyes. cbn [negb fst snd t_call].
    split; [reflexivity |]. split; [reflexivity | discriminate].
Qed.

(* ===================================================================== *)
(** * A session of the user *)
(* ===================================================================== *)

Lemma pick_within (line : nat) (tree : list row) (i : nat) :
  pick line tree = Some i -> (i < List.length tree)%nat.
Proof.
  unfold pick. destruct (line <? List.length tree)%nat eqn:E; [| discriminate].
  intros H. injection H as <-. now apply PeanoNat.Nat.ltb_lt.
Qed.

Lemma in_sync_length (st : app_state) :
  in_sync st -> List.length (app_tree st) = List.length (app_notifications st).
Proof. unfold in_sync, refresh_list. intros ->. apply length_map. Qed.

(** What pressing a button does: the list and the file stay as they
    are, or a new list is committed, which is the old one with a record
    appended, replaced or removed. *)
Lemma press_cases (b : button) (env : form_env) (base_dir : string) (line : nat)
    (st : app_state) :
  in_sync st ->
  (exists f tr,
      press b env base_dir (pick line (app_tree st)) st
      = (mk_app_state (app_notifications st) f (app_tree st) (app_disk st), (tr, Ret tt)))
  \/ (exists l tr,
        press b env base_dir (pick line (app_tree st)) st
        = (mk_app_state l (clear_form (app_form st)) (refresh_list l)
             (fst (save_notifications json_dumps (form_save env) base_dir
                     (VList (map VDict l)) (app_disk st))),
           (tr, Ret tt))
        /\ ((exists data notif,
               snd (validation (app_form st)) = Some data
               /\ new_notification env (app_form st) data = Ret notif
               /\ l = (app_notifications st ++ [notif])%list)
            \/ (exists i old data notif,
                  nth_error (app_notifications st) i = Some old
                  /\ snd (validation (app_form st)) = Some data
                  /\ updated_notification env (app_form st) data old = Ret notif
                  /\ l = list_setitem (app_notifications st) i notif)
            \/ (exists i, l = list_pop (app_notifications st) i))).
Proof.
  intros Hs.
  assert (forall tr, exists f tr',
            (st, (tr, Ret tt))
            = (mk_app_state (app_notifications st) f (app_tree st) (app_disk st),
               (tr' : list message_box, Ret tt))) as Hsame.
  { intros tr. exists (app_form st), tr. now destruct st. }
  destruct b; cbn [press].
  - pose proof (create_notification_spec env base_dir st) as H.
    destruct (snd (validation (app_form st))) as [data |].
    + destruct H as (notif & ds & Hn & -> & _). right. do 2 eexists.
      split; [reflexivity |]. left. eauto.
    + destruct H as (message & ->). left. apply Hsame.
  - destruct (pick line (app_tree st)) as [i |] eqn:Ep.
    2:{ left. apply Hsame. }
    apply pick_within in Ep. rewrite (in_sync_length st Hs) in Ep.
    destruct (list_getitem_nth _ _ Ep) as (old & Hold & _).
    pose proof (update_notification_spec env base_dir i st old Hold) as H.
    destruct (snd (validation (app_form st))) as [data |].
    + destruct H as (notif & ds & Hn & -> & _). right. do 2 eexists.
      split; [reflexivity |]. right. left. exists i, old, data, notif. auto.
    + destruct H as (message & ->). left. apply Hsame.
  - destruct (pick line (app_tree st)) as [i |] eqn:Ep.
    2:{ left. apply Hsame. }
    apply pick_within in Ep. rewrite (in_sync_length st Hs) in Ep.
    destruct (askyesno_result env) eqn:Hyes.
    + destruct (delete_notification_spec env base_dir i st Ep Hyes) as (ds & -> & _).
      right. do 2 eexists. split; [reflexivity |]. right. right. eauto.
    + unfold delete_notification. rewrite Hyes. left. apply Hsame.
  - left. do 2 eexists. reflexivity.
Qed.

(** X17. Starting with a tree that shows the list, no session of typing
    into the form and pressing Create, Update, Delete and Clear raises,
    whatever the platform answers, and the tree shows the list at its end:
    the index [update_notification] and [delete_notification] take from the
    tree is always an index of the list. *)
Theorem session_never_raises (base_dir : string) (actions : list action)
    (st : app_state) :
  in_sync st ->
  snd (snd (session base_dir actions st)) = Ret tt
  /\ in_sync (fst (session base_dir actions st)).
Proof.
  revert st. induction actions as [| [f | b env line] rest IH]; intros st Hs.
  - split; [reflexivity | exact Hs].
  - cbn [session]. apply IH. exact Hs.
  - cbn [session].
    destruct (press_cases b env base_dir line st Hs)
      as [(f & tr & ->) | (l & tr & -> & _)].
    + specialize (IH (mk_app_state (app_notifications st) f (app_tree st) (app_disk st)) Hs).
      destruct (session base_dir rest _) as [st'' [tr' r]]. exact IH.
    + match goal with
      | |- context [session base_dir rest ?s] =>
          specialize (IH s eq_refl); destruct (session base_dir rest s) as [st'' [tr' r]]
      end.
      exact IH.
Qed.

Lemma wf_dict_set (k : string) (v : value) (d : dict) :
  wf_value (VDict d) = true -> wf_value v = true ->
  wf_value (VDict (dict_set k v d)) = true.
Proof.
  intros Hd Hv. induction d as [| [k' v'] d IH]; [cbn; now rewrite Hv |].
  cbn [wf_value map fst distinct forallb] in Hd.
  apply andb_prop in Hd as [Hk Hd']. apply andb_prop in Hk as [Hk Hdist].
  apply andb_prop in Hd' as [Hv' Hall].
  assert (wf_value (VDict d) = true) as Hwd
    by (cbn [wf_value]; now rewrite Hdist, Hall).
  specialize (IH Hwd). cbn [wf_value] in IH. apply andb_prop in IH as [IH1 IH2].
  cbn [dict_set]. destruct (String.eqb k' k) eqn:E.
  - cbn [wf_value map fst distinct forallb]. now rewrite Hk, Hdist, Hv, Hall.
  - cbn [wf_value map fst distinct forallb]. rewrite IH1, IH2, Hv'.
    rewrite dict_set_keys.
    apply negb_true_iff in Hk.
    destruct (existsb (String.eqb k) (map fst d)).
    + now rewrite Hk.
    + rewrite existsb_app, Hk. cbn [existsb]. now rewrite E.
Qed.

Lemma wf_dict_update (pairs : list (string * value)) (d : dict) :
  wf_value (VDict d) = true ->
  forallb (fun kv : string * value => wf_value (snd kv)) pairs = true ->
  wf_value (VDict (dict_update d pairs)) = true.
Proof.
  revert d. induction pairs as [| [k v] ps IH]; intros d Hd Hp; [exact Hd |].
  cbn [forallb snd] in Hp. apply andb_prop in Hp as [Hv Hp].
  change (dict_update d ((k, v) :: ps)) with (dict_update (dict_set k v d) ps).
  apply IH; [now apply wf_dict_set | exact Hp].
Qed.

Lemma wf_read_image (env : form_env) (f : form_vars) (kept : value) :
  wf_value kept = true -> wf_value (read_image env f kept) = true.
Proof.
  intros H. destruct (read_image_kinds env f kept) as [-> | [text ->]];
    [exact H | reflexivity].
Qed.

Lemma wf_get (d : dict) (k : string) (default : value) :
  wf_value (VDict d) = true -> wf_value default = true ->
  wf_value (get d k default) = true.
Proof.
  intros Hd Hdef. unfold get. induction d as [| [k' v'] d IH]; [exact Hdef |].
  cbn [wf_value map fst distinct forallb] in Hd.
  apply andb_prop in Hd as [Hk Hd']. apply andb_prop in Hk as [Hk Hdist].
  apply andb_prop in Hd' as [Hv' Hall].
  cbn [dict_lookup]. destruct (String.eqb k' k); [exact Hv' |].
  apply IH. cbn [wf_value]. now rewrite Hdist, Hall.
Qed.

(** A record built from the form is a dict of Python when the record it
    updates is one. *)
Lemma wf_form_record (env : form_env) (f : form_vars) (data notif : dict) :
  snd (validation f) = Some data ->
  new_notification env f data = Ret notif
  \/ (exists old, wf_value (VDict old) = true
                  /\ updated_notification env f data old = Ret notif) ->
  wf_value (VDict notif) = true.
Proof.
  intros Hv [Hn | (old & Hold & Hu)].
  - destruct (new_notification_form env f data Hv) as (t & wd & _ & _ & _ & Hn').
    rewrite Hn' in Hn. injection Hn as <-.
    cbn. rewrite (wf_read_image env f VNone eq_refl). reflexivity.
  - destruct (updated_notification_form env f data old Hv) as (t & wd & _ & _ & _ & Hu').
    match type of Hu' with _ = Ret ?d => assert (notif = d) as -> by congruence end.
    apply wf_dict_update; [exact Hold |].
    cbn [form_data app forallb snd wf_value andb].
    rewrite wf_read_image by (now apply wf_get).
    destruct (String.eqb (repeat_var f) "Once"); [reflexivity |].
    now rewrite wf_get.
Qed.

Lemma wf_records_all (l : list dict) :
  wf_records l = true <-> forall d, In d l -> wf_value (VDict d) = true.
Proof.
  unfold wf_records.
  change (wf_value (VList (map VDict l))) with (forallb wf_value (map VDict l)).
  rewrite forallb_forall. split.
  - intros H d Hd. apply H. now apply in_map.
  - intros H v Hv. apply in_map_iff in Hv as (d & <- & Hd). now apply H.
Qed.

Lemma in_list_setitem {A : Type} (l : list A) (i : nat) (x y : A) :
  In y (list_setitem l i x) -> y = x \/ In y l.
Proof.
  unfold list_setitem. intros H. apply in_app_iff in H as [H | [H | H]].
  - right. rewrite <- (firstn_skipn i l). apply in_app_iff. now left.
  - now left.
  - right. rewrite <- (firstn_skipn (S i) l). apply in_app_iff. now right.
Qed.

Lemma in_list_pop {A : Type} (l : list A) (i : nat) (y : A) :
  In y (list_pop l i) -> In y l.
Proof.
  unfold list_pop. intros H. apply in_app_iff in H as [H | H].
  - rewrite <- (firstn_skipn i l). apply in_app_iff. now left.
  - rewrite <- (firstn_skipn (S i) l). apply in_app_iff. now right.
Qed.

(** After a save that goes through, the file holds the list saved. *)
Lemma saved_file_current (env : save_env) (base_dir : string) (l : list dict)
    (fs : filesystem) :
  wf_records l = true ->
  open_w_result env = Ret tt -> write_result env = Ret tt ->
  load_notifications json_loads base_dir
    (fst (save_notifications json_dumps env base_dir (VList (map VDict l)) fs))
  = ([], Ret (VList (map VDict l))).
Proof.
  intros Hwf Ho Hw. unfold save_notifications, json_dumps. cbv zeta.
  rewrite Ho. cbn [bind]. rewrite Hw. cbn [bind fst].
  unfold load_notifications, write_file. cbv zeta. cbv beta.
  rewrite String.eqb_refl.
  now rewrite (json_loads_dumps (VList (map VDict l)) _ Hwf eq_refl).
Qed.

(** X18. In a session in which every save goes through, the file holds the
    list at the end, as it did at the start: what [load_notifications]
    reads at the next start is the list the user left, record by record. *)
Theorem session_keeps_file_current (base_dir : string) (actions : list action)
    (st : app_state) :
  in_sync st -> wf_records (app_notifications st) = true ->
  file_current base_dir st ->
  Forall save_works actions ->
  file_current base_dir (fst (session base_dir actions st))
  /\ wf_records (app_notifications (fst (session base_dir actions st))) = true.
Proof.
  revert st. induction actions as [| [f | b env line] rest IH];
    intros st Hs Hwf Hfile Hsave.
  - split; assumption.
  - cbn [session]. apply IH; try assumption. now inversion Hsave.
  - cbn [session]. inversion Hsave as [| a l' Hsw Hrest]. subst.
    cbn [save_works] in Hsw. destruct Hsw as [Ho Hw].
    destruct (press_cases b env base_dir line st Hs)
      as [(f & tr & ->) | (l & tr & -> & Hl)].
    + specialize (IH (mk_app_state (app_notifications st) f (app_tree st) (app_disk st))
                    Hs Hwf Hfile Hrest).
      destruct (session base_dir rest _) as [st'' [tr' r]]. exact IH.
    + assert (wf_records l = true) as Hwf'.
      { apply wf_records_all. intros d Hd.
        pose proof (proj1 (wf_records_all _) Hwf) as Hall.
        destruct Hl as [(data & notif & Hv & Hn & ->)
                       | [(i & old & data & notif & Hold & Hv & Hu & ->) | (i & ->)]].
        - apply in_app_iff in Hd as [Hd | [<- | []]]; [now apply Hall |].
          apply (wf_form_record env (app_form st) data notif Hv). now left.
        - apply in_list_setitem in Hd as [-> | Hd]; [| now apply Hall].
          apply (wf_form_record env (app_form st) data notif Hv). right.
          exists old. split; [| exact Hu]. apply Hall. eapply nth_error_In, Hold.
        - apply Hall. eapply in_list_pop, Hd. }
      match goal with
      | |- context [session base_dir rest ?s] =>
          specialize (IH s eq_refl Hwf'
                        (saved_file_current (form_save env) base_dir l (app_disk st)
                           Hwf' Ho Hw) Hrest);
          destruct (session base_dir rest s) as [st'' [tr' r]]
      end.
      exact IH.
Qed.

Lemma never_raising_iff (notif : dict) :
  never_raising notif
  <-> (get notif "repeat" (VStr "Once") = VStr "Weekly" ->
       forall now : datetime,
         exists w, py_int (get notif "created_weekday" (VInt (weekday now))) = Ret w).
Proof.
  split.
  - intros H Hw now. destruct (H now now) as [b Hb].
    rewrite (should_fire_weekly_reads now now notif Hw) in Hb.
    destruct (py_int (get notif "created_weekday" (VInt (weekday now)))) as [w |];
      [eauto | discriminate Hb].
  - intros H now tnow. apply should_fire_returns. intros Hw. exact (H Hw now).
Qed.

Lemma mark_fired_created_weekday (m : datetime) (notif : dict) (default : value) :
  get (_mark_fired m notif) "created_weekday" default
  = get notif "created_weekday" default.
Proof.
  unfold _mark_fired.
  destruct (eq_str (get notif "repeat" (VStr "Once")) "Once");
    [apply get_set_ne; discriminate |].
  destruct (eq_str (get notif "repeat" (VStr "Once")) "Daily");
    [apply get_set_ne; discriminate |].
  destruct (eq_str (get notif "repeat" (VStr "Once")) "Weekly");
    [apply get_set_ne; discriminate | reflexivity].
Qed.

Lemma never_raising_mark_fired (m : datetime) (notif : dict) :
  never_raising notif -> never_raising (_mark_fired m notif).
Proof.
  rewrite !never_raising_iff. intros H Hw now.
  rewrite mark_fired_repeat in Hw. rewrite mark_fired_created_weekday. exact (H Hw now).
Qed.

Lemma never_raising_form_record (env : form_env) (f : form_vars) (data notif : dict) :
  snd (validation f) = Some data -> form_record env f data notif ->
  never_raising notif.
Proof.
  intros Hv Hr now tnow.
  destruct (form_record_fields env f data notif Hv Hr)
    as (t & wd & _ & _ & _ & _ & _ & _ & _ & Hcw & _).
  apply should_fire_returns. intros _. exists wd.
  now rewrite (get_of_lookup _ _ _ _ Hcw).
Qed.

(** X19. The records the form makes never make [_should_fire] raise: if
    [_should_fire] raises on no record of the list at the start of a
    session of typing and pressing Create, Update, Delete and Clear, it
    raises on no record of the list at its end, also after [_mark_fired]
    has marked the record at any instant. A record with a
    [created_weekday] that is not a number comes from the file only. *)
Theorem session_keeps_records_safe (base_dir : string) (actions : list action)
    (st : app_state) :
  in_sync st -> Forall never_raising (app_notifications st) ->
  forall notif,
    In notif (app_notifications (fst (session base_dir actions st))) ->
    never_raising notif /\ forall m, never_raising (_mark_fired m notif).
Proof.
  intros Hs Hsafe.
  assert (Forall never_raising (app_notifications (fst (session base_dir actions st))))
    as Hend.
  { revert st Hs Hsafe. induction actions as [| [f | b env line] rest IH];
      intros st Hs Hsafe.
    - exact Hsafe.
    - cbn [session]. apply IH; assumption.
    - cbn [session].
      destruct (press_cases b env base_dir line st Hs)
        as [(f & tr & ->) | (l & tr & -> & Hl)].
      + specialize (IH (mk_app_state (app_notifications st) f (app_tree st) (app_disk st))
                      Hs Hsafe).
        destruct (session base_dir rest _) as [st'' [tr' r]]. exact IH.
      + assert (Forall never_raising l) as Hsafe'.
        { apply Forall_forall. intros d Hd.
          pose proof (proj1 (Forall_forall _ _) Hsafe) as Hall.
          destruct Hl as [(data & notif & Hv & Hn & ->)
                         | [(i & old & data & notif & Hold & Hv & Hu & ->) | (i & ->)]].
          - apply in_app_iff in Hd as [Hd | [<- | []]]; [now apply Hall |].
            apply (never_raising_form_record env (app_form st) data notif Hv). now left.
          - apply in_list_setitem in Hd as [-> | Hd]; [| now apply Hall].
            apply (never_raising_form_record env (app_form st) data notif Hv).
            right. eauto.
          - apply Hall. eapply in_list_pop, Hd. }
        match goal with
        | |- context [session base_dir rest ?s] =>
            specialize (IH s eq_refl Hsafe');
            destruct (session base_dir rest s) as [st'' [tr' r]]
        end.
        exact IH. }
  intros notif Hin. pose proof (proj1 (Forall_forall _ _) Hend notif Hin) as Hn.
  split; [exact Hn |]. intros m. now apply never_raising_mark_fired.
Qed.

(* ===================================================================== *)
(** * [_first_existing] *)
(* ===================================================================== *)

(** X20. [_first_existing] returns the first path of the list that is not
    empty and exists, and [None] exactly when the list has no such path. *)
Theorem first_existing_spec (exists_ : string -> bool) (paths : list string) :
  (forall p,
      _first_existing exists_ paths = Some p <->
      exists pre post,
        paths = (pre ++ p :: post)%list /\ p <> "" /\ exists_ p = true
        /\ forall q, In q pre -> q = "" \/ exists_ q = false)
  /\ (_first_existing exists_ paths = None <->
      forall q, In q paths -> q = "" \/ exists_ q = false).
Proof.
  induction paths as [| x paths [IH1 IH2]].
  - split.
    + intros p. split; [discriminate |].
      intros (pre & post & H & _). now destruct pre.
    + split; [intros _ q [] | reflexivity].
  - cbn [_first_existing].
    assert (nonempty x && exists_ x = false <-> x = "" \/ exists_ x = false) as Hx.
    { unfold nonempty. destruct (String.eqb_spec x ""); destruct (exists_ x); cbn;
        intuition congruence. }
    destruct (nonempty x && exists_ x) eqn:E.
    + apply andb_prop in E as [E1 E2].
      unfold nonempty in E1. apply negb_true_iff, String.eqb_neq in E1.
      split.
      * intros p. split.
        -- intros H. injection H as <-. exists [], paths. repeat split; auto.
           intros q [].
        -- intros (pre & post & H & Hp & He & Hpre).
           destruct pre as [| y pre]; cbn [app] in H; [congruence |].
           injection H as <- _.
           destruct (Hpre x (or_introl eq_refl)) as [Hq | Hq]; congruence.
      * split; [discriminate |].
        intros H. destruct (H x (or_introl eq_refl)); congruence.
    + clear E. pose proof (proj1 Hx eq_refl) as E. split.
      * intros p. rewrite IH1. split.
        -- intros (pre & post & -> & Hp & He & Hpre).
           exists (x :: pre), post. repeat split; auto.
           intros q [<- | Hq]; auto.
        -- intros (pre & post & H & Hp & He & Hpre).
           destruct pre as [| y pre]; cbn [app] in H.
           ++ injection H as -> _. destruct E; congruence.
           ++ injection H as <- ->. exists pre, post. repeat split; auto.
              intros q Hq. apply Hpre. now right.
      * rewrite IH2. split.
        -- intros H q [<- | Hq]; auto.
        -- intros H q Hq. apply H. now right.
Qed.

(* ===================================================================== *)
(** * Closing to the tray *)
(* ===================================================================== *)

(** X21. [_on_close] on a window that is not destroyed raises only when
    [self.root.destroy()] does, with its exception.  When it returns, the
    window is not left shown: it is withdrawn, and then run-in-background is
    on, the tray library is there, hiding the window did not raise and
    [self.tray] holds an icon, so that the window can be shown again from
    the tray; or it is destroyed, which is what happens whenever
    run-in-background is off, the tray library is missing, or making the
    icon or hiding the window raises.  [_do_show] on the withdrawn window
    shows it and leaves no icon when [self.root.deiconify()] returns; that
    call is not guarded, so [_do_show] raises when it raises, and it raises
    [TclError] on a destroyed window, leaving the window and the icon as
    they were. *)
Theorem on_close_never_strands (env : tray_env) (sh : shell) :
  root_window sh <> Destroyed ->
  (forall e, snd (_on_close env sh) = Raise e -> destroy_result env = Raise e)
  /\ (snd (_on_close env sh) = Ret tt ->
      (root_window (fst (_on_close env sh)) = Withdrawn
       /\ tray (fst (_on_close env sh)) = true
       /\ run_bg env = true /\ pystray_available env = true
       /\ raises (withdraw_result env) = false
       /\ (deiconify_result env = Ret tt ->
           _do_show env (fst (_on_close env sh)) = (mk_shell Shown false, Ret tt))
       /\ (forall e, deiconify_result env = Raise e ->
           _do_show env (fst (_on_close env sh)) = (fst (_on_close env sh), Raise e)))
      \/ (root_window (fst (_on_close env sh)) = Destroyed
          /\ _do_show env (fst (_on_close env sh))
             = (fst (_on_close env sh), Raise TclError)))
  /\ (run_bg env = false \/ pystray_available env = false
      \/ raises (withdraw_result env) = true
      \/ (tray sh = false
          /\ (raises (tray_image_result env) = true
              \/ raises (tray_icon_result env) = true
              \/ raises (thread_start_result env) = true)) ->
      snd (_on_close env sh) = Ret tt ->
      root_window (fst (_on_close env sh)) = Destroyed).
Proof.
  destruct sh as [w tr]. cbn [root_window tray]. intros Hw.
  assert (forall r, tk_call w r = r) as Htk by (destruct w; [reflexivity .. | contradiction]).
  unfold _on_close, _start_tray, root_destroy. cbn [root_window tray].
  split; [| split].
  - intros e.
    destruct (run_bg env), (pystray_available env), tr,
      (tray_image_result env) as [[] |], (tray_icon_result env) as [[] |],
      (thread_start_result env) as [[] |]; cbn [andb negb bind fst snd root_window tray];
      rewrite ?Htk;
      destruct (withdraw_result env) as [[] |], (destroy_result env) as [[] |];
      cbn [fst snd]; congruence.
  - destruct (run_bg env), (pystray_available env), tr,
      (tray_image_result env) as [[] |], (tray_icon_result env) as [[] |],
      (thread_start_result env) as [[] |]; cbn [andb negb bind fst snd root_window tray];
      rewrite ?Htk;
      destruct (withdraw_result env) as [[] |], (destroy_result env) as [[] |];
      cbn [fst snd root_window tray raises]; intros H; try discriminate H;
      first [ right; split; reflexivity
            | left; unfold _do_show; cbn [root_window tray tk_call];
              do 5 (split; [reflexivity |]); split;
              [ intros Hd; rewrite Hd; destruct (tray_stop_result env); reflexivity
              | intros x Hd; rewrite Hd; reflexivity ] ].
  - destruct (run_bg env), (pystray_available env), tr,
      (tray_image_result env) as [[] |], (tray_icon_result env) as [[] |],
      (thread_start_result env) as [[] |]; cbn [andb negb bind fst snd root_window tray];
      rewrite ?Htk;
      destruct (withdraw_result env) as [[] |], (destroy_result env) as [[] |];
      cbn [fst snd root_window tray raises];
      intros [H | [H | [H | [H [H' | [H' | H']]]]]] Hr;
      first [reflexivity | discriminate].
Qed.

(* ===================================================================== *)
(** * The theorems on the sample forms *)
(* ===================================================================== *)

Lemma validate_inputs_accepts_witness :
  snd (_validate_inputs dentist_form false) = Ret (Some dentist_data)
  /\ exists h m,
       get dentist_data "time" VNone
       = VStr (fixed_digits 2 h ++ ":" ++ fixed_digits 2 m)
       /\ 0 <= h <= 35 /\ 0 <= m <= 59.
Proof.
  split; [reflexivity |].
  exact (proj1 (proj2 (validate_inputs_accepts dentist_form false dentist_data eq_refl))).
Defined.

Lemma validate_inputs_accepts_standard_witness :
  _validate_inputs standup_form false = ([], Ret (Some standup_data)).
Proof.
  apply (validate_inputs_accepts_standard standup_form false 2 30).
  - vm_compute. discriminate.
  - vm_compute. discriminate.
  - vm_compute. discriminate.
  - vm_compute. discriminate.
  - reflexivity.
  - lia.
  - lia.
  - left. split; [reflexivity |]. vm_compute. discriminate.
Defined.

Lemma form_daily_due_witness :
  _should_fire friday_1430 friday_1430 (created_of standup_data) = Ret true.
Proof.
  destruct (form_daily_due office standup_form false standup_data
              (created_of standup_data) friday_1430 friday_1430
              eq_refl (or_introl eq_refl) eq_refl eq_refl) as (t & Ht & Hiff & _).
  vm_compute in Ht. injection Ht as Ht. subst t.
  apply Hiff. split; reflexivity.
Defined.

Lemma form_weekly_due_witness :
  _should_fire next_friday_0900 next_friday_0900 (created_of review_data) = Ret true.
Proof.
  destruct (form_weekly_due office review_form false review_data
              (created_of review_data) next_friday_0900 next_friday_0900
              eq_refl (or_introl eq_refl) eq_refl eq_refl)
    as (t & anchor & Ht & _ & Hanchor & Hiff).
  destruct (Hanchor ltac:(vm_compute; discriminate)) as (d & Hd & Ha).
  vm_compute in Ht, Hd. injection Ht as Ht. injection Hd as Hd. subst t d anchor.
  apply Hiff. repeat split.
Defined.

Lemma form_once_due_witness :
  _should_fire friday_0900 friday_0900 (created_of dentist_data) = Ret true.
Proof.
  destruct (form_once_due office dentist_form false dentist_data
              (created_of dentist_data) friday_0900 friday_0900
              eq_refl (or_introl eq_refl) eq_refl eq_refl)
    as (t & d & Ht & Hd & Hiff & _).
  vm_compute in Ht, Hd. injection Ht as Ht. injection Hd as Hd. subst t d.
  apply Hiff. reflexivity.
Defined.

Lemma pm_past_noon_never_due_witness :
  snd (_validate_inputs late_form false) = Ret (Some late_data)
  /\ get (created_of late_data) "time" VNone = VStr "26:30"
  /\ _should_fire friday_1430 friday_1430 (created_of late_data) = Ret false.
Proof.
  split; [reflexivity |].
  destruct (pm_past_noon_never_due office late_form false late_data
              (created_of late_data) (mk_datetime 1900 1 1 14 30 0)
              friday_1430 friday_1430
              eq_refl (or_introl eq_refl) eq_refl eq_refl ltac:(cbn; lia) eq_refl)
    as (H1 & _ & H2).
  split; [exact H1 | exact H2].
Defined.

Lemma form_record_should_fire_returns_witness :
  exists b : bool,
    _should_fire friday_0900 friday_0900 (created_of review_data) = Ret b.
Proof.
  exact (form_record_should_fire_returns office review_form false review_data
           (created_of review_data) friday_0900 friday_0900
           eq_refl (or_introl eq_refl)).
Defined.

Lemma item_selected_shows_entered_witness :
  exists st',
    item_selected office (Some 0%nat) (desk_with [created_of dentist_data] blank_form)
    = Ret (Some st')
    /\ time_var (app_form st') = "09:00" /\ ampm_var (app_form st') = "AM".
Proof.
  destruct (item_selected_shows_entered office office dentist_form false dentist_data
              (created_of dentist_data) (mk_datetime 1900 1 1 9 0 0) 0%nat
              (desk_with [created_of dentist_data] blank_form)
              eq_refl (or_introl eq_refl) eq_refl ltac:(cbn; lia) (or_introl eq_refl)
              eq_refl)
    as (st' & H1 & _ & _ & _ & _ & H5 & H6 & _).
  exists st'. split; [exact H1 |]. split; [exact H5 | exact H6].
Defined.

Lemma item_selected_then_validate_witness :
  exists st',
    item_selected office (Some 0%nat) (desk_with [created_of dentist_data] blank_form)
    = Ret (Some st')
    /\ _validate_inputs (app_form st') true = ([], Ret (Some dentist_data)).
Proof.
  exact (item_selected_then_validate office office dentist_form false true dentist_data
           (created_of dentist_data) (mk_datetime 1900 1 1 9 0 0) 0%nat
           (desk_with [created_of dentist_data] blank_form)
           eq_refl (or_introl eq_refl) eq_refl ltac:(cbn; lia) eq_refl).
Defined.

Lemma update_notification_in_place_witness :
  snd (snd (update_notification office "C:\app" (Some 0%nat) (desk standup_form)))
  = Ret tt.
Proof.
  exact (proj1 (update_notification_in_place office "C:\app" 0%nat (desk standup_form)
                  daily_record eq_refl)).
Defined.

Lemma updated_notification_merge_witness :
  exists notif,
    updated_notification office standup_form standup_data daily_record = Ret notif
    /\ dict_lookup "last_fired_date" notif = Some VNone.
Proof.
  eexists. split; [reflexivity |].
  exact (proj1 (proj2 (updated_notification_merge office standup_form true standup_data
                         daily_record _ eq_refl eq_refl))).
Defined.

Lemma delete_notification_effect_witness :
  snd (snd (delete_notification office "C:\app" (Some 1%nat) (desk blank_form)))
  = Ret tt.
Proof.
  exact (proj1 (delete_notification_effect office "C:\app" 1%nat (desk blank_form)
                  ltac:(cbn; lia))).
Defined.

Lemma session_never_raises_witness :
  snd (snd (session "C:\app" busy_session (desk blank_form))) = Ret tt
  /\ in_sync (fst (session "C:\app" busy_session (desk blank_form))).
Proof. exact (session_never_raises "C:\app" busy_session (desk blank_form) eq_refl). Defined.

Lemma session_keeps_file_current_witness :
  file_current "C:\app" (fst (session "C:\app" busy_session (desk_with [] blank_form))).
Proof.
  apply (session_keeps_file_current "C:\app" busy_session (desk_with [] blank_form)).
  - reflexivity.
  - reflexivity.
  - reflexivity.
  - repeat constructor.
Defined.

Lemma validate_inputs_time_rule_witness :
  ~ exists pH pM H M,
      "9:60" = pH ++ String ":"%char pM
      /\ digit_text pH H /\ digit_text pM M /\ 0 <= H <= 23 /\ 0 <= M <= 59.
Proof.
  exact (proj1 (validate_inputs_time_rule
                  (mk_form_vars "Tea" "Kettle on" "" "9:60" "AM" "Daily" "Normal" None
                     "No image selected") false eq_refl) eq_refl).
Defined.

Lemma item_selected_repairs_late_hour_witness :
  exists st' data',
    item_selected office (Some 0%nat) (desk_with [created_of late_data] blank_form)
    = Ret (Some st')
    /\ time_var (app_form st') = "02:30" /\ ampm_var (app_form st') = "PM"
    /\ _validate_inputs (app_form st') true = ([], Ret (Some data'))
    /\ get data' "time" VNone = VStr "14:30".
Proof.
  destruct (item_selected_repairs_late_hour office office late_form false true late_data
              (created_of late_data) (mk_datetime 1900 1 1 14 30 0) 0%nat
              (desk_with [created_of late_data] blank_form)
              eq_refl (or_introl eq_refl) eq_refl eq_refl ltac:(cbn; lia) eq_refl)
    as (st' & data' & H1 & H2 & H3 & H4 & H5 & _).
  exists st', data'. auto.
Defined.

Lemma session_keeps_records_safe_witness :
  never_raising (created_of dentist_data)
  /\ forall m, never_raising (_mark_fired m (created_of dentist_data)).
Proof.
  apply (session_keeps_records_safe "C:\app" busy_session (desk blank_form)).
  - reflexivity.
  - repeat constructor; intros now tnow; apply should_fire_returns; intros _;
      eexists; reflexivity.
  - vm_compute. right. left. reflexivity.
Defined.

Lemma on_close_never_strands_witness :
  _on_close tray_works (mk_shell Shown false) = (mk_shell Withdrawn true, Ret tt)
  /\ _do_show tray_works (mk_shell Withdrawn true) = (mk_shell Shown false, Ret tt)
  /\ root_window (fst (_on_close tray_fails (mk_shell Shown false))) = Destroyed
  /\ _do_show tray_fails (fst (_on_close tray_fails (mk_shell Shown false)))
     = (fst (_on_close tray_fails (mk_shell Shown false)), Raise TclError).
Proof.
  assert (root_window (mk_shell Shown false) <> Destroyed) as Hw by discriminate.
  destruct (on_close_never_strands tray_works (mk_shell Shown false) Hw)
    as (_ & Hret & _).
  destruct (on_close_never_strands tray_fails (mk_shell Shown false) Hw)
    as (_ & Hret' & Hdes).
  split; [reflexivity |].
  split.
  - destruct (Hret eq_refl) as [(_ & _ & _ & _ & _ & Hshow & _) | (Hd & _)].
    + exact (Hshow eq_refl).
    + discriminate Hd.
  - split.
    + apply Hdes; [| reflexivity]. right. right. right. split; [reflexivity |].
      right. left. reflexivity.
    + destruct (Hret' eq_refl) as [(Hd & _) | (_ & Hshow)].
      * discriminate Hd.
      * exact Hshow.
Defined.
